(** * Litex-CNC toolerator: step pulse generator and turret sequencer

    A shallow embedding of the synchronous logic in
    [litexcnc_toolerator/firmware/stepgen.py] and
    [litexcnc_toolerator/firmware/toolerator.py].

    The firmware is a Migen description: every [sync] statement reads the
    register values of the current clock tick and schedules a write for the
    next one; when several statements write the same register in one tick
    the statement that comes last in the fragment wins.  A module's fragment
    lists its own statements first and the statements of its submodules
    after them.  Expressions are evaluated on unbounded integers and a value
    is cut to the width of a register only when it is assigned.

    A tick is therefore modelled as a function from the old register file
    [o] to the new one, built by threading a "next" register file [n]
    through the statements in fragment order; conditions always read [o]. *)

From Stdlib Require Import ZArith Lia Bool List String.
From Stdlib Require Import QArith Qround Qabs Qpower Lqa.
Import ListNotations.
Open Scope Z_scope.

(** ** Assignment to a register of a given width *)

Definition wrap_unsigned (w x : Z) : Z := x mod 2 ^ w.

Definition wrap_signed (w x : Z) : Z :=
  (x + 2 ^ (w - 1)) mod 2 ^ w - 2 ^ (w - 1).

Definition in_unsigned (w x : Z) : Prop := 0 <= x < 2 ^ w.

Definition in_signed (w x : Z) : Prop := - 2 ^ (w - 1) <= x < 2 ^ (w - 1).

(** A conditional statement: [If c st] runs [st] on the next register file
    when [c] holds on the current one. *)
Definition If {A : Type} (c : bool) (st : A -> A) (n : A) : A :=
  if c then st n else n.

(** ** Double precision

    The constants of the sequencer are computed when the module is built,
    in Python's floats.  A finite double is modelled as the rational it
    denotes.  [nearest] rounds a rational to the nearest double, ties to
    even, with exponents unbounded upwards: it is the rounding of IEEE 754
    division and multiplication, of Python's [int / int] and of the
    conversion of an [int] to a [float], as long as the result stays below
    2^1024 ([overflows] tells when it does not). *)
Module Double.

(** The integer [l] with [2^l <= x < 2^(l+1)], for a positive [x]. *)
Definition ilog2 (x : Q) : Z :=
  let l := Z.log2 (Qnum x) - Z.log2 (Zpos (Qden x)) in
  if Qle_bool (2 ^ l) x then l else l - 1.

Definition round_half_even (x : Q) : Z :=
  let f := Qfloor x in
  match Qcompare (x - inject_Z f) (1 # 2) with
  | Lt => f
  | Gt => f + 1
  | Eq => if Z.even f then f else f + 1
  end.

(** 53 bits of mantissa; below 2^-1022 the last place stays at 2^-1074. *)
Definition nearest_positive (x : Q) : Q :=
  let e := Z.max (-1074) (ilog2 x - 52) in
  Qred (inject_Z (round_half_even (x / 2 ^ e)) * 2 ^ e).

Definition nearest (x : Q) : Q :=
  match Qcompare x 0 with
  | Eq => 0%Q
  | Gt => nearest_positive x
  | Lt => (- nearest_positive (- x))%Q
  end.

(** Python's [int(x)] on a finite float: truncation towards zero. *)
Definition truncate (x : Q) : Z := Z.quot (Qnum x) (Zpos (Qden x)).

Definition overflows (x : Q) : bool := Qle_bool (2 ^ 1024) (Qabs x).

End Double.

(** * The step pulse generator ([stepgen.py]) *)

Module Stepgen.

(** ** Pick-off handling of [StepgenModule.__init__] *)

(** The values [pick_off] can take: an integer, a sequence of integers
    (a list or a tuple), a string, or a value that is not iterable
    ([None], a float, ...). *)
Inductive py_value : Type :=
| PyInt (n : Z)
| PySeq (xs : list Z)
| PyStr (s : string)
| PyOther.

Record pick_offs : Type := {
  pick_off_pos : Z;
  pick_off_vel : Z;
  pick_off_acc : Z
}.

Inductive construction (A : Type) : Type :=
| Built (a : A)
| ValueError (msg : string)
| IndexError
| TypeError (msg : string)
| ZeroDivisionError
| OverflowError.
Arguments Built {A} a.
Arguments ValueError {A} msg.
Arguments IndexError {A}.
Arguments TypeError {A} msg.
Arguments ZeroDivisionError {A}.
Arguments OverflowError {A}.

(** The first exception ends the construction. *)
Definition bind {A B : Type} (c : construction A)
  (f : A -> construction B) : construction B :=
  match c with
  | Built a => f a
  | ValueError msg => ValueError msg
  | IndexError => IndexError
  | TypeError msg => TypeError msg
  | ZeroDivisionError => ZeroDivisionError
  | OverflowError => OverflowError
  end.

(** The value of an expression that did not raise. *)
Definition value {A : Type} (default : A) (c : construction A) : A :=
  match c with
  | Built a => a
  | _ => default
  end.

Definition store_pick_off (pick_off : py_value) : construction pick_offs :=
  match pick_off with
  | PyInt p =>
      Built {| pick_off_pos := p; pick_off_vel := p; pick_off_acc := p |}
  | PySeq xs =>
      if Z.of_nat (List.length xs) <? 3 then
        ValueError "Not enough values for `pick_off`, minimum length is 3."
      else
        let p := List.nth 0 xs 0 in
        let v := Z.max p (List.nth 1 xs 0) in
        let a := Z.max v (List.nth 2 xs 0) in
        Built {| pick_off_pos := p; pick_off_vel := v; pick_off_acc := a |}
  | PyStr _ | PyOther =>
      ValueError
        "`pick_off` must be either a list of pick_offs or a single integer value."
  end.

Definition raises {A : Type} (c : construction A) : bool :=
  match c with
  | Built _ => false
  | _ => true
  end.

(** [create_routine], line 60: the bit [position[pick_off_pos]] of the
    position register, which is [64 + (pick_off_vel - pick_off_pos)] bits
    wide (line 198).  A Migen signal indexed at or beyond its length raises
    IndexError when the expression is built. *)
Definition watched_bit (pk : pick_offs) : construction pick_offs :=
  if 64 + (pick_off_vel pk - pick_off_pos pk) <=? pick_off_pos pk then
    IndexError
  else Built pk.

(** [StepgenModule.__init__] as far as it can raise: the pick-off check
    of lines 174-186, then [create_routine] (line 359). *)
Definition init (pick_off : py_value) : construction pick_offs :=
  bind (store_pick_off pick_off) watched_bit.

(** What [store_pick_off] guarantees about the three pick-offs. *)
Definition ordered (pk : pick_offs) : Prop :=
  pick_off_pos pk <= pick_off_vel pk <= pick_off_acc pk.

(** ** Registers *)

Record signals : Type := {
  (* create_routine *)
  step_prev : bool;
  step : bool;
  dir : bool;
  steplen : Z;
  dir_hold_time : Z;
  dir_setup_time : Z;
  steplen_counter : Z;
  dir_hold_counter : Z;
  dir_setup_counter : Z;
  hold_dds : bool;
  (* StepgenModule *)
  wait : bool;
  position_mode : bool;
  accelerating : bool;
  position : Z;
  position_target : Z;
  acc_distance : Z;
  speed : Z;
  speed_target : Z;
  max_speed : Z;
  max_acceleration : Z
}.

(** Signals driven from outside the generator on every tick. *)
Record inputs : Type := {
  enable : bool;
  reset : bool
}.

(** Register writes. *)
Definition set_step_prev v s :=
  {| step_prev := v; step := step s; dir := dir s; steplen := steplen s;
     dir_hold_time := dir_hold_time s; dir_setup_time := dir_setup_time s;
     steplen_counter := steplen_counter s;
     dir_hold_counter := dir_hold_counter s;
     dir_setup_counter := dir_setup_counter s; hold_dds := hold_dds s;
     wait := wait s; position_mode := position_mode s;
     accelerating := accelerating s; position := position s;
     position_target := position_target s; acc_distance := acc_distance s;
     speed := speed s; speed_target := speed_target s;
     max_speed := max_speed s; max_acceleration := max_acceleration s |}.

Definition set_step v s :=
  {| step_prev := step_prev s; step := v; dir := dir s; steplen := steplen s;
     dir_hold_time := dir_hold_time s; dir_setup_time := dir_setup_time s;
     steplen_counter := steplen_counter s;
     dir_hold_counter := dir_hold_counter s;
     dir_setup_counter := dir_setup_counter s; hold_dds := hold_dds s;
     wait := wait s; position_mode := position_mode s;
     accelerating := accelerating s; position := position s;
     position_target := position_target s; acc_distance := acc_distance s;
     speed := speed s; speed_target := speed_target s;
     max_speed := max_speed s; max_acceleration := max_acceleration s |}.

Definition set_dir v s :=
  {| step_prev := step_prev s; step := step s; dir := v; steplen := steplen s;
     dir_hold_time := dir_hold_time s; dir_setup_time := dir_setup_time s;
     steplen_counter := steplen_counter s;
     dir_hold_counter := dir_hold_counter s;
     dir_setup_counter := dir_setup_counter s; hold_dds := hold_dds s;
     wait := wait s; position_mode := position_mode s;
     accelerating := accelerating s; position := position s;
     position_target := position_target s; acc_distance := acc_distance s;
     speed := speed s; speed_target := speed_target s;
     max_speed := max_speed s; max_acceleration := max_acceleration s |}.

Definition set_steplen_counter v s :=
  {| step_prev := step_prev s; step := step s; dir := dir s;
     steplen := steplen s;
     dir_hold_time := dir_hold_time s; dir_setup_time := dir_setup_time s;
     steplen_counter := v;
     dir_hold_counter := dir_hold_counter s;
     dir_setup_counter := dir_setup_counter s; hold_dds := hold_dds s;
     wait := wait s; position_mode := position_mode s;
     accelerating := accelerating s; position := position s;
     position_target := position_target s; acc_distance := acc_distance s;
     speed := speed s; speed_target := speed_target s;
     max_speed := max_speed s; max_acceleration := max_acceleration s |}.

Definition set_dir_hold_counter v s :=
  {| step_prev := step_prev s; step := step s; dir := dir s;
     steplen := steplen s;
     dir_hold_time := dir_hold_time s; dir_setup_time := dir_setup_time s;
     steplen_counter := steplen_counter s;
     dir_hold_counter := v;
     dir_setup_counter := dir_setup_counter s; hold_dds := hold_dds s;
     wait := wait s; position_mode := position_mode s;
     accelerating := accelerating s; position := position s;
     position_target := position_target s; acc_distance := acc_distance s;
     speed := speed s; speed_target := speed_target s;
     max_speed := max_speed s; max_acceleration := max_acceleration s |}.

Definition set_dir_setup_counter v s :=
  {| step_prev := step_prev s; step := step s; dir := dir s;
     steplen := steplen s;
     dir_hold_time := dir_hold_time s; dir_setup_time := dir_setup_time s;
     steplen_counter := steplen_counter s;
     dir_hold_counter := dir_hold_counter s;
     dir_setup_counter := v; hold_dds := hold_dds s;
     wait := wait s; position_mode := position_mode s;
     accelerating := accelerating s; position := position s;
     position_target := position_target s; acc_distance := acc_distance s;
     speed := speed s; speed_target := speed_target s;
     max_speed := max_speed s; max_acceleration := max_acceleration s |}.

Definition set_hold_dds v s :=
  {| step_prev := step_prev s; step := step s; dir := dir s;
     steplen := steplen s;
     dir_hold_time := dir_hold_time s; dir_setup_time := dir_setup_time s;
     steplen_counter := steplen_counter s;
     dir_hold_counter := dir_hold_counter s;
     dir_setup_counter := dir_setup_counter s; hold_dds := v;
     wait := wait s; position_mode := position_mode s;
     accelerating := accelerating s; position := position s;
     position_target := position_target s; acc_distance := acc_distance s;
     speed := speed s; speed_target := speed_target s;
     max_speed := max_speed s; max_acceleration := max_acceleration s |}.

Definition set_wait v s :=
  {| step_prev := step_prev s; step := step s; dir := dir s;
     steplen := steplen s;
     dir_hold_time := dir_hold_time s; dir_setup_time := dir_setup_time s;
     steplen_counter := steplen_counter s;
     dir_hold_counter := dir_hold_counter s;
     dir_setup_counter := dir_setup_counter s; hold_dds := hold_dds s;
     wait := v; position_mode := position_mode s;
     accelerating := accelerating s; position := position s;
     position_target := position_target s; acc_distance := acc_distance s;
     speed := speed s; speed_target := speed_target s;
     max_speed := max_speed s; max_acceleration := max_acceleration s |}.

Definition set_position_mode v s :=
  {| step_prev := step_prev s; step := step s; dir := dir s;
     steplen := steplen s;
     dir_hold_time := dir_hold_time s; dir_setup_time := dir_setup_time s;
     steplen_counter := steplen_counter s;
     dir_hold_counter := dir_hold_counter s;
     dir_setup_counter := dir_setup_counter s; hold_dds := hold_dds s;
     wait := wait s; position_mode := v;
     accelerating := accelerating s; position := position s;
     position_target := position_target s; acc_distance := acc_distance s;
     speed := speed s; speed_target := speed_target s;
     max_speed := max_speed s; max_acceleration := max_acceleration s |}.

Definition set_accelerating v s :=
  {| step_prev := step_prev s; step := step s; dir := dir s;
     steplen := steplen s;
     dir_hold_time := dir_hold_time s; dir_setup_time := dir_setup_time s;
     steplen_counter := steplen_counter s;
     dir_hold_counter := dir_hold_counter s;
     dir_setup_counter := dir_setup_counter s; hold_dds := hold_dds s;
     wait := wait s; position_mode := position_mode s;
     accelerating := v; position := position s;
     position_target := position_target s; acc_distance := acc_distance s;
     speed := speed s; speed_target := speed_target s;
     max_speed := max_speed s; max_acceleration := max_acceleration s |}.

Definition set_position v s :=
  {| step_prev := step_prev s; step := step s; dir := dir s;
     steplen := steplen s;
     dir_hold_time := dir_hold_time s; dir_setup_time := dir_setup_time s;
     steplen_counter := steplen_counter s;
     dir_hold_counter := dir_hold_counter s;
     dir_setup_counter := dir_setup_counter s; hold_dds := hold_dds s;
     wait := wait s; position_mode := position_mode s;
     accelerating := accelerating s; position := v;
     position_target := position_target s; acc_distance := acc_distance s;
     speed := speed s; speed_target := speed_target s;
     max_speed := max_speed s; max_acceleration := max_acceleration s |}.

Definition set_position_target v s :=
  {| step_prev := step_prev s; step := step s; dir := dir s;
     steplen := steplen s;
     dir_hold_time := dir_hold_time s; dir_setup_time := dir_setup_time s;
     steplen_counter := steplen_counter s;
     dir_hold_counter := dir_hold_counter s;
     dir_setup_counter := dir_setup_counter s; hold_dds := hold_dds s;
     wait := wait s; position_mode := position_mode s;
     accelerating := accelerating s; position := position s;
     position_target := v; acc_distance := acc_distance s;
     speed := speed s; speed_target := speed_target s;
     max_speed := max_speed s; max_acceleration := max_acceleration s |}.

Definition set_acc_distance v s :=
  {| step_prev := step_prev s; step := step s; dir := dir s;
     steplen := steplen s;
     dir_hold_time := dir_hold_time s; dir_setup_time := dir_setup_time s;
     steplen_counter := steplen_counter s;
     dir_hold_counter := dir_hold_counter s;
     dir_setup_counter := dir_setup_counter s; hold_dds := hold_dds s;
     wait := wait s; position_mode := position_mode s;
     accelerating := accelerating s; position := position s;
     position_target := position_target s; acc_distance := v;
     speed := speed s; speed_target := speed_target s;
     max_speed := max_speed s; max_acceleration := max_acceleration s |}.

Definition set_speed v s :=
  {| step_prev := step_prev s; step := step s; dir := dir s;
     steplen := steplen s;
     dir_hold_time := dir_hold_time s; dir_setup_time := dir_setup_time s;
     steplen_counter := steplen_counter s;
     dir_hold_counter := dir_hold_counter s;
     dir_setup_counter := dir_setup_counter s; hold_dds := hold_dds s;
     wait := wait s; position_mode := position_mode s;
     accelerating := accelerating s; position := position s;
     position_target := position_target s; acc_distance := acc_distance s;
     speed := v; speed_target := speed_target s;
     max_speed := max_speed s; max_acceleration := max_acceleration s |}.

Definition set_speed_target v s :=
  {| step_prev := step_prev s; step := step s; dir := dir s;
     steplen := steplen s;
     dir_hold_time := dir_hold_time s; dir_setup_time := dir_setup_time s;
     steplen_counter := steplen_counter s;
     dir_hold_counter := dir_hold_counter s;
     dir_setup_counter := dir_setup_counter s; hold_dds := hold_dds s;
     wait := wait s; position_mode := position_mode s;
     accelerating := accelerating s; position := position s;
     position_target := position_target s; acc_distance := acc_distance s;
     speed := speed s; speed_target := v;
     max_speed := max_speed s; max_acceleration := max_acceleration s |}.

Definition set_max_acceleration v s :=
  {| step_prev := step_prev s; step := step s; dir := dir s;
     steplen := steplen s;
     dir_hold_time := dir_hold_time s; dir_setup_time := dir_setup_time s;
     steplen_counter := steplen_counter s;
     dir_hold_counter := dir_hold_counter s;
     dir_setup_counter := dir_setup_counter s; hold_dds := hold_dds s;
     wait := wait s; position_mode := position_mode s;
     accelerating := accelerating s; position := position s;
     position_target := position_target s; acc_distance := acc_distance s;
     speed := speed s; speed_target := speed_target s;
     max_speed := max_speed s; max_acceleration := v |}.

(** ** The synchronous logic of one generator *)

Section Generator.

Variable pk : pick_offs.
Variable soft_stop : bool.

(** Widths of the position-like and speed-like registers. *)
Definition position_width : Z := 64 + (pick_off_vel pk - pick_off_pos pk).
Definition speed_width : Z := 32 + (pick_off_acc pk - pick_off_vel pk).

(** The shift [pick_off_acc - pick_off_vel] between speed and position. *)
Definition acc_shift : Z := pick_off_acc pk - pick_off_vel pk.

Definition assign_position (x : Z) : Z := wrap_signed position_width x.
Definition assign_speed (x : Z) : Z := wrap_signed speed_width x.

Definition b2z (b : bool) : Z := if b then 1 else 0.

(** Combinatorial signals. *)
Definition dtg (s : signals) : Z :=
  assign_position (position_target s - position s).

Definition stopped (s : signals) : bool :=
  (dtg s <? Z.shiftr (5 * max_acceleration s) acc_shift)
  && (dtg s >? Z.shiftr (-5 * max_acceleration s) acc_shift)
  && (speed s =? 0).

(** The bit of [position] that is watched for steps, and the top bit of
    [speed] that gives the wanted direction. *)
Definition step_bit (s : signals) : bool :=
  Z.testbit (position s) (pick_off_pos pk).

Definition speed_sign (s : signals) : bool :=
  Z.testbit (speed s) (32 + (pick_off_acc pk - pick_off_vel pk) - 1).

(** Lines 217-292: the next speed. *)
Definition velocity_ramp (i : inputs) (o n : signals) : signals :=
  If (negb (reset i) && negb (wait o))
    (fun n =>
       let n := If (negb (enable i)) (set_speed_target 0) n in
       if max_acceleration o =? 0 then
         set_speed (speed_target o) n
       else if speed_target o >=? speed o + max_acceleration o then
         let n :=
           if speed o >=? 0 then
             set_acc_distance
               (assign_position
                  (acc_distance o
                   + Z.shiftr (speed o + Z.shiftr (max_acceleration o) 1)
                       acc_shift)) n
           else
             set_acc_distance
               (assign_position
                  (acc_distance o
                   - Z.shiftr (speed o + Z.shiftr (max_acceleration o) 1)
                       acc_shift)) n in
         let n := set_speed (assign_speed (speed o + max_acceleration o)) n in
         set_accelerating true n
       else if speed_target o <=? speed o - max_acceleration o then
         let n :=
           if speed o >? 0 then
             set_acc_distance
               (assign_position
                  (acc_distance o
                   - Z.shiftr (speed o - Z.shiftr (max_acceleration o) 1)
                       acc_shift)) n
           else
             set_acc_distance
               (assign_position
                  (acc_distance o
                   + Z.shiftr (speed o - Z.shiftr (max_acceleration o) 1)
                       acc_shift)) n in
         let n := set_speed (assign_speed (speed o - max_acceleration o)) n in
         set_accelerating true n
       else
         let n :=
           If (negb (Bool.eqb (position_mode o) true) || (speed_target o =? 0))
             (fun n =>
                let n := set_speed (speed_target o) n in
                If (negb (speed o =? speed_target o))
                  (fun n =>
                     if speed o >=? 0 then
                       set_acc_distance
                         (assign_position
                            (acc_distance o
                             + Z.shiftr (speed o + speed_target o)
                                 (acc_shift + 1))) n
                     else
                       set_acc_distance
                         (assign_position
                            (acc_distance o
                             - Z.shiftr (speed o + speed_target o)
                                 (acc_shift + 1))) n) n) n in
         let n := set_accelerating false n in
         If (speed_target o =? 0) (set_acc_distance 0) n) n.

(** Lines 300-327: the position algorithm. *)
Definition position_algorithm (o n : signals) : signals :=
  if (acc_distance o =? 0) && position_mode o then
    if dtg o >? Z.shiftr (5 * max_acceleration o) acc_shift then
      set_speed_target (max_speed o) n
    else if dtg o <? Z.shiftr (-5 * max_acceleration o) acc_shift then
      set_speed_target (assign_speed (-1 * max_speed o)) n
    else n
  else if (acc_distance o >? 0) && position_mode o then
    if dtg o
       - Z.shiftr ((5 + 4 * b2z (accelerating o)) * speed o
                   + (4 + 4) * b2z (accelerating o) * max_acceleration o)
           (acc_shift + 1) >? acc_distance o
    then set_speed_target (max_speed o) n
    else set_speed_target 0 n
  else if (acc_distance o <? 0) && position_mode o then
    if dtg o
       - Z.shiftr ((5 + 4 * b2z (accelerating o)) * speed o
                   - (4 + 4) * b2z (accelerating o) * max_acceleration o)
           (acc_shift + 1) <? acc_distance o
    then set_speed_target (assign_speed (-1 * max_speed o)) n
    else set_speed_target 0 n
  else n.

(** Lines 332-340: reset. *)
Definition reset_algorithm (i : inputs) (n : signals) : signals :=
  If (reset i)
    (fun n =>
       set_position 0
         (set_max_acceleration 0 (set_speed 0 (set_speed_target 0 n)))) n.

(** Lines 343-356: the position is the running sum of the speed. *)
Definition update_position (i : inputs) (o n : signals) : signals :=
  let integrate :=
    set_position
      (assign_position (position o + Z.shiftr (speed o) acc_shift)) in
  if soft_stop then
    If (negb (reset i) && negb (wait o)) integrate n
  else
    If (negb (reset i) && enable i && negb (wait o)) integrate n.

(** [create_routine], lines 59-76: a step is made when the watched bit
    has toggled, unless a change of direction is being held. *)
Definition routine_step (o n : signals) : signals :=
  If (negb (Bool.eqb (step_bit o) (step_prev o)))
    (fun n =>
       if negb (hold_dds o) then
         let n := set_step_prev (step_bit o) n in
         let n := set_steplen_counter (wrap_unsigned 10 (steplen o)) n in
         let n :=
           set_dir_hold_counter
             (wrap_unsigned 11 (steplen o + dir_hold_time o)) n in
         let n :=
           set_dir_setup_counter
             (wrap_unsigned 13
                (steplen o + dir_hold_time o + dir_setup_time o)) n in
         set_wait false n
       else
         set_wait true n) n.

(** Lines 78-81. *)
Definition routine_release (o n : signals) : signals :=
  If (dir_setup_counter o =? 0) (set_hold_dds false) n.

(** Lines 85-90. *)
Definition routine_step_output (o n : signals) : signals :=
  if steplen_counter o >? 0 then set_step true n else set_step false n.

(** Lines 92-108. *)
Definition routine_dir (o n : signals) : signals :=
  If (negb (Bool.eqb (dir o) (speed_sign o)))
    (fun n =>
       let n := set_hold_dds true n in
       let n :=
         If (dir_setup_counter o =? 0)
           (set_dir_setup_counter (wrap_unsigned 13 (dir_setup_time o))) n in
       If (dir_hold_counter o =? 0) (set_dir (speed_sign o)) n) n.

(** [StepgenCounter]: the three counters are submodules, so their
    statements come after those of the generator itself. *)
Definition counters (o n : signals) : signals :=
  let n :=
    If (steplen_counter o >? 0)
      (set_steplen_counter (wrap_unsigned 10 (steplen_counter o - 1))) n in
  let n :=
    If (dir_hold_counter o >? 0)
      (set_dir_hold_counter (wrap_unsigned 11 (dir_hold_counter o - 1))) n in
  If (dir_setup_counter o >? 0)
    (set_dir_setup_counter (wrap_unsigned 13 (dir_setup_counter o - 1))) n.

(** All statements of the generator in fragment order.  [n] already holds
    the writes of the statements that come before the generator's own
    (those of the module that owns it). *)
Definition sync (i : inputs) (o n : signals) : signals :=
  let n := velocity_ramp i o n in
  let n := position_algorithm o n in
  let n := reset_algorithm i n in
  let n := update_position i o n in
  let n := routine_step o n in
  let n := routine_release o n in
  let n := routine_step_output o n in
  let n := routine_dir o n in
  counters o n.

(** Writes of the owner of the generator to its targets and mode in one
    tick (a test bench, or the sequencer below). *)
Record owner_writes : Type := {
  write_position_mode : option bool;
  write_speed_target : option Z;
  write_position_target : option Z
}.

Definition no_writes : owner_writes :=
  {| write_position_mode := None;
     write_speed_target := None;
     write_position_target := None |}.

Definition owner (w : owner_writes) (n : signals) : signals :=
  let n :=
    match write_position_mode w with
    | Some b => set_position_mode b n
    | None => n
    end in
  let n :=
    match write_speed_target w with
    | Some v => set_speed_target (assign_speed v) n
    | None => n
    end in
  match write_position_target w with
  | Some v => set_position_target (assign_position v) n
  | None => n
  end.

(** Inputs of a tick that leave the generator to itself: enabled, no
    reset, no write by the owner. *)
Definition undisturbed (iw : inputs * owner_writes) : Prop :=
  enable (fst iw) = true /\ reset (fst iw) = false /\ snd iw = no_writes.

(** The owner writes no speed target beyond [m] in either direction. *)
Definition writes_within (m : Z) (w : owner_writes) : Prop :=
  match write_speed_target w with
  | Some v => - m <= v <= m
  | None => True
  end.

(** One clock tick of a generator on its own. *)
Definition tick (iw : inputs * owner_writes) (o : signals) : signals :=
  sync (fst iw) o (owner (snd iw) o).

(** [run ins k s]: the registers after the first [k] ticks, tick [j]
    reading the inputs [ins j]. *)
Fixpoint run (ins : nat -> inputs * owner_writes) (k : nat) (s : signals)
  : signals :=
  match k with
  | O => s
  | S k' => tick (ins k') (run ins k' s)
  end.

(** The tick that starts in [s] makes a step: the watched bit has toggled
    and no change of direction is held ([routine_step]). *)
Definition makes_step (s : signals) : bool :=
  negb (Bool.eqb (step_bit s) (step_prev s)) && negb (hold_dds s).

(** Among the first [k] ticks of a run, the number of ticks on which the
    generator was not waiting for a direction set-up. *)
Fixpoint ramp_ticks (ins : nat -> inputs * owner_writes) (k : nat)
  (s : signals) : nat :=
  match k with
  | O => O
  | S k' =>
      (ramp_ticks ins k' s + (if wait (run ins k' s) then 0 else 1))%nat
  end.

(** The register file after power-up: everything at 0 but [dir]. *)
Definition power_up : signals :=
  {| step_prev := false; step := false; dir := true;
     steplen := 0; dir_hold_time := 0; dir_setup_time := 0;
     steplen_counter := 0; dir_hold_counter := 0; dir_setup_counter := 0;
     hold_dds := false; wait := false; position_mode := false;
     accelerating := false; position := 0; position_target := 0;
     acc_distance := 0; speed := 0; speed_target := 0;
     max_speed := 0; max_acceleration := 0 |}.

(** Register contents that fit the declared widths. *)
Record fits (s : signals) : Prop := {
  fits_steplen : in_unsigned 10 (steplen s);
  fits_dir_hold_time : in_unsigned 10 (dir_hold_time s);
  fits_dir_setup_time : in_unsigned 12 (dir_setup_time s);
  fits_steplen_counter : in_unsigned 10 (steplen_counter s);
  fits_dir_hold_counter : in_unsigned 11 (dir_hold_counter s);
  fits_dir_setup_counter : in_unsigned 13 (dir_setup_counter s);
  fits_position : in_signed position_width (position s);
  fits_position_target : in_signed position_width (position_target s);
  fits_acc_distance : in_signed position_width (acc_distance s);
  fits_speed : in_signed speed_width (speed s);
  fits_speed_target : in_signed speed_width (speed_target s);
  fits_max_speed : in_signed speed_width (max_speed s);
  fits_max_acceleration : in_unsigned 32 (max_acceleration s)
}.

End Generator.

End Stepgen.

(** * The turret sequencer ([toolerator.py]) *)

Module Toolerator.

Inductive TooleratorStates : Type :=
| START
| HOME_SEARCHING
| HOME_BACK_OFF
| HOME_LATCHING
| HOME_MOVE_TO_ZERO
| MOVING_FORWARD
| MOVING_BACKWARD
| READY
| ERROR.

(** [config.homing], a [TooleratorHomingConfig].  pydantic stores the
    fields declared [float] as floats, also when the configuration file
    gives an integer; the optional ones default to [None]. *)
Record homing_config : Type := {
  invert_home : bool;
  home_back_off : option Q;
  home_latch_vel : Q;
  (* [home_position]; the name is taken by the register below *)
  home_position_angle : option Q
}.

(** A [TooleratorInstanceConfig]: [tool_count] and [ppr] are integers,
    [over_travel] (degrees) is a float. *)
Record config : Type := {
  tool_count : Z;
  ppr : Z;
  over_travel : Q;
  homing : option homing_config;
  (* the constants written to the generator, lines 90-96 *)
  stepgen_max_acceleration : Z;
  stepgen_max_speed : Z;
  stepgen_steplen : Z;
  stepgen_dir_hold_time : Z;
  stepgen_dir_setup_time : Z
}.

Record registers : Type := {
  step_generator : Stepgen.signals;
  current_tool : Z;
  moving_to_tool : Z;
  home_position : Z;
  homed : bool;
  state : TooleratorStates
}.

(** Signals driven from outside the sequencer on every tick.
    [home_triggered] is read by the homing block only. *)
Record inputs : Type := {
  enable : bool;
  commanded_tool : Z;
  home : bool;
  home_triggered : bool
}.

Definition on_generator (f : Stepgen.signals -> Stepgen.signals)
  (r : registers) : registers :=
  {| step_generator := f (step_generator r);
     current_tool := current_tool r; moving_to_tool := moving_to_tool r;
     home_position := home_position r; homed := homed r; state := state r |}.

Definition set_current_tool v r :=
  {| step_generator := step_generator r;
     current_tool := v; moving_to_tool := moving_to_tool r;
     home_position := home_position r; homed := homed r; state := state r |}.

Definition set_moving_to_tool v r :=
  {| step_generator := step_generator r;
     current_tool := current_tool r; moving_to_tool := v;
     home_position := home_position r; homed := homed r; state := state r |}.

Definition set_home_position v r :=
  {| step_generator := step_generator r;
     current_tool := current_tool r; moving_to_tool := moving_to_tool r;
     home_position := v; homed := homed r; state := state r |}.

Definition set_state v r :=
  {| step_generator := step_generator r;
     current_tool := current_tool r; moving_to_tool := moving_to_tool r;
     home_position := home_position r; homed := homed r; state := v |}.

(** ** The expressions evaluated while the module is built *)

Local Abbreviation construction := Stepgen.construction.
Local Abbreviation Built := Stepgen.Built.
Local Abbreviation bind := Stepgen.bind.

(** [a << n] on integers. *)
Definition lshift (a n : Z) : construction Z :=
  if n <? 0 then Stepgen.ValueError "negative shift count"
  else Built (Z.shiftl a n).

(** [x << n] with a float on the left: floats have no shift. *)
Definition lshift_float (x : Q) (n : Z) : construction Z :=
  Stepgen.TypeError "unsupported operand type(s) for <<: 'float' and 'int'".

(** [int(a / b)] on integers: the quotient is rounded to a double, the
    double truncated. *)
Definition int_of_quotient (a b : Z) : construction Z :=
  if b =? 0 then Stepgen.ZeroDivisionError
  else
    let q := Double.nearest (inject_Z a / inject_Z b) in
    if Double.overflows q then Stepgen.OverflowError
    else Built (Double.truncate q).

(** [int(a * (x / 360))] for an integer [a] and a float [x]: [x / 360]
    is rounded, [a] is converted to a float, the product is rounded and
    truncated.  A product beyond the range of the doubles is infinite, and
    [int] raises on it. *)
Definition int_of_fraction (a : Z) (x : Q) : construction Z :=
  let f := Double.nearest (inject_Z a) in
  if Double.overflows f then Stepgen.OverflowError
  else
    let p := Double.nearest (f * Double.nearest (x / 360)) in
    if Double.overflows p then Stepgen.OverflowError
    else Built (Double.truncate p).

(** [config.homing.home_back_off or config.over_travel] *)
Definition back_off_angle (over_travel : Q) (h : homing_config) : Q :=
  match home_back_off h with
  | Some x => if Qeq_bool x 0 then over_travel else x
  | None => over_travel
  end.

Section Sequencer.

Variable pk : Stepgen.pick_offs.
Variable cfg : config.

Local Abbreviation sg := step_generator.
Local Abbreviation assign_position := (Stepgen.assign_position pk).
Local Abbreviation assign_speed := (Stepgen.assign_speed pk).
Local Abbreviation stopped := (Stepgen.stopped pk).

(** [int((config.ppr << pick_off_pos) / config.tool_count)], lines 161
    and 168, and its value in a module that has been built. *)
Definition tool_pitch_expr : construction Z :=
  bind (lshift (ppr cfg) (Stepgen.pick_off_pos pk))
    (fun a => int_of_quotient a (tool_count cfg)).

Definition tool_pitch : Z := Stepgen.value 0 tool_pitch_expr.

(** [int((config.ppr << pick_off_pos) * (config.over_travel / 360))],
    lines 143, 162 and 169. *)
Definition over_travel_expr : construction Z :=
  bind (lshift (ppr cfg) (Stepgen.pick_off_pos pk))
    (fun a => int_of_fraction a (over_travel cfg)).

Definition over_travel_units : Z := Stepgen.value 0 over_travel_expr.

(** Lines 123-178: the main block of the state machine. *)
Definition fsm (i : inputs) (o n : registers) : registers :=
  match state o with
  | START =>
      let n :=
        If (Bool.eqb (homed o) true)
          (fun n =>
             let n := on_generator (Stepgen.set_position_mode true) n in
             set_state READY n) n in
      (* [self.home == 1 | (...)]: Python reads this as
         [self.home == (1 | (...))] *)
      If (Bool.eqb (home i)
            (true || (negb (current_tool o =? commanded_tool i)
                      && negb (homed o))))
        (fun n =>
           let n := on_generator (Stepgen.set_position_mode false) n in
           let n := set_home_position (Stepgen.position (sg o)) n in
           let n :=
             on_generator
               (Stepgen.set_speed_target (Stepgen.max_speed (sg o))) n in
           set_state HOME_SEARCHING n) n
  | MOVING_FORWARD =>
      If (stopped (sg o))
        (fun n =>
           let n :=
             on_generator
               (Stepgen.set_position_target
                  (assign_position
                     (Stepgen.position_target (sg o) - over_travel_units))) n in
           set_state MOVING_BACKWARD n) n
  | MOVING_BACKWARD =>
      If (stopped (sg o))
        (fun n =>
           let n := set_current_tool (moving_to_tool o) n in
           set_state READY n) n
  | READY =>
      If (negb (current_tool o =? commanded_tool i) && homed o)
        (fun n =>
           let n :=
             if current_tool o <? commanded_tool i then
               on_generator
                 (Stepgen.set_position_target
                    (assign_position
                       (Stepgen.position_target (sg o)
                        + tool_pitch * (commanded_tool i - current_tool o)
                        + over_travel_units))) n
             else
               on_generator
                 (Stepgen.set_position_target
                    (assign_position
                       (Stepgen.position_target (sg o)
                        + tool_pitch
                          * (tool_count cfg + commanded_tool i
                             - current_tool o)
                        + over_travel_units))) n in
           let n := set_moving_to_tool (commanded_tool i) n in
           set_state MOVING_FORWARD n) n
  | _ => n
  end.

(** The generator's inputs: [enable] is passed on (line 108); nothing
    drives its [reset]. *)
Definition generator_inputs (i : inputs) : Stepgen.inputs :=
  {| Stepgen.enable := enable i; Stepgen.reset := false |}.

(** One clock tick: the sequencer's statements ([sequencer_writes]), then
    those of the generator it owns (created with [soft_stop=True]).  The
    homing block of lines 179-247 belongs to configurations for which the
    constructor raises (see [init] below): no module that has been built
    contains it. *)
Definition sequencer_writes (i : inputs) (o : registers) : registers :=
  fsm i o o.

Definition tick (i : inputs) (o : registers) : registers :=
  on_generator (Stepgen.sync pk true (generator_inputs i) (sg o))
    (sequencer_writes i o).

Fixpoint run (ins : nat -> inputs) (k : nat) (r : registers) : registers :=
  match k with
  | O => r
  | S k' => tick (ins k') (run ins k' r)
  end.

(** Power-up: [state] resets to START, [homed] to 1 exactly when no homing
    is configured, everything else to 0; the generator's limits and timings
    are tied to the configured constants. *)
Definition power_up : registers :=
  {| step_generator :=
       {| Stepgen.step_prev := false; Stepgen.step := false;
          Stepgen.dir := true;
          Stepgen.steplen := stepgen_steplen cfg;
          Stepgen.dir_hold_time := stepgen_dir_hold_time cfg;
          Stepgen.dir_setup_time := stepgen_dir_setup_time cfg;
          Stepgen.steplen_counter := 0; Stepgen.dir_hold_counter := 0;
          Stepgen.dir_setup_counter := 0; Stepgen.hold_dds := false;
          Stepgen.wait := false; Stepgen.position_mode := false;
          Stepgen.accelerating := false; Stepgen.position := 0;
          Stepgen.position_target := 0; Stepgen.acc_distance := 0;
          Stepgen.speed := 0; Stepgen.speed_target := 0;
          Stepgen.max_speed := stepgen_max_speed cfg;
          Stepgen.max_acceleration := stepgen_max_acceleration cfg |};
     current_tool := 0;
     moving_to_tool := 0;
     home_position := 0;
     homed := match homing cfg with Some _ => false | None => true end;
     state := START |}.

End Sequencer.



(** The registers of a turret that waits with tool 0 selected, its
    generator at rest at position 0. *)
Definition waiting_at_first_tool (r : registers) : Prop :=
  current_tool r = 0
  /\ homed r = true
  /\ 0 <= Stepgen.max_acceleration (step_generator r)
  /\ Stepgen.position (step_generator r) = 0
  /\ Stepgen.position_target (step_generator r) = 0
  /\ Stepgen.speed (step_generator r) = 0
  /\ Stepgen.speed_target (step_generator r) = 0
  /\ Stepgen.acc_distance (step_generator r) = 0.

(** [int((config.ppr << pick_off_pos)
         * ((config.homing.home_back_off or config.over_travel) / 360))],
    line 204. *)
Definition back_off_expr (pk : Stepgen.pick_offs) (cfg : config)
  (h : homing_config) : Stepgen.construction Z :=
  Stepgen.bind (lshift (ppr cfg) (Stepgen.pick_off_pos pk))
    (fun a => int_of_fraction a (back_off_angle (over_travel cfg) h)).

(** [TooleratorModule.__init__] as far as it can raise, in the order of
    the source: the generator (lines 81-87), the over-travel and the tool
    pitch of the main block (lines 143 and 161) and, when homing is
    configured, the back-off distance (line 204), the latch speed (line
    211) and the test of HOME_MOVE_TO_ZERO (line 233), which applies [&] to
    an assignment.  The five constants of lines 90-96 are taken as
    computed.  The result is the pick-offs of the module built. *)
Definition init (cfg : config) (pick_off : Stepgen.py_value)
  : Stepgen.construction Stepgen.pick_offs :=
  Stepgen.bind (Stepgen.init pick_off) (fun pk =>
  Stepgen.bind (over_travel_expr pk cfg) (fun _ =>
  Stepgen.bind (tool_pitch_expr pk cfg) (fun _ =>
  match homing cfg with
  | None => Stepgen.Built pk
  | Some h =>
      Stepgen.bind (back_off_expr pk cfg h) (fun _ =>
      Stepgen.bind (lshift_float (home_latch_vel h) (Stepgen.pick_off_vel pk))
        (fun _ =>
      Stepgen.TypeError
        "unsupported operand type(s) for &: '_Assign' and 'Signal'"))
  end))).




End Toolerator.


(** * Concrete configurations used below *)

(** The configuration of the test bench at the end of [toolerator.py]
    ([pick_off=(32, 40, 48)], 40 MHz clock), as stored by
    [store_pick_off]. *)
Definition bench_pick_offs : Stepgen.pick_offs :=
  {| Stepgen.pick_off_pos := 32;
     Stepgen.pick_off_vel := 40;
     Stepgen.pick_off_acc := 48 |}.

(** A six-tool turret with 1800 pulses per revolution and 20 degrees of
    over-travel, no home sensor; limits and timings are those of the test
    bench as they arrive in the generator's registers. *)
Definition turret_config : Toolerator.config :=
  {| Toolerator.tool_count := 6;
     Toolerator.ppr := 1800;
     Toolerator.over_travel := 20;
     Toolerator.homing := None;
     Toolerator.stepgen_max_acceleration := 35184;
     Toolerator.stepgen_max_speed := 219902325;
     Toolerator.stepgen_steplen := 784;
     Toolerator.stepgen_dir_hold_time := 784;
     Toolerator.stepgen_dir_setup_time := 3616 |}.

(** A turret of the given configuration at rest in READY at tool 0. *)
Definition ready_at_first_tool (cfg : Toolerator.config)
  : Toolerator.registers :=
  Toolerator.set_state Toolerator.READY
    (Toolerator.on_generator (Stepgen.set_position_mode true)
       (Toolerator.power_up cfg)).

(** The same turret at rest in READY with the given tool selected. *)
Definition turret_ready_at (tool : Z) : Toolerator.registers :=
  Toolerator.set_state Toolerator.READY
    (Toolerator.set_current_tool tool
       (Toolerator.on_generator (Stepgen.set_position_mode true)
          (Toolerator.power_up turret_config))).

Definition command (tool : Z) : Toolerator.inputs :=
  {| Toolerator.enable := true;
     Toolerator.commanded_tool := tool;
     Toolerator.home := false;
     Toolerator.home_triggered := false |}.

(** The configuration of the test bench of [toolerator.py] (six tools, 18
    pulses per revolution, 20 degrees of over-travel), with a home sensor
    added: [homing={"home_pin": ..., "home_latch_vel": 100}]. *)
Definition bench_homing : Toolerator.homing_config :=
  {| Toolerator.invert_home := false;
     Toolerator.home_back_off := None;
     Toolerator.home_latch_vel := 100;
     Toolerator.home_position_angle := None |}.

(** [pick_off=(32, 40, 48)] as the test bench passes it. *)
Definition bench_pick_off : Stepgen.py_value := Stepgen.PySeq [32; 40; 48].

Definition bench_config : Toolerator.config :=
  {| Toolerator.tool_count := 6;
     Toolerator.ppr := 18;
     Toolerator.over_travel := 20;
     Toolerator.homing := Some bench_homing;
     Toolerator.stepgen_max_acceleration := 35184;
     Toolerator.stepgen_max_speed := 219902325;
     Toolerator.stepgen_steplen := 784;
     Toolerator.stepgen_dir_hold_time := 784;
     Toolerator.stepgen_dir_setup_time := 3616 |}.

(** Inputs of a tick: enabled, tool 2 commanded, with the given home
    request and home sensor. *)
Definition homing_inputs (request sensor : bool) : Toolerator.inputs :=
  {| Toolerator.enable := true;
     Toolerator.commanded_tool := 2;
     Toolerator.home := request;
     Toolerator.home_triggered := sensor |}.


(** A home request on the first tick, a sensor that never triggers. *)
Definition request_home_once (j : nat) : Toolerator.inputs :=
  homing_inputs (Nat.eqb j 0) false.

(** A generator with the limits of the test bench of [stepgen.py]
    ([steplen] 16, [dir_hold_time] 16, [dir_setup_time] 32 ticks), at rest
    at position 0 where it is also targeted, with the given mode, speed,
    speed target and acceleration limit. *)
Definition generator_at_rest (mode : bool) (v target acc : Z)
  : Stepgen.signals :=
  {| Stepgen.step_prev := false; Stepgen.step := false;
     Stepgen.dir := false;
     Stepgen.steplen := 16; Stepgen.dir_hold_time := 16;
     Stepgen.dir_setup_time := 32;
     Stepgen.steplen_counter := 0; Stepgen.dir_hold_counter := 0;
     Stepgen.dir_setup_counter := 0; Stepgen.hold_dds := false;
     Stepgen.wait := false; Stepgen.position_mode := mode;
     Stepgen.accelerating := false; Stepgen.position := 0;
     Stepgen.position_target := 0; Stepgen.acc_distance := 0;
     Stepgen.speed := v; Stepgen.speed_target := target;
     Stepgen.max_speed := 219902325; Stepgen.max_acceleration := acc |}.

(** The same generator right after power-up ([dir] resets to 1). *)
Definition generator_powered_up (acc : Z) : Stepgen.signals :=
  Stepgen.set_dir true (generator_at_rest false 0 0 acc).

(** Inputs of a tick: enabled, no reset, and what the owner writes. *)
Definition running : Stepgen.inputs * Stepgen.owner_writes :=
  ({| Stepgen.enable := true; Stepgen.reset := false |}, Stepgen.no_writes).

Definition retarget (v : Z) : Stepgen.inputs * Stepgen.owner_writes :=
  ({| Stepgen.enable := true; Stepgen.reset := false |},
   {| Stepgen.write_position_mode := None;
      Stepgen.write_speed_target := Some v;
      Stepgen.write_position_target := None |}).

(** One acceleration step backwards and, two ticks later, back to a
    target of 0. *)
Definition short_pulse (j : nat) : Stepgen.inputs * Stepgen.owner_writes :=
  match j with
  | 0%nat => retarget (-513)
  | 2%nat => retarget 0
  | _ => running
  end.

(** Inputs of a tick with the reset asserted, and with the generator
    disabled. *)
Definition resetting : Stepgen.inputs * Stepgen.owner_writes :=
  ({| Stepgen.enable := true; Stepgen.reset := true |}, Stepgen.no_writes).

Definition disabled : Stepgen.inputs * Stepgen.owner_writes :=
  ({| Stepgen.enable := false; Stepgen.reset := false |}, Stepgen.no_writes).

(** A generator at rest one step away from the last step it made: the
    watched bit of the position differs from [step_prev]. *)
Definition step_pending : Stepgen.signals :=
  Stepgen.set_position (2 ^ 32) (generator_at_rest false 0 0 35184).

(** A negative speed commanded on tick 63, nothing else. *)
Definition late_reversal (j : nat) : Stepgen.inputs * Stepgen.owner_writes :=
  if Nat.eqb j 62 then retarget (-35184) else running.

(** Without an acceleration limit: one tick backwards at 513, then
    forwards at 1024, right after power-up. *)
Definition jolt (j : nat) : Stepgen.inputs * Stepgen.owner_writes :=
  match j with
  | 0%nat => retarget (-513)
  | 1%nat => retarget 1024
  | _ => running
  end.

(** The configuration of the test bench of [toolerator.py] as it is: no
    home sensor. *)
Definition test_bench_config : Toolerator.config :=
  {| Toolerator.tool_count := 6;
     Toolerator.ppr := 18;
     Toolerator.over_travel := 20;
     Toolerator.homing := None;
     Toolerator.stepgen_max_acceleration := 35184;
     Toolerator.stepgen_max_speed := 219902325;
     Toolerator.stepgen_steplen := 784;
     Toolerator.stepgen_dir_hold_time := 784;
     Toolerator.stepgen_dir_setup_time := 3616 |}.

(** The same with [max_acc] set to 5: at 40 MHz
    [int((5 * (1 << 48)) / 40e6**2)] is 0. *)
Definition unaccelerated_config : Toolerator.config :=
  {| Toolerator.tool_count := 6;
     Toolerator.ppr := 18;
     Toolerator.over_travel := 20;
     Toolerator.homing := None;
     Toolerator.stepgen_max_acceleration := 0;
     Toolerator.stepgen_max_speed := 219902325;
     Toolerator.stepgen_steplen := 784;
     Toolerator.stepgen_dir_hold_time := 784;
     Toolerator.stepgen_dir_setup_time := 3616 |}.

(** A turret with 360 pulses per revolution and 13 degrees of
    over-travel: the exact over-travel is 13 steps, [13 << 32] units. *)
Definition skewed_config : Toolerator.config :=
  {| Toolerator.tool_count := 6;
     Toolerator.ppr := 360;
     Toolerator.over_travel := 13;
     Toolerator.homing := None;
     Toolerator.stepgen_max_acceleration := 35184;
     Toolerator.stepgen_max_speed := 219902325;
     Toolerator.stepgen_steplen := 784;
     Toolerator.stepgen_dir_hold_time := 784;
     Toolerator.stepgen_dir_setup_time := 3616 |}.

(** The generator's inputs when the sequencer writes nothing to it. *)
Definition left_alone (ins : nat -> Toolerator.inputs) (j : nat)
  : Stepgen.inputs * Stepgen.owner_writes :=
  (Toolerator.generator_inputs (ins j), Stepgen.no_writes).

(** * Properties *)

(** ** Frame lemmas: what a statement leaves alone

    [g] stands for any reading of the register file that is blind to the
    registers a statement writes. *)

Ltac split_ifs :=
  repeat match goal with
         | |- context [if ?c then _ else _] => destruct c; cbv beta iota
         end.

Section GeneratorFrames.

Variable pk : Stepgen.pick_offs.
Variable soft_stop : bool.
Context {T : Type} (g : Stepgen.signals -> T).

Lemma velocity_ramp_frame i o n :
  (forall v s, g (Stepgen.set_speed_target v s) = g s) ->
  (forall v s, g (Stepgen.set_speed v s) = g s) ->
  (forall v s, g (Stepgen.set_acc_distance v s) = g s) ->
  (forall v s, g (Stepgen.set_accelerating v s) = g s) ->
  g (Stepgen.velocity_ramp pk i o n) = g n.
Proof.
  intros Ht Hs Ha Hf.
  unfold Stepgen.velocity_ramp, If; cbv zeta.
  split_ifs; repeat first [ rewrite Hf | rewrite Hs | rewrite Ha | rewrite Ht ]; reflexivity.
Qed.

Lemma position_algorithm_frame o n :
  (forall v s, g (Stepgen.set_speed_target v s) = g s) ->
  g (Stepgen.position_algorithm pk o n) = g n.
Proof.
  intros Ht. unfold Stepgen.position_algorithm.
  split_ifs; repeat first [ rewrite Ht ]; reflexivity.
Qed.

Lemma reset_algorithm_frame i n :
  (forall v s, g (Stepgen.set_speed_target v s) = g s) ->
  (forall v s, g (Stepgen.set_speed v s) = g s) ->
  (forall v s, g (Stepgen.set_max_acceleration v s) = g s) ->
  (forall v s, g (Stepgen.set_position v s) = g s) ->
  g (Stepgen.reset_algorithm i n) = g n.
Proof.
  intros Ht Hs Hm Hp. unfold Stepgen.reset_algorithm, If.
  split_ifs; repeat first [ rewrite Hp | rewrite Hm | rewrite Hs | rewrite Ht ]; reflexivity.
Qed.

Lemma update_position_frame i o n :
  (forall v s, g (Stepgen.set_position v s) = g s) ->
  g (Stepgen.update_position pk soft_stop i o n) = g n.
Proof.
  intros Hp. unfold Stepgen.update_position, If; cbv zeta.
  split_ifs; repeat first [ rewrite Hp ]; reflexivity.
Qed.

Lemma routine_step_frame o n :
  (forall v s, g (Stepgen.set_step_prev v s) = g s) ->
  (forall v s, g (Stepgen.set_steplen_counter v s) = g s) ->
  (forall v s, g (Stepgen.set_dir_hold_counter v s) = g s) ->
  (forall v s, g (Stepgen.set_dir_setup_counter v s) = g s) ->
  (forall v s, g (Stepgen.set_wait v s) = g s) ->
  g (Stepgen.routine_step pk o n) = g n.
Proof.
  intros H1 H2 H3 H4 H5. unfold Stepgen.routine_step, If; cbv zeta.
  split_ifs; repeat first [ rewrite H5 | rewrite H4 | rewrite H3 | rewrite H2 | rewrite H1 ]; reflexivity.
Qed.

Lemma routine_release_frame o n :
  (forall v s, g (Stepgen.set_hold_dds v s) = g s) ->
  g (Stepgen.routine_release o n) = g n.
Proof.
  intros H. unfold Stepgen.routine_release, If.
  split_ifs; repeat first [ rewrite H ]; reflexivity.
Qed.

Lemma routine_step_output_frame o n :
  (forall v s, g (Stepgen.set_step v s) = g s) ->
  g (Stepgen.routine_step_output o n) = g n.
Proof.
  intros H. unfold Stepgen.routine_step_output.
  split_ifs; repeat first [ rewrite H ]; reflexivity.
Qed.

Lemma routine_dir_frame o n :
  (forall v s, g (Stepgen.set_hold_dds v s) = g s) ->
  (forall v s, g (Stepgen.set_dir_setup_counter v s) = g s) ->
  (forall v s, g (Stepgen.set_dir v s) = g s) ->
  g (Stepgen.routine_dir pk o n) = g n.
Proof.
  intros H1 H2 H3. unfold Stepgen.routine_dir, If; cbv zeta.
  split_ifs; repeat first [ rewrite H3 | rewrite H2 | rewrite H1 ]; reflexivity.
Qed.

Lemma counters_frame o n :
  (forall v s, g (Stepgen.set_steplen_counter v s) = g s) ->
  (forall v s, g (Stepgen.set_dir_hold_counter v s) = g s) ->
  (forall v s, g (Stepgen.set_dir_setup_counter v s) = g s) ->
  g (Stepgen.counters o n) = g n.
Proof.
  intros H1 H2 H3. unfold Stepgen.counters, If; cbv zeta.
  split_ifs; repeat first [ rewrite H3 | rewrite H2 | rewrite H1 ]; reflexivity.
Qed.

End GeneratorFrames.

(** [skip lem] steps over the outermost statement of the goal's left-hand
    side when it does not write what the goal reads. *)
Tactic Notation "skip" uconstr(lem) :=
  etransitivity; [ apply lem; intros; reflexivity | ].

Ltac skip_routine :=
  skip counters_frame; skip routine_dir_frame;
  skip routine_step_output_frame; skip routine_release_frame;
  skip routine_step_frame.

Section GeneratorProjections.

Variable pk : Stepgen.pick_offs.
Variable soft_stop : bool.

Lemma sync_position_target i o n :
  Stepgen.position_target (Stepgen.sync pk soft_stop i o n)
  = Stepgen.position_target n.
Proof.
  unfold Stepgen.sync; cbv zeta. skip_routine.
  skip update_position_frame. skip reset_algorithm_frame.
  skip position_algorithm_frame. skip velocity_ramp_frame.
  reflexivity.
Qed.

Lemma sync_position_mode i o n :
  Stepgen.position_mode (Stepgen.sync pk soft_stop i o n)
  = Stepgen.position_mode n.
Proof.
  unfold Stepgen.sync; cbv zeta. skip_routine.
  skip update_position_frame. skip reset_algorithm_frame.
  skip position_algorithm_frame. skip velocity_ramp_frame.
  reflexivity.
Qed.

End GeneratorProjections.

(** ** Construction: the pick-off *)

(** C9, as the code has it: a pick-off that is a sequence of fewer than
    3 values, or that is neither an integer nor a sequence, makes the
    constructor raise [ValueError], so no generator is built.  A single
    integer and a sequence of at least 3 integers pass that check; the
    constructor then raises [IndexError] exactly when the position pick-off
    lies at or beyond the width of the position register,
    [64 + (pick_off_vel - pick_off_pos)], and otherwise builds the
    generator with the pick-offs stored. *)
Theorem pick_off_checked_at_construction :
  (forall xs, (List.length xs < 3)%nat ->
     exists msg, Stepgen.init (Stepgen.PySeq xs) = Stepgen.ValueError msg)
  /\ (forall s, exists msg,
        Stepgen.init (Stepgen.PyStr s) = Stepgen.ValueError msg)
  /\ (exists msg, Stepgen.init Stepgen.PyOther = Stepgen.ValueError msg)
  /\ (forall p,
        Stepgen.init (Stepgen.PyInt p)
        = if 64 <=? p then Stepgen.IndexError
          else Stepgen.Built {| Stepgen.pick_off_pos := p;
                                Stepgen.pick_off_vel := p;
                                Stepgen.pick_off_acc := p |})
  /\ (forall xs, (3 <= List.length xs)%nat ->
        Stepgen.init (Stepgen.PySeq xs)
        = if 64 + (Z.max (List.nth 0 xs 0) (List.nth 1 xs 0)
                   - List.nth 0 xs 0) <=? List.nth 0 xs 0
          then Stepgen.IndexError
          else Stepgen.Built
                 {| Stepgen.pick_off_pos := List.nth 0 xs 0;
                    Stepgen.pick_off_vel :=
                      Z.max (List.nth 0 xs 0) (List.nth 1 xs 0);
                    Stepgen.pick_off_acc :=
                      Z.max (Z.max (List.nth 0 xs 0) (List.nth 1 xs 0))
                        (List.nth 2 xs 0) |}).
Proof.
  split; [ | split; [ | split; [ | split]]].
  - intros xs Hlen. unfold Stepgen.init, Stepgen.store_pick_off.
    destruct (Z.ltb_spec (Z.of_nat (List.length xs)) 3); [ | lia].
    eexists. reflexivity.
  - intros s. eexists. reflexivity.
  - eexists. reflexivity.
  - intros p. unfold Stepgen.init, Stepgen.store_pick_off, Stepgen.bind,
      Stepgen.watched_bit.
    cbn [Stepgen.pick_off_pos Stepgen.pick_off_vel].
    replace (64 + (p - p)) with 64 by lia. reflexivity.
  - intros xs Hlen. unfold Stepgen.init, Stepgen.store_pick_off.
    destruct (Z.ltb_spec (Z.of_nat (List.length xs)) 3); [lia | ].
    reflexivity.
Qed.

Lemma pick_off_checked_at_construction_witness :
  (exists msg, Stepgen.init (Stepgen.PySeq [32; 40]) = Stepgen.ValueError msg)
  /\ Stepgen.init (Stepgen.PySeq [32; 40; 48]) = Stepgen.Built bench_pick_offs
  /\ Stepgen.init (Stepgen.PySeq [72; 80; 88]) = Stepgen.IndexError
  /\ Stepgen.init (Stepgen.PyInt 32)
     = Stepgen.Built {| Stepgen.pick_off_pos := 32;
                        Stepgen.pick_off_vel := 32;
                        Stepgen.pick_off_acc := 32 |}.
Proof.
  destruct pick_off_checked_at_construction
    as (Hshort & _ & _ & Hint & Hlong).
  split; [apply Hshort; simpl; lia | ].
  split; [rewrite Hlong by (simpl; lia); reflexivity | ].
  split; [rewrite Hlong by (simpl; lia); reflexivity | ].
  rewrite Hint. reflexivity.
Defined.

(** The claim as written fails: the integer pick-off 64, and the list
    (64, 64, 64), pass the check of the pick-off and the constructor
    raises all the same. *)
Lemma pick_off_checked_at_construction_counterexample :
  Stepgen.raises (Stepgen.init (Stepgen.PyInt 64)) = true
  /\ Stepgen.raises (Stepgen.init (Stepgen.PySeq [64; 64; 64])) = true
  /\ Stepgen.raises (Stepgen.store_pick_off (Stepgen.PyInt 64)) = false.
Proof. repeat split. Qed.

(** ** The stopped flag *)

(** C10: with [max_acceleration = 0] both bounds of the window around the
    target are 0, so [stopped] is false in every register state, also when
    the position equals its target and the speed is 0. *)
Theorem stopped_never_without_acceleration pk (s : Stepgen.signals) :
  Stepgen.max_acceleration s = 0 -> Stepgen.stopped pk s = false.
Proof.
  intros Hma. unfold Stepgen.stopped. rewrite Hma.
  change (5 * 0) with 0. change (-5 * 0) with 0.
  rewrite Z.shiftr_0_l.
  destruct (Z.ltb_spec (Stepgen.dtg pk s) 0) as [Hlt | Hge];
    destruct (Z.gtb_spec (Stepgen.dtg pk s) 0) as [Hgt | Hle];
    try reflexivity.
  lia.
Qed.

Lemma stopped_never_without_acceleration_witness :
  Stepgen.position Stepgen.power_up
  = Stepgen.position_target Stepgen.power_up
  /\ Stepgen.speed Stepgen.power_up = 0
  /\ Stepgen.stopped bench_pick_offs Stepgen.power_up = false.
Proof.
  split; [reflexivity | split; [reflexivity | ]].
  apply (stopped_never_without_acceleration bench_pick_offs Stepgen.power_up).
  reflexivity.
Defined.

(** ** The generator, one tick *)

Section GeneratorSteps.

Variable pk : Stepgen.pick_offs.
Variable soft_stop : bool.

Lemma run_step ins k s :
  Stepgen.run pk soft_stop ins (S k) s
  = Stepgen.tick pk soft_stop (ins k) (Stepgen.run pk soft_stop ins k s).
Proof. reflexivity. Qed.

Lemma reset_algorithm_off i n :
  Stepgen.reset i = false -> Stepgen.reset_algorithm i n = n.
Proof. intros H. unfold Stepgen.reset_algorithm. rewrite H. reflexivity. Qed.

Lemma sync_acc_distance i o n :
  Stepgen.acc_distance (Stepgen.sync pk soft_stop i o n)
  = Stepgen.acc_distance (Stepgen.velocity_ramp pk i o n).
Proof.
  unfold Stepgen.sync; cbv zeta. skip_routine.
  skip update_position_frame. skip reset_algorithm_frame.
  skip position_algorithm_frame. reflexivity.
Qed.

Lemma sync_accelerating i o n :
  Stepgen.accelerating (Stepgen.sync pk soft_stop i o n)
  = Stepgen.accelerating (Stepgen.velocity_ramp pk i o n).
Proof.
  unfold Stepgen.sync; cbv zeta. skip_routine.
  skip update_position_frame. skip reset_algorithm_frame.
  skip position_algorithm_frame. reflexivity.
Qed.

Lemma sync_speed i o n :
  Stepgen.reset i = false ->
  Stepgen.speed (Stepgen.sync pk soft_stop i o n)
  = Stepgen.speed (Stepgen.velocity_ramp pk i o n).
Proof.
  intros Hreset.
  unfold Stepgen.sync; cbv zeta. skip_routine.
  skip update_position_frame. rewrite reset_algorithm_off by exact Hreset.
  skip position_algorithm_frame. reflexivity.
Qed.

(** The owner writes targets and mode only. *)
Lemma owner_frame {T : Type} (g : Stepgen.signals -> T) w n :
  (forall v s, g (Stepgen.set_position_mode v s) = g s) ->
  (forall v s, g (Stepgen.set_speed_target v s) = g s) ->
  (forall v s, g (Stepgen.set_position_target v s) = g s) ->
  g (Stepgen.owner pk w n) = g n.
Proof.
  intros H1 H2 H3. unfold Stepgen.owner; cbv zeta.
  destruct (Stepgen.write_position_mode w), (Stepgen.write_speed_target w),
    (Stepgen.write_position_target w);
    repeat first [rewrite H3 | rewrite H2 | rewrite H1]; reflexivity.
Qed.

(** With a gap below one [max_acceleration] the ramp takes its last
    branch. *)
Lemma small_gap_branch i o n :
  Stepgen.reset i = false ->
  Stepgen.wait o = false ->
  0 < Stepgen.max_acceleration o ->
  Stepgen.speed_target o < Stepgen.speed o + Stepgen.max_acceleration o ->
  Stepgen.speed_target o > Stepgen.speed o - Stepgen.max_acceleration o ->
  Stepgen.velocity_ramp pk i o n
  = If (Stepgen.speed_target o =? 0) (Stepgen.set_acc_distance 0)
      (Stepgen.set_accelerating false
         (If (negb (Bool.eqb (Stepgen.position_mode o) true)
              || (Stepgen.speed_target o =? 0))
            (fun n =>
               If (negb (Stepgen.speed o =? Stepgen.speed_target o))
                 (fun n =>
                    if Stepgen.speed o >=? 0 then
                      Stepgen.set_acc_distance
                        (Stepgen.assign_position pk
                           (Stepgen.acc_distance o
                            + Z.shiftr
                                (Stepgen.speed o + Stepgen.speed_target o)
                                (Stepgen.acc_shift pk + 1))) n
                    else
                      Stepgen.set_acc_distance
                        (Stepgen.assign_position pk
                           (Stepgen.acc_distance o
                            - Z.shiftr
                                (Stepgen.speed o + Stepgen.speed_target o)
                                (Stepgen.acc_shift pk + 1))) n)
                 (Stepgen.set_speed (Stepgen.speed_target o) n))
            (If (negb (Stepgen.enable i)) (Stepgen.set_speed_target 0) n))).
Proof.
  intros Hreset Hwait Hacc Hup Hdown.
  unfold Stepgen.velocity_ramp. rewrite Hreset, Hwait.
  cbn [negb andb]. unfold If at 1.
  destruct (Z.eqb_spec (Stepgen.max_acceleration o) 0) as [Hz | _]; [lia | ].
  destruct (Z.geb_spec (Stepgen.speed_target o)
              (Stepgen.speed o + Stepgen.max_acceleration o)) as [Hge | _];
    [lia | ].
  destruct (Z.leb_spec (Stepgen.speed_target o)
              (Stepgen.speed o - Stepgen.max_acceleration o)) as [Hle | _];
    [lia | ].
  reflexivity.
Qed.

(** The owner's writes leave speed and acceleration distance alone. *)
Lemma owner_speed w o :
  Stepgen.speed (Stepgen.owner pk w o) = Stepgen.speed o.
Proof. apply owner_frame; intros; reflexivity. Qed.

Lemma owner_acc_distance w o :
  Stepgen.acc_distance (Stepgen.owner pk w o) = Stepgen.acc_distance o.
Proof. apply owner_frame; intros; reflexivity. Qed.

(** C5, as the code has it: when the gap between [speed_target] and
    [speed] is below one [max_acceleration], the tick clears
    [accelerating]; a zero target is taken over and [acc_distance] is reset
    to 0; a non-zero target is taken over only outside position mode, with
    the half-sum of old and new speed added to [acc_distance] (subtracted
    for a negative speed); in position mode a non-zero target leaves
    [speed] and [acc_distance] as they are. *)
Theorem ramp_when_gap_closes iw o :
  Stepgen.reset (fst iw) = false ->
  Stepgen.wait o = false ->
  0 < Stepgen.max_acceleration o ->
  Stepgen.speed_target o < Stepgen.speed o + Stepgen.max_acceleration o ->
  Stepgen.speed_target o > Stepgen.speed o - Stepgen.max_acceleration o ->
  Stepgen.accelerating (Stepgen.tick pk soft_stop iw o) = false
  /\ (Stepgen.speed_target o = 0 ->
      Stepgen.speed (Stepgen.tick pk soft_stop iw o) = 0
      /\ Stepgen.acc_distance (Stepgen.tick pk soft_stop iw o) = 0)
  /\ (Stepgen.position_mode o = false ->
      Stepgen.speed_target o <> 0 ->
      Stepgen.speed (Stepgen.tick pk soft_stop iw o)
      = Stepgen.speed_target o
      /\ Stepgen.acc_distance (Stepgen.tick pk soft_stop iw o)
         = if Stepgen.speed o =? Stepgen.speed_target o then
             Stepgen.acc_distance o
           else if Stepgen.speed o >=? 0 then
             Stepgen.assign_position pk
               (Stepgen.acc_distance o
                + Z.shiftr (Stepgen.speed o + Stepgen.speed_target o)
                    (Stepgen.acc_shift pk + 1))
           else
             Stepgen.assign_position pk
               (Stepgen.acc_distance o
                - Z.shiftr (Stepgen.speed o + Stepgen.speed_target o)
                    (Stepgen.acc_shift pk + 1)))
  /\ (Stepgen.position_mode o = true ->
      Stepgen.speed_target o <> 0 ->
      Stepgen.speed (Stepgen.tick pk soft_stop iw o) = Stepgen.speed o
      /\ Stepgen.acc_distance (Stepgen.tick pk soft_stop iw o)
         = Stepgen.acc_distance o).
Proof.
  intros Hreset Hwait Hacc Hup Hdown.
  unfold Stepgen.tick.
  rewrite sync_accelerating, sync_acc_distance, sync_speed by exact Hreset.
  rewrite small_gap_branch by assumption.
  pose proof (owner_speed (snd iw) o) as Hspeed.
  pose proof (owner_acc_distance (snd iw) o) as Hdist.
  assert (Hnz0 : forall b : bool,
             Stepgen.speed_target o <> 0 ->
             b || (Stepgen.speed_target o =? 0) = b).
  { intros b Hnz.
    destruct (Z.eqb_spec (Stepgen.speed_target o) 0); [contradiction | ].
    apply orb_false_r. }
  split; [ | split; [ | split]].
  - unfold If. destruct (Stepgen.speed_target o =? 0); reflexivity.
  - intros Hzero. rewrite Hzero, orb_true_r. unfold If; cbn [Z.eqb].
    split; [ | reflexivity].
    destruct (Stepgen.enable (fst iw)), (Stepgen.speed o =? 0),
      (Stepgen.speed o >=? 0); reflexivity.
  - intros Hmode Hnz. rewrite Hnz0, Hmode by exact Hnz.
    destruct (Z.eqb_spec (Stepgen.speed_target o) 0) as [Hz | _];
      [contradiction | ].
    unfold If; cbn [Bool.eqb negb].
    destruct (Stepgen.enable (fst iw)),
      (Stepgen.speed o =? Stepgen.speed_target o),
      (Stepgen.speed o >=? 0); cbn; auto.
  - intros Hmode Hnz. rewrite Hnz0, Hmode by exact Hnz.
    destruct (Z.eqb_spec (Stepgen.speed_target o) 0) as [Hz | _];
      [contradiction | ].
    unfold If; cbn [Bool.eqb negb].
    destruct (Stepgen.enable (fst iw)); cbn; auto.
Qed.

(** C7, as the code has it: a tick on which the ramp runs (no reset, not
    waiting for a direction set-up, an acceleration limit set) and that
    starts with a zero target and a speed below one [max_acceleration]
    ends with [speed] and [acc_distance] both exactly 0, whatever
    [acc_distance] was before. *)
Theorem acc_distance_cleared_at_rest iw o :
  Stepgen.reset (fst iw) = false ->
  Stepgen.wait o = false ->
  0 < Stepgen.max_acceleration o ->
  Stepgen.speed_target o = 0 ->
  - Stepgen.max_acceleration o < Stepgen.speed o < Stepgen.max_acceleration o ->
  Stepgen.speed (Stepgen.tick pk soft_stop iw o) = 0
  /\ Stepgen.acc_distance (Stepgen.tick pk soft_stop iw o) = 0.
Proof.
  intros Hreset Hwait Hacc Htarget Hslow.
  unfold Stepgen.tick.
  rewrite sync_acc_distance, sync_speed by exact Hreset.
  rewrite small_gap_branch by (try assumption; lia).
  rewrite Htarget, orb_true_r. unfold If; cbn [Z.eqb].
  split; [ | reflexivity].
  destruct (Stepgen.enable (fst iw)), (Stepgen.speed o =? 0),
    (Stepgen.speed o >=? 0); reflexivity.
Qed.

End GeneratorSteps.

Lemma ramp_when_gap_closes_witness :
  Stepgen.speed
    (Stepgen.tick bench_pick_offs true running
       (generator_at_rest false 219900000 219902325 35184))
  = 219902325
  /\ Stepgen.acc_distance
       (Stepgen.tick bench_pick_offs true running
          (generator_at_rest false 219900000 219902325 35184))
     = Z.shiftr (219900000 + 219902325) 9.
Proof.
  destruct (ramp_when_gap_closes bench_pick_offs true running
              (generator_at_rest false 219900000 219902325 35184))
    as (_ & _ & Hvelocity & _); try reflexivity.
  destruct Hvelocity as (Hspeed & Hdist); [reflexivity | discriminate | ].
  split; [exact Hspeed | ].
  etransitivity; [exact Hdist | vm_compute; reflexivity].
Defined.

(** In position mode the same registers keep their speed: the target
    219902325 is within one [max_acceleration] of the speed 219900000 and
    is not taken over. *)
Lemma ramp_when_gap_closes_counterexample :
  Stepgen.position_mode (generator_at_rest true 219900000 219902325 35184)
  = true
  /\ Stepgen.speed_target (generator_at_rest true 219900000 219902325 35184)
     = 219902325
  /\ 219902325 < 219900000 + 35184
  /\ 219902325 > 219900000 - 35184
  /\ Stepgen.speed
       (Stepgen.tick bench_pick_offs true running
          (generator_at_rest true 219900000 219902325 35184))
     = 219900000
  /\ Stepgen.acc_distance
       (Stepgen.tick bench_pick_offs true running
          (generator_at_rest true 219900000 219902325 35184))
     = 0.
Proof. vm_compute. repeat split. Qed.

Lemma acc_distance_cleared_at_rest_witness :
  Stepgen.acc_distance
    (Stepgen.run bench_pick_offs true short_pulse 35 (generator_powered_up 513))
  = 1
  /\ Stepgen.acc_distance
       (Stepgen.run bench_pick_offs true short_pulse 36
          (generator_powered_up 513))
     = 0.
Proof.
  split; [vm_compute; reflexivity | ].
  rewrite run_step.
  apply (acc_distance_cleared_at_rest bench_pick_offs true).
  - reflexivity.
  - vm_compute; reflexivity.
  - vm_compute; reflexivity.
  - vm_compute; reflexivity.
  - vm_compute. split; reflexivity.
Defined.

(** After one acceleration step backwards and one forwards the generator
    is at speed 0 with target 0 from the fourth tick on, waiting for the
    direction set-up; [acc_distance] is 1 throughout the 32 ticks that
    follow. *)
Lemma acc_distance_cleared_at_rest_counterexample :
  List.forallb
    (fun k =>
       let s := Stepgen.run bench_pick_offs true short_pulse k
                  (generator_powered_up 513) in
       (Stepgen.speed s =? 0) && (Stepgen.speed_target s =? 0)
       && (Stepgen.acc_distance s =? 1))
    (List.seq 4 32) = true.
Proof. vm_compute. reflexivity. Qed.

(** ** The speed ramp *)

Lemma wrap_signed_fits w x : in_signed w x -> wrap_signed w x = x.
Proof.
  unfold in_signed, wrap_signed. intros Hx.
  destruct (Z.le_gt_cases 1 w) as [Hw | Hw].
  - assert (H2 : 2 ^ w = 2 * 2 ^ (w - 1)).
    { replace w with (Z.succ (w - 1)) at 1 by lia.
      apply Z.pow_succ_r. lia. }
    rewrite H2. rewrite Z.mod_small by lia. lia.
  - rewrite (Z.pow_neg_r 2 (w - 1)) in Hx by lia. lia.
Qed.

Section SpeedRamp.

Variable pk : Stepgen.pick_offs.
Variable soft_stop : bool.

(** The speed that the ramp schedules, read off branch by branch. *)
Lemma ramp_speed i o n :
  Stepgen.speed (Stepgen.velocity_ramp pk i o n)
  = if negb (Stepgen.reset i) && negb (Stepgen.wait o) then
      if Stepgen.max_acceleration o =? 0 then Stepgen.speed_target o
      else if Stepgen.speed_target o
              >=? Stepgen.speed o + Stepgen.max_acceleration o then
        Stepgen.assign_speed pk (Stepgen.speed o + Stepgen.max_acceleration o)
      else if Stepgen.speed_target o
              <=? Stepgen.speed o - Stepgen.max_acceleration o then
        Stepgen.assign_speed pk (Stepgen.speed o - Stepgen.max_acceleration o)
      else if negb (Bool.eqb (Stepgen.position_mode o) true)
              || (Stepgen.speed_target o =? 0) then
        Stepgen.speed_target o
      else Stepgen.speed n
    else Stepgen.speed n.
Proof.
  unfold Stepgen.velocity_ramp, If; cbv zeta.
  split_ifs; reflexivity.
Qed.

(** Without reset the speed moves by at most one [max_acceleration] per
    tick. *)
Lemma speed_step_bounded iw o :
  in_signed (Stepgen.speed_width pk) (Stepgen.speed o) ->
  in_signed (Stepgen.speed_width pk) (Stepgen.speed_target o) ->
  Stepgen.reset (fst iw) = false ->
  0 < Stepgen.max_acceleration o ->
  Z.abs (Stepgen.speed (Stepgen.tick pk soft_stop iw o) - Stepgen.speed o)
  <= Stepgen.max_acceleration o.
Proof.
  intros Hv Ht Hreset Hacc.
  unfold Stepgen.tick. rewrite sync_speed by exact Hreset.
  rewrite ramp_speed, Hreset.
  assert (Hsame : Stepgen.speed (Stepgen.owner pk (snd iw) o) = Stepgen.speed o)
    by (apply owner_frame; intros; reflexivity).
  rewrite Hsame. unfold Stepgen.assign_speed.
  unfold in_signed in Hv, Ht.
  cbn [negb andb].
  destruct (Stepgen.wait o); cbn [negb]; [lia | ].
  destruct (Z.eqb_spec (Stepgen.max_acceleration o) 0); [lia | ].
  destruct (Z.geb_spec (Stepgen.speed_target o)
              (Stepgen.speed o + Stepgen.max_acceleration o)).
  { rewrite wrap_signed_fits by (unfold in_signed; lia). lia. }
  destruct (Z.leb_spec (Stepgen.speed_target o)
              (Stepgen.speed o - Stepgen.max_acceleration o)).
  { rewrite wrap_signed_fits by (unfold in_signed; lia). lia. }
  destruct (negb (Bool.eqb (Stepgen.position_mode o) true)
            || (Stepgen.speed_target o =? 0)); lia.
Qed.

Lemma position_algorithm_off o n :
  Stepgen.position_mode o = false -> Stepgen.position_algorithm pk o n = n.
Proof.
  intros Hmode. unfold Stepgen.position_algorithm.
  rewrite Hmode, !andb_false_r. reflexivity.
Qed.

Lemma ramp_speed_target i o n :
  Stepgen.enable i = true ->
  Stepgen.speed_target (Stepgen.velocity_ramp pk i o n)
  = Stepgen.speed_target n.
Proof.
  intros Hen. unfold Stepgen.velocity_ramp, If; cbv zeta. rewrite Hen.
  cbn [negb]. split_ifs; reflexivity.
Qed.

Lemma sync_max_acceleration i o n :
  Stepgen.reset i = false ->
  Stepgen.max_acceleration (Stepgen.sync pk soft_stop i o n)
  = Stepgen.max_acceleration n.
Proof.
  intros Hreset.
  unfold Stepgen.sync; cbv zeta. skip_routine.
  skip update_position_frame. rewrite reset_algorithm_off by exact Hreset.
  skip position_algorithm_frame. skip velocity_ramp_frame. reflexivity.
Qed.

Lemma sync_speed_target_velocity_mode i o n :
  Stepgen.reset i = false ->
  Stepgen.enable i = true ->
  Stepgen.position_mode o = false ->
  Stepgen.speed_target (Stepgen.sync pk soft_stop i o n)
  = Stepgen.speed_target n.
Proof.
  intros Hreset Hen Hmode.
  unfold Stepgen.sync; cbv zeta. skip_routine.
  skip update_position_frame. rewrite reset_algorithm_off by exact Hreset.
  rewrite position_algorithm_off by exact Hmode.
  apply ramp_speed_target, Hen.
Qed.

Lemma velocity_mode_tick iw o :
  Stepgen.undisturbed iw ->
  Stepgen.position_mode o = false ->
  Stepgen.position_mode (Stepgen.tick pk soft_stop iw o) = false
  /\ Stepgen.speed_target (Stepgen.tick pk soft_stop iw o)
     = Stepgen.speed_target o
  /\ Stepgen.max_acceleration (Stepgen.tick pk soft_stop iw o)
     = Stepgen.max_acceleration o
  /\ Stepgen.speed (Stepgen.tick pk soft_stop iw o)
     = if Stepgen.wait o then Stepgen.speed o
       else if Stepgen.max_acceleration o =? 0 then Stepgen.speed_target o
       else if Stepgen.speed_target o
               >=? Stepgen.speed o + Stepgen.max_acceleration o then
         Stepgen.assign_speed pk
           (Stepgen.speed o + Stepgen.max_acceleration o)
       else if Stepgen.speed_target o
               <=? Stepgen.speed o - Stepgen.max_acceleration o then
         Stepgen.assign_speed pk
           (Stepgen.speed o - Stepgen.max_acceleration o)
       else Stepgen.speed_target o.
Proof.
  intros (Hen & Hreset & Hw) Hmode.
  unfold Stepgen.tick. rewrite Hw.
  change (Stepgen.owner pk Stepgen.no_writes o) with o.
  rewrite sync_position_mode, sync_max_acceleration by exact Hreset.
  rewrite sync_speed_target_velocity_mode by assumption.
  rewrite sync_speed by exact Hreset.
  rewrite ramp_speed, Hreset, Hmode.
  cbn [negb andb orb Bool.eqb].
  repeat split; try assumption.
  destruct (Stepgen.wait o); reflexivity.
Qed.

(** In velocity mode every tick on which the ramp runs brings [speed] one
    [max_acceleration] closer to [speed_target], or onto it. *)
Lemma velocity_mode_run ins k s :
  in_signed (Stepgen.speed_width pk) (Stepgen.speed s) ->
  in_signed (Stepgen.speed_width pk) (Stepgen.speed_target s) ->
  0 < Stepgen.max_acceleration s ->
  Stepgen.position_mode s = false ->
  (forall j, (j < k)%nat -> Stepgen.undisturbed (ins j)) ->
  Stepgen.position_mode (Stepgen.run pk soft_stop ins k s) = false
  /\ Stepgen.speed_target (Stepgen.run pk soft_stop ins k s)
     = Stepgen.speed_target s
  /\ Stepgen.max_acceleration (Stepgen.run pk soft_stop ins k s)
     = Stepgen.max_acceleration s
  /\ Z.min (Stepgen.speed s) (Stepgen.speed_target s)
     <= Stepgen.speed (Stepgen.run pk soft_stop ins k s)
     <= Z.max (Stepgen.speed s) (Stepgen.speed_target s)
  /\ Z.abs (Stepgen.speed_target s
            - Stepgen.speed (Stepgen.run pk soft_stop ins k s))
     <= Z.max 0
          (Z.abs (Stepgen.speed_target s - Stepgen.speed s)
           - Stepgen.max_acceleration s
             * Z.of_nat (Stepgen.ramp_ticks pk soft_stop ins k s)).
Proof.
  intros Hv Ht Hacc Hmode Hins.
  induction k as [ | k IH].
  - cbn [Stepgen.run Stepgen.ramp_ticks]. repeat split; try assumption; lia.
  - destruct IH as (IHmode & IHtarget & IHacc & IHrange & IHgap).
    { intros j Hj. apply Hins. lia. }
    cbn [Stepgen.run Stepgen.ramp_ticks].
    destruct (velocity_mode_tick (ins k) (Stepgen.run pk soft_stop ins k s))
      as (Hm & Htg & Ha & Hs); [apply Hins; lia | exact IHmode | ].
    rewrite Hm, Htg, Ha, Hs, IHtarget, IHacc.
    split; [reflexivity | split; [reflexivity | split; [reflexivity | ]]].
    unfold in_signed in Hv, Ht. unfold Stepgen.assign_speed.
    rewrite Nat2Z.inj_add, Z.mul_add_distr_l.
    set (v := Stepgen.speed (Stepgen.run pk soft_stop ins k s)) in *.
    set (c := Stepgen.max_acceleration s
              * Z.of_nat (Stepgen.ramp_ticks pk soft_stop ins k s)) in *.
    destruct (Stepgen.wait (Stepgen.run pk soft_stop ins k s)).
    { cbn [Z.of_nat]. rewrite Z.mul_0_r, Z.add_0_r. split; assumption. }
    change (Z.of_nat 1) with 1. rewrite Z.mul_1_r.
    destruct (Z.eqb_spec (Stepgen.max_acceleration s) 0); [lia | ].
    destruct (Z.geb_spec (Stepgen.speed_target s)
                (v + Stepgen.max_acceleration s)).
    { rewrite wrap_signed_fits by (unfold in_signed; lia). lia. }
    destruct (Z.leb_spec (Stepgen.speed_target s)
                (v - Stepgen.max_acceleration s)).
    { rewrite wrap_signed_fits by (unfold in_signed; lia). lia. }
    lia.
Qed.

End SpeedRamp.

(** C6, as the code has it: without reset and with an acceleration limit
    set, [speed] changes by at most [max_acceleration] per tick; and in
    velocity mode, enabled and with the target left alone, [speed] equals
    [speed_target] once the ramp has run on enough ticks to cover the
    initial gap (the ticks spent waiting for a direction set-up do not
    count). *)
Theorem speed_ramp_bounded_and_converges pk soft_stop :
  (forall iw o,
     in_signed (Stepgen.speed_width pk) (Stepgen.speed o) ->
     in_signed (Stepgen.speed_width pk) (Stepgen.speed_target o) ->
     Stepgen.reset (fst iw) = false ->
     0 < Stepgen.max_acceleration o ->
     Z.abs (Stepgen.speed (Stepgen.tick pk soft_stop iw o) - Stepgen.speed o)
     <= Stepgen.max_acceleration o)
  /\ (forall ins k s,
        in_signed (Stepgen.speed_width pk) (Stepgen.speed s) ->
        in_signed (Stepgen.speed_width pk) (Stepgen.speed_target s) ->
        0 < Stepgen.max_acceleration s ->
        Stepgen.position_mode s = false ->
        (forall j, (j < k)%nat -> Stepgen.undisturbed (ins j)) ->
        Z.abs (Stepgen.speed_target s - Stepgen.speed s)
        <= Stepgen.max_acceleration s
           * Z.of_nat (Stepgen.ramp_ticks pk soft_stop ins k s) ->
        Stepgen.speed (Stepgen.run pk soft_stop ins k s)
        = Stepgen.speed_target s).
Proof.
  split.
  - intros iw o. apply speed_step_bounded.
  - intros ins k s Hv Ht Hacc Hmode Hins Hticks.
    destruct (velocity_mode_run pk soft_stop ins k s Hv Ht Hacc Hmode Hins)
      as (_ & _ & _ & _ & Hgap).
    lia.
Qed.

Lemma speed_ramp_bounded_and_converges_witness :
  Stepgen.ramp_ticks bench_pick_offs true (fun _ => running) 3
    (generator_at_rest false 0 100000 35184) = 3%nat
  /\ Stepgen.speed
       (Stepgen.run bench_pick_offs true (fun _ => running) 3
          (generator_at_rest false 0 100000 35184)) = 100000
  /\ Z.abs
       (Stepgen.speed
          (Stepgen.tick bench_pick_offs true running
             (generator_at_rest false 0 100000 35184)) - 0) <= 35184.
Proof.
  destruct (speed_ramp_bounded_and_converges bench_pick_offs true)
    as (Hbound & Hreach).
  assert (Hfit : forall x, - 2 ^ 39 <= x < 2 ^ 39 ->
                           in_signed (Stepgen.speed_width bench_pick_offs) x)
    by (intros x Hx; exact Hx).
  split; [vm_compute; reflexivity | split].
  - apply (Hreach (fun _ => running) 3%nat
             (generator_at_rest false 0 100000 35184)).
    + apply Hfit. cbn. lia.
    + apply Hfit. cbn. lia.
    + cbn. lia.
    + reflexivity.
    + intros j _. repeat split.
    + vm_compute. discriminate.
  - apply (Hbound running (generator_at_rest false 0 100000 35184)).
    + apply Hfit. cbn. lia.
    + apply Hfit. cbn. lia.
    + reflexivity.
    + cbn. lia.
Defined.

(** In position mode a generator at rest on its target with a speed
    target of 1000, below one [max_acceleration], does not move: every
    tick leaves all registers as they are, so the speed stays 0 and never
    reaches the constant target. *)
Lemma speed_ramp_bounded_and_converges_counterexample :
  Stepgen.tick bench_pick_offs true running
    (generator_at_rest true 0 1000 35184)
  = generator_at_rest true 0 1000 35184
  /\ (forall k,
        Stepgen.speed
          (Stepgen.run bench_pick_offs true (fun _ => running) k
             (generator_at_rest true 0 1000 35184)) = 0
        /\ Stepgen.speed_target
             (Stepgen.run bench_pick_offs true (fun _ => running) k
                (generator_at_rest true 0 1000 35184)) = 1000).
Proof.
  assert (Hfix : Stepgen.tick bench_pick_offs true running
                   (generator_at_rest true 0 1000 35184)
                 = generator_at_rest true 0 1000 35184)
    by (vm_compute; reflexivity).
  split; [exact Hfix | ].
  assert (Hrun : forall k,
             Stepgen.run bench_pick_offs true (fun _ => running) k
               (generator_at_rest true 0 1000 35184)
             = generator_at_rest true 0 1000 35184).
  { induction k as [ | k IH]; [reflexivity | ].
    cbn [Stepgen.run]. rewrite IH. exact Hfix. }
  intros k. rewrite Hrun. split; reflexivity.
Qed.

(** ** Direction timing *)

Lemma wrap_unsigned_fits w x : in_unsigned w x -> wrap_unsigned w x = x.
Proof. unfold in_unsigned, wrap_unsigned. intros Hx. apply Z.mod_small, Hx. Qed.

Section DirectionTiming.

Variable pk : Stepgen.pick_offs.
Variable soft_stop : bool.

Lemma routine_dir_dir o n :
  Stepgen.dir (Stepgen.routine_dir pk o n)
  = if negb (Bool.eqb (Stepgen.dir o) (Stepgen.speed_sign pk o))
       && (Stepgen.dir_hold_counter o =? 0)
    then Stepgen.speed_sign pk o
    else Stepgen.dir n.
Proof.
  unfold Stepgen.routine_dir, If; cbv zeta.
  destruct (Bool.eqb (Stepgen.dir o) (Stepgen.speed_sign pk o)),
    (Stepgen.dir_hold_counter o =? 0), (Stepgen.dir_setup_counter o =? 0);
    reflexivity.
Qed.

Lemma routine_dir_hold_dds o n :
  Stepgen.hold_dds (Stepgen.routine_dir pk o n)
  = if negb (Bool.eqb (Stepgen.dir o) (Stepgen.speed_sign pk o))
    then true
    else Stepgen.hold_dds n.
Proof.
  unfold Stepgen.routine_dir, If; cbv zeta.
  destruct (Bool.eqb (Stepgen.dir o) (Stepgen.speed_sign pk o)),
    (Stepgen.dir_hold_counter o =? 0), (Stepgen.dir_setup_counter o =? 0);
    reflexivity.
Qed.

Lemma routine_dir_dir_setup_counter o n :
  Stepgen.dir_setup_counter (Stepgen.routine_dir pk o n)
  = if negb (Bool.eqb (Stepgen.dir o) (Stepgen.speed_sign pk o))
       && (Stepgen.dir_setup_counter o =? 0)
    then wrap_unsigned 13 (Stepgen.dir_setup_time o)
    else Stepgen.dir_setup_counter n.
Proof.
  unfold Stepgen.routine_dir, If; cbv zeta.
  destruct (Bool.eqb (Stepgen.dir o) (Stepgen.speed_sign pk o)),
    (Stepgen.dir_hold_counter o =? 0), (Stepgen.dir_setup_counter o =? 0);
    reflexivity.
Qed.

Lemma routine_release_hold_dds o n :
  Stepgen.hold_dds (Stepgen.routine_release o n)
  = if Stepgen.dir_setup_counter o =? 0 then false else Stepgen.hold_dds n.
Proof.
  unfold Stepgen.routine_release, If. split_ifs; reflexivity.
Qed.

Lemma counters_dir_setup_counter o n :
  Stepgen.dir_setup_counter (Stepgen.counters o n)
  = if Stepgen.dir_setup_counter o >? 0
    then wrap_unsigned 13 (Stepgen.dir_setup_counter o - 1)
    else Stepgen.dir_setup_counter n.
Proof.
  unfold Stepgen.counters, If; cbv zeta. split_ifs; reflexivity.
Qed.

Ltac skip_motion :=
  skip update_position_frame; skip reset_algorithm_frame;
  skip position_algorithm_frame; skip velocity_ramp_frame;
  skip owner_frame.

Lemma tick_dir iw o :
  Stepgen.dir (Stepgen.tick pk soft_stop iw o)
  = if negb (Bool.eqb (Stepgen.dir o) (Stepgen.speed_sign pk o))
       && (Stepgen.dir_hold_counter o =? 0)
    then Stepgen.speed_sign pk o
    else Stepgen.dir o.
Proof.
  unfold Stepgen.tick, Stepgen.sync; cbv zeta.
  skip counters_frame. rewrite routine_dir_dir.
  destruct (negb (Bool.eqb (Stepgen.dir o) (Stepgen.speed_sign pk o))
            && (Stepgen.dir_hold_counter o =? 0)); [reflexivity | ].
  skip routine_step_output_frame. skip routine_release_frame.
  skip routine_step_frame. skip_motion. reflexivity.
Qed.

Lemma tick_hold_dds iw o :
  Stepgen.hold_dds (Stepgen.tick pk soft_stop iw o)
  = if negb (Bool.eqb (Stepgen.dir o) (Stepgen.speed_sign pk o)) then true
    else if Stepgen.dir_setup_counter o =? 0 then false
    else Stepgen.hold_dds o.
Proof.
  unfold Stepgen.tick, Stepgen.sync; cbv zeta.
  skip counters_frame. rewrite routine_dir_hold_dds.
  destruct (negb (Bool.eqb (Stepgen.dir o) (Stepgen.speed_sign pk o)));
    [reflexivity | ].
  skip routine_step_output_frame. rewrite routine_release_hold_dds.
  destruct (Stepgen.dir_setup_counter o =? 0); [reflexivity | ].
  skip routine_step_frame. skip_motion. reflexivity.
Qed.

Lemma tick_dir_setup_time iw o :
  Stepgen.dir_setup_time (Stepgen.tick pk soft_stop iw o)
  = Stepgen.dir_setup_time o.
Proof.
  unfold Stepgen.tick, Stepgen.sync; cbv zeta.
  skip_routine. skip_motion. reflexivity.
Qed.

(** A request for the other direction that finds the set-up counter at 0
    loads it with [dir_setup_time]. *)
Lemma tick_loads_dir_setup iw o :
  Stepgen.dir o <> Stepgen.speed_sign pk o ->
  Stepgen.dir_setup_counter o = 0 ->
  Stepgen.dir_setup_counter (Stepgen.tick pk soft_stop iw o)
  = wrap_unsigned 13 (Stepgen.dir_setup_time o).
Proof.
  intros Hreq Hzero.
  unfold Stepgen.tick, Stepgen.sync; cbv zeta.
  rewrite counters_dir_setup_counter, routine_dir_dir_setup_counter, Hzero.
  cbn [Z.gtb Z.compare Z.eqb andb].
  destruct (Stepgen.dir o), (Stepgen.speed_sign pk o);
    try reflexivity; contradiction Hreq; reflexivity.
Qed.

(** A set-up counter that is running counts down by one. *)
Lemma tick_counts_dir_setup iw o :
  0 < Stepgen.dir_setup_counter o ->
  Stepgen.dir_setup_counter (Stepgen.tick pk soft_stop iw o)
  = wrap_unsigned 13 (Stepgen.dir_setup_counter o - 1).
Proof.
  intros Hpos.
  unfold Stepgen.tick, Stepgen.sync; cbv zeta.
  rewrite counters_dir_setup_counter.
  destruct (Z.gtb_spec (Stepgen.dir_setup_counter o) 0); [reflexivity | lia].
Qed.

(** [dir] changes only on a tick that finds [dir_hold_counter] at 0. *)
Lemma dir_changes_after_hold iw o :
  Stepgen.dir (Stepgen.tick pk soft_stop iw o) <> Stepgen.dir o ->
  Stepgen.dir_hold_counter o = 0.
Proof.
  rewrite tick_dir. intros Hchange.
  destruct (Z.eqb_spec (Stepgen.dir_hold_counter o) 0) as [Hz | Hnz];
    [exact Hz | ].
  rewrite andb_false_r in Hchange. contradiction Hchange. reflexivity.
Qed.

(** After a request that found the set-up counter at 0, the hold stays on
    while the counter runs down from [dir_setup_time]. *)
Lemma hold_window ins s k :
  in_unsigned 12 (Stepgen.dir_setup_time s) ->
  Stepgen.dir s <> Stepgen.speed_sign pk s ->
  Stepgen.dir_setup_counter s = 0 ->
  (1 <= k)%nat ->
  Z.of_nat k <= Stepgen.dir_setup_time s + 1 ->
  Stepgen.hold_dds (Stepgen.run pk soft_stop ins k s) = true
  /\ Stepgen.dir_setup_counter (Stepgen.run pk soft_stop ins k s)
     = Stepgen.dir_setup_time s - (Z.of_nat k - 1)
  /\ Stepgen.dir_setup_time (Stepgen.run pk soft_stop ins k s)
     = Stepgen.dir_setup_time s.
Proof.
  intros Hfit Hreq Hzero Hk1 Hk.
  unfold in_unsigned in Hfit.
  assert (H13 : (2 ^ 12 < 2 ^ 13)) by (apply Z.pow_lt_mono_r; lia).
  induction k as [ | k IH]; [lia | ].
  rewrite run_step.
  destruct k as [ | k].
  - cbn [Stepgen.run].
    rewrite tick_hold_dds, tick_dir_setup_time,
      tick_loads_dir_setup by assumption.
    rewrite wrap_unsigned_fits by (unfold in_unsigned; lia).
    repeat split; [ | lia].
    destruct (Stepgen.dir s), (Stepgen.speed_sign pk s);
      try reflexivity; contradiction Hreq; reflexivity.
  - destruct IH as (IHhold & IHcount & IHtime); [lia | lia | ].
    rewrite tick_hold_dds, tick_dir_setup_time,
      tick_counts_dir_setup by lia.
    rewrite IHhold, IHcount, IHtime.
    rewrite wrap_unsigned_fits by (unfold in_unsigned; lia).
    repeat split; [ | lia].
    destruct (negb (Bool.eqb (Stepgen.dir (Stepgen.run pk soft_stop ins (S k) s))
                      (Stepgen.speed_sign pk (Stepgen.run pk soft_stop ins (S k) s))));
      [reflexivity | ].
    destruct (Z.eqb_spec
                (Stepgen.dir_setup_time s - (Z.of_nat (S k) - 1)) 0);
      [lia | reflexivity].
Qed.

Lemma routine_step_steplen_counter o n :
  Stepgen.steplen_counter (Stepgen.routine_step pk o n)
  = if Stepgen.makes_step pk o then wrap_unsigned 10 (Stepgen.steplen o)
    else Stepgen.steplen_counter n.
Proof.
  unfold Stepgen.routine_step, Stepgen.makes_step, If; cbv zeta.
  destruct (Bool.eqb (Stepgen.step_bit pk o) (Stepgen.step_prev o)),
    (Stepgen.hold_dds o); reflexivity.
Qed.

Lemma counters_steplen_counter o n :
  Stepgen.steplen_counter (Stepgen.counters o n)
  = if Stepgen.steplen_counter o >? 0
    then wrap_unsigned 10 (Stepgen.steplen_counter o - 1)
    else Stepgen.steplen_counter n.
Proof.
  unfold Stepgen.counters, If; cbv zeta. split_ifs; reflexivity.
Qed.

Lemma tick_steplen_counter iw o :
  Stepgen.steplen_counter (Stepgen.tick pk soft_stop iw o)
  = if Stepgen.steplen_counter o >? 0
    then wrap_unsigned 10 (Stepgen.steplen_counter o - 1)
    else if Stepgen.makes_step pk o
         then wrap_unsigned 10 (Stepgen.steplen o)
         else Stepgen.steplen_counter o.
Proof.
  unfold Stepgen.tick, Stepgen.sync; cbv zeta.
  rewrite counters_steplen_counter.
  destruct (Stepgen.steplen_counter o >? 0); [reflexivity | ].
  skip routine_dir_frame. skip routine_step_output_frame.
  skip routine_release_frame. rewrite routine_step_steplen_counter.
  destruct (Stepgen.makes_step pk o); [reflexivity | ].
  skip_motion. reflexivity.
Qed.

(** The step output is high exactly after a tick that found the pulse
    counter running. *)
Lemma tick_step iw o :
  Stepgen.step (Stepgen.tick pk soft_stop iw o)
  = (Stepgen.steplen_counter o >? 0).
Proof.
  unfold Stepgen.tick, Stepgen.sync; cbv zeta.
  skip counters_frame. skip routine_dir_frame.
  unfold Stepgen.routine_step_output.
  destruct (Stepgen.steplen_counter o >? 0); reflexivity.
Qed.

(** If moreover no pulse is running and no step is pending when the
    request is made, the step output stays low for [dir_setup_time + 3]
    ticks. *)
Lemma step_output_quiet ins s k :
  in_unsigned 12 (Stepgen.dir_setup_time s) ->
  Stepgen.dir s <> Stepgen.speed_sign pk s ->
  Stepgen.dir_setup_counter s = 0 ->
  Stepgen.steplen_counter s = 0 ->
  Stepgen.makes_step pk s = false ->
  (1 <= k)%nat ->
  Z.of_nat k <= Stepgen.dir_setup_time s + 3 ->
  Stepgen.step (Stepgen.run pk soft_stop ins k s) = false.
Proof.
  intros Hfit Hreq Hzero Hpulse Hpending Hk1 Hk.
  assert (Hidle : forall j,
             Z.of_nat j <= Stepgen.dir_setup_time s + 2 ->
             Stepgen.steplen_counter (Stepgen.run pk soft_stop ins j s) = 0).
  { induction j as [ | j IH]; intros Hj; [exact Hpulse | ].
    rewrite run_step, tick_steplen_counter, IH by lia.
    cbn [Z.gtb Z.compare].
    destruct j as [ | j].
    - cbn [Stepgen.run]. rewrite Hpending. reflexivity.
    - destruct (hold_window ins s (S j) Hfit Hreq Hzero) as (Hhold & _);
        [lia | lia | ].
      unfold Stepgen.makes_step. rewrite Hhold, andb_false_r.
      reflexivity. }
  destruct k as [ | k]; [lia | ].
  rewrite run_step, tick_step, Hidle by lia. reflexivity.
Qed.

End DirectionTiming.

(** While the set-up counter started by the last step runs down and the
    speed keeps its sign, the direction requested is taken over at once
    and no new hold begins. *)
Lemma countdown_after_request pk soft_stop ins s c j :
  Stepgen.dir s <> Stepgen.speed_sign pk s ->
  Stepgen.dir_hold_counter s = 0 ->
  Stepgen.dir_setup_counter s = Z.of_nat c ->
  Z.of_nat c < 2 ^ 13 ->
  (forall i, (1 <= i <= c)%nat ->
     Stepgen.speed_sign pk (Stepgen.run pk soft_stop ins i s)
     = Stepgen.speed_sign pk s) ->
  (1 <= j <= c)%nat ->
  Stepgen.dir (Stepgen.run pk soft_stop ins j s) = Stepgen.speed_sign pk s
  /\ Stepgen.dir_setup_counter (Stepgen.run pk soft_stop ins j s)
     = Z.of_nat c - Z.of_nat j.
Proof.
  intros Hreq Hhold Hcount Hfit Hsign Hj.
  induction j as [ | j IH]; [lia | ].
  rewrite run_step.
  destruct (Nat.eq_dec j 0) as [Hz | Hnz].
  - subst j. cbn [Stepgen.run].
    rewrite tick_dir, Hhold.
    rewrite tick_counts_dir_setup by lia. rewrite Hcount.
    destruct (Bool.eqb (Stepgen.dir s) (Stepgen.speed_sign pk s)) eqn:Heq;
      [apply eqb_prop in Heq; contradiction | ].
    cbn [negb andb Z.eqb].
    split; [reflexivity | ].
    apply wrap_unsigned_fits. unfold in_unsigned. lia.
  - destruct IH as (IHdir & IHcount); [lia | ].
    rewrite tick_dir, IHdir.
    rewrite tick_counts_dir_setup by lia. rewrite IHcount.
    rewrite (Hsign j) by lia. rewrite eqb_reflx. cbn [negb andb].
    split; [reflexivity | ].
    rewrite wrap_unsigned_fits by (unfold in_unsigned; lia). lia.
Qed.

(** C8, what the code does: [dir] changes only on a tick that finds
    [dir_hold_counter] at 0; but a request for the other direction that
    finds the set-up counter still running from the last step, [c] ticks
    before its end, is not given a set-up time of its own: the direction
    changes on the tick of the request and the hold on the steps ends
    [c + 1] ticks after it, however long [dir_setup_time] is, so that a
    step that is pending then is made on the next tick. *)
Theorem direction_setup_cut_short pk soft_stop :
  (forall iw o,
     Stepgen.dir (Stepgen.tick pk soft_stop iw o) <> Stepgen.dir o ->
     Stepgen.dir_hold_counter o = 0)
  /\ (forall ins s c,
        Stepgen.dir s <> Stepgen.speed_sign pk s ->
        Stepgen.dir_hold_counter s = 0 ->
        Stepgen.dir_setup_counter s = Z.of_nat c ->
        (1 <= c)%nat ->
        Z.of_nat c < 2 ^ 13 ->
        (forall i, (1 <= i <= c)%nat ->
           Stepgen.speed_sign pk (Stepgen.run pk soft_stop ins i s)
           = Stepgen.speed_sign pk s) ->
        Stepgen.dir (Stepgen.run pk soft_stop ins 1 s)
        = Stepgen.speed_sign pk s
        /\ Stepgen.hold_dds (Stepgen.run pk soft_stop ins (S c) s) = false
        /\ Stepgen.makes_step pk (Stepgen.run pk soft_stop ins (S c) s)
           = negb (Bool.eqb
                     (Stepgen.step_bit pk
                        (Stepgen.run pk soft_stop ins (S c) s))
                     (Stepgen.step_prev
                        (Stepgen.run pk soft_stop ins (S c) s)))).
Proof.
  split.
  - apply dir_changes_after_hold.
  - intros ins s c Hreq Hhold Hcount Hc Hfit Hsign.
    destruct (countdown_after_request pk soft_stop ins s c 1
                Hreq Hhold Hcount Hfit Hsign) as (Hdir & _); [lia | ].
    destruct (countdown_after_request pk soft_stop ins s c c
                Hreq Hhold Hcount Hfit Hsign) as (Hdirc & Hcountc); [lia | ].
    assert (Hfree : Stepgen.hold_dds (Stepgen.run pk soft_stop ins (S c) s)
                    = false).
    { rewrite run_step, tick_hold_dds, Hdirc, Hcountc.
      rewrite (Hsign c) by lia. rewrite eqb_reflx, Z.sub_diag. reflexivity. }
    split; [exact Hdir | split; [exact Hfree | ]].
    unfold Stepgen.makes_step. rewrite Hfree. apply andb_true_r.
Qed.

(** The generator of the test bench of [stepgen.py] ([steplen] 16,
    [dir_hold_time] 16, [dir_setup_time] 32) makes a step on its first tick
    and then stands still; a negative speed is commanded on tick 63.  The
    request reaches the direction logic in the state after tick 64, with
    the set-up counter at 1: the direction has changed after tick 65, the
    step is made on tick 67 and the step output is high after tick 68. *)
Lemma direction_setup_cut_short_witness :
  Stepgen.speed (Stepgen.run bench_pick_offs true late_reversal 63
                   step_pending) = 0
  /\ Stepgen.dir_setup_time
       (Stepgen.run bench_pick_offs true late_reversal 64 step_pending) = 32
  /\ Stepgen.dir
       (Stepgen.run bench_pick_offs true late_reversal 64 step_pending)
     = false
  /\ Stepgen.dir
       (Stepgen.run bench_pick_offs true (fun _ => running) 1
          (Stepgen.run bench_pick_offs true late_reversal 64 step_pending))
     = true
  /\ Stepgen.makes_step bench_pick_offs
       (Stepgen.run bench_pick_offs true (fun _ => running) 2
          (Stepgen.run bench_pick_offs true late_reversal 64 step_pending))
     = true
  /\ Stepgen.step
       (Stepgen.run bench_pick_offs true (fun _ => running) 4
          (Stepgen.run bench_pick_offs true late_reversal 64 step_pending))
     = true.
Proof.
  destruct (direction_setup_cut_short bench_pick_offs true) as (_ & Hcut).
  destruct (Hcut (fun _ => running)
              (Stepgen.run bench_pick_offs true late_reversal 64 step_pending)
              1%nat)
    as (Hdir & _ & Hstep).
  - vm_compute. discriminate.
  - vm_compute. reflexivity.
  - vm_compute. reflexivity.
  - lia.
  - vm_compute. reflexivity.
  - intros i Hi. assert (Hone : i = 1%nat) by lia. subst i.
    vm_compute. reflexivity.
  - split; [vm_compute; reflexivity | ].
    split; [vm_compute; reflexivity | ].
    split; [vm_compute; reflexivity | ].
    split; [etransitivity; [exact Hdir | vm_compute; reflexivity] | ].
    split; [etransitivity; [exact Hstep | vm_compute; reflexivity] | ].
    vm_compute. reflexivity.
Defined.

(** ** Registers stay within their widths *)

Lemma wrap_signed_range w x : 1 <= w -> in_signed w (wrap_signed w x).
Proof.
  intros Hw. unfold in_signed, wrap_signed.
  assert (H2 : 2 ^ w = 2 * 2 ^ (w - 1)).
  { replace w with (Z.succ (w - 1)) at 1 by lia.
    apply Z.pow_succ_r. lia. }
  assert (Hpos : 0 < 2 ^ (w - 1)) by (apply Z.pow_pos_nonneg; lia).
  pose proof (Z.mod_pos_bound (x + 2 ^ (w - 1)) (2 ^ w)) as Hmod.
  lia.
Qed.

Lemma wrap_unsigned_range w x : 0 <= w -> in_unsigned w (wrap_unsigned w x).
Proof.
  intros Hw. unfold in_unsigned, wrap_unsigned.
  apply Z.mod_pos_bound. apply Z.pow_pos_nonneg; lia.
Qed.

Lemma in_signed_zero w : 1 <= w -> in_signed w 0.
Proof.
  intros Hw. unfold in_signed.
  assert (Hpos : 0 < 2 ^ (w - 1)) by (apply Z.pow_pos_nonneg; lia).
  lia.
Qed.

Lemma in_unsigned_zero w : 0 <= w -> in_unsigned w 0.
Proof.
  intros Hw. unfold in_unsigned.
  assert (Hpos : 0 < 2 ^ w) by (apply Z.pow_pos_nonneg; lia).
  lia.
Qed.

(** A pick-off that is accepted is stored in order. *)
Lemma store_pick_off_ordered v pk :
  Stepgen.store_pick_off v = Stepgen.Built pk -> Stepgen.ordered pk.
Proof.
  unfold Stepgen.store_pick_off, Stepgen.ordered.
  destruct v as [p | xs | str | ]; try discriminate.
  - intros H; injection H as <-. cbn. lia.
  - destruct (Z.of_nat (List.length xs) <? 3); [discriminate | ].
    intros H; injection H as <-. cbn. lia.
Qed.

Section FitsPreserved.

Variable pk : Stepgen.pick_offs.
Hypothesis pick_offs_ordered : Stepgen.ordered pk.

Lemma assign_position_fits x :
  in_signed (Stepgen.position_width pk) (Stepgen.assign_position pk x).
Proof.
  apply wrap_signed_range. unfold Stepgen.position_width.
  unfold Stepgen.ordered in pick_offs_ordered. lia.
Qed.

Lemma assign_speed_fits x :
  in_signed (Stepgen.speed_width pk) (Stepgen.assign_speed pk x).
Proof.
  apply wrap_signed_range. unfold Stepgen.speed_width.
  unfold Stepgen.ordered in pick_offs_ordered. lia.
Qed.

Lemma position_zero_fits : in_signed (Stepgen.position_width pk) 0.
Proof.
  apply in_signed_zero. unfold Stepgen.position_width.
  unfold Stepgen.ordered in pick_offs_ordered. lia.
Qed.

Lemma speed_zero_fits : in_signed (Stepgen.speed_width pk) 0.
Proof.
  apply in_signed_zero. unfold Stepgen.speed_width.
  unfold Stepgen.ordered in pick_offs_ordered. lia.
Qed.

Ltac fits_set :=
  intros;
  match goal with H : Stepgen.fits _ _ |- _ => destruct H end;
  constructor; cbn; assumption.

Lemma fits_set_step_prev v s :
  Stepgen.fits pk s -> Stepgen.fits pk (Stepgen.set_step_prev v s).
Proof. fits_set. Qed.

Lemma fits_set_step v s :
  Stepgen.fits pk s -> Stepgen.fits pk (Stepgen.set_step v s).
Proof. fits_set. Qed.

Lemma fits_set_dir v s :
  Stepgen.fits pk s -> Stepgen.fits pk (Stepgen.set_dir v s).
Proof. fits_set. Qed.

Lemma fits_set_hold_dds v s :
  Stepgen.fits pk s -> Stepgen.fits pk (Stepgen.set_hold_dds v s).
Proof. fits_set. Qed.

Lemma fits_set_wait v s :
  Stepgen.fits pk s -> Stepgen.fits pk (Stepgen.set_wait v s).
Proof. fits_set. Qed.

Lemma fits_set_position_mode v s :
  Stepgen.fits pk s -> Stepgen.fits pk (Stepgen.set_position_mode v s).
Proof. fits_set. Qed.

Lemma fits_set_accelerating v s :
  Stepgen.fits pk s -> Stepgen.fits pk (Stepgen.set_accelerating v s).
Proof. fits_set. Qed.

Lemma fits_set_steplen_counter v s :
  in_unsigned 10 v ->
  Stepgen.fits pk s -> Stepgen.fits pk (Stepgen.set_steplen_counter v s).
Proof. fits_set. Qed.

Lemma fits_set_dir_hold_counter v s :
  in_unsigned 11 v ->
  Stepgen.fits pk s -> Stepgen.fits pk (Stepgen.set_dir_hold_counter v s).
Proof. fits_set. Qed.

Lemma fits_set_dir_setup_counter v s :
  in_unsigned 13 v ->
  Stepgen.fits pk s -> Stepgen.fits pk (Stepgen.set_dir_setup_counter v s).
Proof. fits_set. Qed.

Lemma fits_set_position v s :
  in_signed (Stepgen.position_width pk) v ->
  Stepgen.fits pk s -> Stepgen.fits pk (Stepgen.set_position v s).
Proof. fits_set. Qed.

Lemma fits_set_position_target v s :
  in_signed (Stepgen.position_width pk) v ->
  Stepgen.fits pk s -> Stepgen.fits pk (Stepgen.set_position_target v s).
Proof. fits_set. Qed.

Lemma fits_set_acc_distance v s :
  in_signed (Stepgen.position_width pk) v ->
  Stepgen.fits pk s -> Stepgen.fits pk (Stepgen.set_acc_distance v s).
Proof. fits_set. Qed.

Lemma fits_set_speed v s :
  in_signed (Stepgen.speed_width pk) v ->
  Stepgen.fits pk s -> Stepgen.fits pk (Stepgen.set_speed v s).
Proof. fits_set. Qed.

Lemma fits_set_speed_target v s :
  in_signed (Stepgen.speed_width pk) v ->
  Stepgen.fits pk s -> Stepgen.fits pk (Stepgen.set_speed_target v s).
Proof. fits_set. Qed.

Lemma fits_set_max_acceleration v s :
  in_unsigned 32 v ->
  Stepgen.fits pk s -> Stepgen.fits pk (Stepgen.set_max_acceleration v s).
Proof. fits_set. Qed.

Create HintDb fits.

Hint Resolve
  fits_set_step_prev fits_set_step fits_set_dir fits_set_hold_dds
  fits_set_wait fits_set_position_mode fits_set_accelerating
  fits_set_steplen_counter fits_set_dir_hold_counter
  fits_set_dir_setup_counter fits_set_position fits_set_position_target
  fits_set_acc_distance fits_set_speed fits_set_speed_target
  fits_set_max_acceleration
  assign_position_fits assign_speed_fits position_zero_fits speed_zero_fits
  wrap_unsigned_range in_unsigned_zero
  Stepgen.fits_speed_target Stepgen.fits_max_speed : fits.

Hint Extern 1 (0 <= _) => lia : fits.

Ltac fits_stmt := split_ifs; auto 12 with fits.

Lemma owner_fits w o : Stepgen.fits pk o -> Stepgen.fits pk (Stepgen.owner pk w o).
Proof.
  intros Ho. unfold Stepgen.owner; cbv zeta.
  destruct (Stepgen.write_position_mode w), (Stepgen.write_speed_target w),
    (Stepgen.write_position_target w); auto 12 with fits.
Qed.

Lemma velocity_ramp_fits i o n :
  Stepgen.fits pk o -> Stepgen.fits pk n ->
  Stepgen.fits pk (Stepgen.velocity_ramp pk i o n).
Proof.
  intros Ho Hn. unfold Stepgen.velocity_ramp, If; cbv zeta. fits_stmt.
Qed.

Lemma position_algorithm_fits o n :
  Stepgen.fits pk o -> Stepgen.fits pk n ->
  Stepgen.fits pk (Stepgen.position_algorithm pk o n).
Proof.
  intros Ho Hn. unfold Stepgen.position_algorithm. fits_stmt.
Qed.

Lemma reset_algorithm_fits i n :
  Stepgen.fits pk n -> Stepgen.fits pk (Stepgen.reset_algorithm i n).
Proof.
  intros Hn. unfold Stepgen.reset_algorithm, If. fits_stmt.
Qed.

Lemma update_position_fits soft_stop i o n :
  Stepgen.fits pk n ->
  Stepgen.fits pk (Stepgen.update_position pk soft_stop i o n).
Proof.
  intros Hn. unfold Stepgen.update_position, If; cbv zeta. fits_stmt.
Qed.

Lemma routine_step_fits o n :
  Stepgen.fits pk n -> Stepgen.fits pk (Stepgen.routine_step pk o n).
Proof.
  intros Hn. unfold Stepgen.routine_step, If; cbv zeta. fits_stmt.
Qed.

Lemma routine_release_fits o n :
  Stepgen.fits pk n -> Stepgen.fits pk (Stepgen.routine_release o n).
Proof.
  intros Hn. unfold Stepgen.routine_release, If. fits_stmt.
Qed.

Lemma routine_step_output_fits o n :
  Stepgen.fits pk n -> Stepgen.fits pk (Stepgen.routine_step_output o n).
Proof.
  intros Hn. unfold Stepgen.routine_step_output. fits_stmt.
Qed.

Lemma routine_dir_fits o n :
  Stepgen.fits pk n -> Stepgen.fits pk (Stepgen.routine_dir pk o n).
Proof.
  intros Hn. unfold Stepgen.routine_dir, If; cbv zeta. fits_stmt.
Qed.

Lemma counters_fits o n :
  Stepgen.fits pk n -> Stepgen.fits pk (Stepgen.counters o n).
Proof.
  intros Hn. unfold Stepgen.counters, If; cbv zeta. fits_stmt.
Qed.

(** Every statement cuts what it assigns to the width of the register, so
    registers that fit their widths keep fitting them. *)
Lemma sync_fits soft_stop i o n :
  Stepgen.fits pk o -> Stepgen.fits pk n ->
  Stepgen.fits pk (Stepgen.sync pk soft_stop i o n).
Proof.
  intros Ho Hn. unfold Stepgen.sync; cbv zeta.
  apply counters_fits, routine_dir_fits, routine_step_output_fits,
    routine_release_fits, routine_step_fits, update_position_fits,
    reset_algorithm_fits, position_algorithm_fits; [exact Ho | ].
  apply velocity_ramp_fits; assumption.
Qed.

Lemma tick_fits soft_stop iw o :
  Stepgen.fits pk o -> Stepgen.fits pk (Stepgen.tick pk soft_stop iw o).
Proof.
  intros Ho. unfold Stepgen.tick.
  apply sync_fits; [exact Ho | apply owner_fits, Ho].
Qed.

Lemma run_fits soft_stop ins k s :
  Stepgen.fits pk s -> Stepgen.fits pk (Stepgen.run pk soft_stop ins k s).
Proof.
  intros Hs. induction k as [ | k IH]; [exact Hs | ].
  cbn [Stepgen.run]. apply tick_fits, IH.
Qed.

(** The sequencer, too, writes the generator's targets at their widths. *)
Lemma sequencer_tick_fits cfg i o :
  Stepgen.fits pk (Toolerator.step_generator o) ->
  Stepgen.fits pk
    (Toolerator.step_generator (Toolerator.tick pk cfg i o)).
Proof.
  intros Ho. unfold Toolerator.tick.
  cbn [Toolerator.step_generator Toolerator.on_generator].
  apply sync_fits; [exact Ho | ].
  unfold Toolerator.sequencer_writes, Toolerator.fsm, If.
  destruct (Toolerator.state o);
    split_ifs;
    cbn [Toolerator.step_generator Toolerator.on_generator
           Toolerator.set_state Toolerator.set_home_position
           Toolerator.set_current_tool Toolerator.set_moving_to_tool];
    auto 12 with fits.
Qed.

End FitsPreserved.

(** ** Double precision: what rounding keeps *)

Section DoubleFacts.

Open Scope Q_scope.

Lemma two_nonzero : ~ 2 == 0.
Proof. intros H. discriminate H. Qed.

Lemma pow2_pos e : 0 < 2 ^ e.
Proof. apply Qpower_0_lt. reflexivity. Qed.

Lemma pow2_add a b : 2 ^ (a + b) == 2 ^ a * 2 ^ b.
Proof. apply Qpower_plus, two_nonzero. Qed.

Lemma pow2_succ a : 2 ^ (a + 1) == 2 * 2 ^ a.
Proof. rewrite pow2_add. change (2 ^ 1) with 2. ring. Qed.

Lemma pow2_pred a : 2 * 2 ^ (a - 1) == 2 ^ a.
Proof.
  rewrite <- pow2_succ. replace (a - 1 + 1)%Z with a by lia. reflexivity.
Qed.

Lemma pow2_inject n : (0 <= n)%Z -> inject_Z (2 ^ n) == 2 ^ n.
Proof. intros Hn. apply (Zpower_Qpower 2 n Hn). Qed.

Lemma pow2_le a b : (a <= b)%Z -> 2 ^ a <= 2 ^ b.
Proof. intros H. apply Qpower_le_compat_l; [exact H | discriminate]. Qed.

Lemma pow2_lt a b : (a < b)%Z -> 2 ^ a < 2 ^ b.
Proof. intros H. apply Qpower_lt_compat_l; [exact H | reflexivity]. Qed.

Lemma ilog2_spec x :
  0 < x -> 2 ^ Double.ilog2 x <= x /\ x < 2 ^ (Double.ilog2 x + 1).
Proof.
  intros Hx. unfold Double.ilog2; cbv zeta.
  destruct x as [n d]. cbn [Qnum Qden].
  assert (Hn : (0 < n)%Z).
  { unfold Qlt in Hx. cbn in Hx. lia. }
  set (ln := Z.log2 n). set (ld := Z.log2 (Zpos d)).
  destruct (Z.log2_spec n Hn) as (Hn1 & Hn2).
  destruct (Z.log2_spec (Zpos d) (Pos2Z.is_pos d)) as (Hd1 & Hd2).
  fold ln in Hn1, Hn2. fold ld in Hd1, Hd2.
  assert (Hln : (0 <= ln)%Z) by apply Z.log2_nonneg.
  assert (Hld : (0 <= ld)%Z) by apply Z.log2_nonneg.
  rewrite Zle_Qle in Hn1, Hd1. rewrite Zlt_Qlt in Hn2, Hd2.
  replace (Z.succ ln) with (ln + 1)%Z in Hn2 by lia.
  replace (Z.succ ld) with (ld + 1)%Z in Hd2 by lia.
  rewrite pow2_inject in Hn1, Hd1, Hn2, Hd2 by lia.
  rewrite pow2_succ in Hn2, Hd2.
  assert (Hsplit : 2 ^ ln == 2 ^ (ln - ld) * 2 ^ ld).
  { rewrite <- pow2_add. replace (ln - ld + ld)%Z with ln by lia. reflexivity. }
  pose proof (pow2_pos ln) as Ppn. pose proof (pow2_pos ld) as Ppd.
  pose proof (pow2_pos (ln - ld)) as Ppl.
  assert (Hxd : (n # d) * inject_Z (Zpos d) == inject_Z n).
  { rewrite (Qmake_Qdiv n d). field. intros H. discriminate H. }
  assert (Hdpos : 0 < inject_Z (Zpos d)) by reflexivity.
  set (x := n # d) in *. set (D := inject_Z (Zpos d)) in *.
  set (N := inject_Z n) in *.
  set (A := 2 ^ ln) in *. set (B := 2 ^ ld) in *. set (P := 2 ^ (ln - ld)) in *.
  destruct (Qle_bool P x) eqn:Htest.
  - apply Qle_bool_iff in Htest. split; [exact Htest | ].
    rewrite pow2_succ. fold P.
    apply (Qmult_lt_r _ _ (D * B)); [nra | ].
    nra.
  - assert (Hlt : x < P).
    { apply Qnot_le_lt. intros H. apply Qle_bool_iff in H. congruence. }
    replace (ln - ld - 1 + 1)%Z with (ln - ld)%Z by lia. split; [ | exact Hlt].
    pose proof (pow2_pred (ln - ld)) as Hpred. fold P in Hpred.
    pose proof (pow2_pos (ln - ld - 1)) as Pq.
    set (P' := 2 ^ (ln - ld - 1)) in *.
    apply (Qmult_le_r _ _ (D * B)); [nra | ].
    nra.
Qed.


Lemma round_half_even_near y :
  inject_Z (Double.round_half_even y) - y <= 1 # 2
  /\ y - inject_Z (Double.round_half_even y) <= 1 # 2.
Proof.
  unfold Double.round_half_even; cbv zeta.
  pose proof (Qfloor_le y) as Hlow. pose proof (Qlt_floor y) as Hhigh.
  rewrite inject_Z_plus in Hhigh. change (inject_Z 1) with 1 in Hhigh.
  destruct (Qcompare_spec (y - inject_Z (Qfloor y)) (1 # 2)) as [H | H | H].
  - destruct (Z.even (Qfloor y));
      rewrite ?inject_Z_plus; change (inject_Z 1) with 1; lra.
  - lra.
  - rewrite inject_Z_plus. change (inject_Z 1) with 1. lra.
Qed.

Lemma round_half_even_ge k y :
  inject_Z k <= y -> (k <= Double.round_half_even y)%Z.
Proof.
  intros H. apply Qfloor_resp_le in H. rewrite Qfloor_Z in H.
  unfold Double.round_half_even; cbv zeta.
  destruct (Qcompare (y - inject_Z (Qfloor y)) (1 # 2));
    [destruct (Z.even (Qfloor y)) | | ]; lia.
Qed.

Lemma round_half_even_le k y :
  y <= inject_Z k -> (Double.round_half_even y <= k)%Z.
Proof.
  intros H. pose proof (Qfloor_le y) as Hlow.
  assert (Hfk : (Qfloor y <= k)%Z).
  { rewrite Zle_Qle. lra. }
  unfold Double.round_half_even; cbv zeta.
  destruct (Z.eq_dec (Qfloor y) k) as [Heq | Hne].
  - destruct (Qcompare_spec (y - inject_Z (Qfloor y)) (1 # 2)) as [Hy | Hy | Hy];
      [rewrite Heq in Hy; lra | lia | rewrite Heq in Hy; lra].
  - destruct (Qcompare (y - inject_Z (Qfloor y)) (1 # 2));
      [destruct (Z.even (Qfloor y)) | | ]; lia.
Qed.

(** The exponent of the last place and the mantissa of the double nearest
    to a positive [x]. *)
Lemma nearest_positive_parts x :
  Double.nearest_positive x
  == inject_Z (Double.round_half_even
                 (x / 2 ^ Z.max (-1074) (Double.ilog2 x - 52)))
     * 2 ^ Z.max (-1074) (Double.ilog2 x - 52).
Proof. unfold Double.nearest_positive; cbv zeta. apply Qred_correct. Qed.

Lemma ilog2_lower x k : 0 < x -> 2 ^ k <= x -> (k <= Double.ilog2 x)%Z.
Proof.
  intros Hx Hk. destruct (ilog2_spec x Hx) as (_ & Hup).
  assert (H : 2 ^ k < 2 ^ (Double.ilog2 x + 1)) by lra.
  apply Qpower_lt_compat_l_inv in H; [lia | reflexivity].
Qed.

Lemma ilog2_upper x k : 0 < x -> x < 2 ^ k -> (Double.ilog2 x < k)%Z.
Proof.
  intros Hx Hk. destruct (ilog2_spec x Hx) as (Hlow & _).
  assert (H : 2 ^ Double.ilog2 x < 2 ^ k) by lra.
  apply Qpower_lt_compat_l_inv in H; [lia | reflexivity].
Qed.

(** Rounding to the nearest double changes a value in the normal range by
    at most one part in 2^53. *)
Lemma nearest_positive_error x :
  2 ^ (-1022) <= x ->
  Double.nearest_positive x - x <= x * (1 # 2 ^ 53)
  /\ x - Double.nearest_positive x <= x * (1 # 2 ^ 53).
Proof.
  intros Hx.
  assert (Hpos : 0 < x).
  { pose proof (pow2_pos (-1022)). lra. }
  pose proof (ilog2_lower x (-1022) Hpos Hx) as Hl.
  destruct (ilog2_spec x Hpos) as (Hlow & _).
  rewrite nearest_positive_parts.
  replace (Z.max (-1074) (Double.ilog2 x - 52)) with (Double.ilog2 x - 52)%Z
    by lia.
  set (e := (Double.ilog2 x - 52)%Z).
  destruct (round_half_even_near (x / 2 ^ e)) as (Hup & Hdown).
  set (m := inject_Z (Double.round_half_even (x / 2 ^ e))) in *.
  pose proof (pow2_pos e) as He.
  assert (Hsplit : 2 ^ Double.ilog2 x == 2 ^ e * 2 ^ 52).
  { rewrite <- pow2_add. unfold e.
    replace (Double.ilog2 x - 52 + 52)%Z with (Double.ilog2 x) by lia.
    reflexivity. }
  assert (H52 : 2 ^ 52 == 4503599627370496) by reflexivity.
  rewrite H52 in Hsplit. rewrite Hsplit in Hlow.
  assert (Hy : x / 2 ^ e * 2 ^ e == x) by (field; lra).
  set (y := x / 2 ^ e) in *. set (u := 2 ^ e) in *.
  change (1 # 2 ^ 53) with (1 # 9007199254740992).
  split; nra.
Qed.

(** Below the normal range the result stays below it. *)
Lemma nearest_positive_small x :
  0 < x -> x < 2 ^ (-1022) ->
  0 <= Double.nearest_positive x <= 2 ^ (-1022).
Proof.
  intros Hpos Hx.
  pose proof (ilog2_upper x (-1022) Hpos Hx) as Hl.
  rewrite nearest_positive_parts.
  replace (Z.max (-1074) (Double.ilog2 x - 52)) with (-1074)%Z by lia.
  pose proof (pow2_pos (-1074)) as He.
  assert (Hsplit : 2 ^ (-1022) == 2 ^ (-1074) * 2 ^ 52).
  { rewrite <- pow2_add. reflexivity. }
  assert (H52 : 2 ^ 52 == 4503599627370496) by reflexivity.
  rewrite H52 in Hsplit.
  assert (Hy : x / 2 ^ (-1074) * 2 ^ (-1074) == x) by (field; lra).
  assert (Hm0 : (0 <= Double.round_half_even (x / 2 ^ (-1074)))%Z).
  { apply round_half_even_ge. change (inject_Z 0) with 0.
    set (y := x / 2 ^ (-1074)) in *. set (u := 2 ^ (-1074)) in *. nra. }
  assert (Hm1 : (Double.round_half_even (x / 2 ^ (-1074))
                 <= 4503599627370496)%Z).
  { apply round_half_even_le.
    change (inject_Z 4503599627370496) with 4503599627370496.
    set (y := x / 2 ^ (-1074)) in *. set (u := 2 ^ (-1074)) in *.
    set (v := 2 ^ (-1022)) in *. nra. }
  rewrite Zle_Qle in Hm0, Hm1.
  change (inject_Z 0) with 0 in Hm0.
  change (inject_Z 4503599627370496) with 4503599627370496 in Hm1.
  set (m := inject_Z (Double.round_half_even (x / 2 ^ (-1074)))) in *.
  set (u := 2 ^ (-1074)) in *. set (v := 2 ^ (-1022)) in *.
  split; nra.
Qed.


Lemma nearest_of_positive x : 0 < x -> Double.nearest x = Double.nearest_positive x.
Proof.
  intros H. unfold Double.nearest.
  destruct (Qcompare_spec x 0) as [H0 | H0 | H0]; [lra | lra | reflexivity].
Qed.

Lemma nearest_of_zero x : x == 0 -> Double.nearest x = 0.
Proof.
  intros H. unfold Double.nearest.
  destruct (Qcompare_spec x 0) as [H0 | H0 | H0]; [reflexivity | lra | lra].
Qed.

Lemma truncate_floor x : 0 <= x -> Double.truncate x = Qfloor x.
Proof.
  intros H. destruct x as [n d]. unfold Double.truncate, Qfloor.
  cbn [Qnum Qden]. apply Z.quot_div_nonneg; [ | reflexivity].
  unfold Qle in H. cbn in H. lia.
Qed.

Lemma Qfloor_unique z q :
  inject_Z q <= z -> z < inject_Z (q + 1) -> Qfloor z = q.
Proof.
  intros Hlow Hup.
  apply Qfloor_resp_le in Hlow. rewrite Qfloor_Z in Hlow.
  pose proof (Qfloor_le z) as Hz.
  assert (H : (Qfloor z < q + 1)%Z) by (rewrite Zlt_Qlt; lra).
  lia.
Qed.

(** Python's [int(a / b)] on integers: below 2^53 the double quotient
    truncates to the integer quotient. *)
Lemma true_divide_truncates a b :
  (0 <= a < 2 ^ 53)%Z -> (0 < b)%Z ->
  Double.truncate (Double.nearest (inject_Z a / inject_Z b)) = (a / b)%Z.
Proof.
  intros Ha Hb.
  assert (HbQ : 0 < inject_Z b).
  { change 0 with (inject_Z 0). rewrite <- Zlt_Qlt. exact Hb. }
  assert (HaQ : inject_Z a < 9007199254740992).
  { change 9007199254740992 with (inject_Z (2 ^ 53)).
    rewrite <- Zlt_Qlt. lia. }
  destruct (Z.eq_dec a 0) as [Hz | Hnz].
  { subst a. rewrite nearest_of_zero by (field; lra). reflexivity. }
  assert (Ha0 : 1 <= inject_Z a).
  { change 1 with (inject_Z 1). rewrite <- Zle_Qle. lia. }
  set (x := inject_Z a / inject_Z b).
  assert (Hxb : x * inject_Z b == inject_Z a) by (unfold x; field; lra).
  assert (Hx : 0 < x) by nra.
  rewrite (Zdiv_Qdiv a b). fold x.
  assert (Hq0 : (0 <= Qfloor x)%Z).
  { change 0%Z with (Qfloor 0). apply Qfloor_resp_le. lra. }
  pose proof (Qfloor_le x) as Hqlow. pose proof (Qlt_floor x) as Hqup.
  rewrite inject_Z_plus in Hqup. change (inject_Z 1) with 1 in Hqup.
  (* the next integer is at least 1/b away *)
  assert (Hgap : 1 <= (inject_Z (Qfloor x) + 1 - x) * inject_Z b).
  { assert (Hint : (a < (Qfloor x + 1) * b)%Z).
    { rewrite Zlt_Qlt, inject_Z_mult, inject_Z_plus.
      change (inject_Z 1) with 1. nra. }
    assert (Hint' : (a + 1 <= (Qfloor x + 1) * b)%Z) by lia.
    rewrite Zle_Qle, inject_Z_mult, !inject_Z_plus in Hint'.
    change (inject_Z 1) with 1 in Hint'. nra. }
  rewrite nearest_of_positive by exact Hx.
  destruct (ilog2_spec x Hx) as (Hllow & Hlup).
  assert (Hx53 : x < 2 ^ 53).
  { change (2 ^ 53) with 9007199254740992.
    assert (1 <= inject_Z b).
    { change 1 with (inject_Z 1). rewrite <- Zle_Qle. lia. }
    nra. }
  pose proof (ilog2_upper x 53 Hx Hx53) as Hl53.
  set (e := Z.max (-1074) (Double.ilog2 x - 52)).
  assert (He : (e <= 0)%Z) by (unfold e; lia).
  assert (Hnp : Double.nearest_positive x
                == inject_Z (Double.round_half_even (x / 2 ^ e)) * 2 ^ e)
    by apply nearest_positive_parts.
  pose proof (pow2_pos e) as Hu.
  assert (Hs : 2 ^ e * inject_Z (2 ^ (- e)) == 1).
  { rewrite pow2_inject by lia. rewrite <- pow2_add.
    replace (e + - e)%Z with 0%Z by lia. reflexivity. }
  assert (Hspos : 1 <= inject_Z (2 ^ (- e))).
  { change 1 with (inject_Z 1). rewrite <- Zle_Qle.
    assert (0 < 2 ^ (- e))%Z by (apply Z.pow_pos_nonneg; lia). lia. }
  assert (Hy : x / 2 ^ e == x * inject_Z (2 ^ (- e))).
  { field_simplify_eq; [ | lra]. rewrite <- (Qmult_1_r x) at 1.
    rewrite <- Hs. ring. }
  destruct (round_half_even_near (x / 2 ^ e)) as (Hnear & _).
  assert (Hmlow : (Qfloor x * 2 ^ (- e)
                   <= Double.round_half_even (x / 2 ^ e))%Z).
  { apply round_half_even_ge. rewrite inject_Z_mult, Hy.
    set (S := inject_Z (2 ^ (- e))) in *. nra. }
  rewrite Zle_Qle, inject_Z_mult in Hmlow.
  set (m := inject_Z (Double.round_half_even (x / 2 ^ e))) in *.
  set (S := inject_Z (2 ^ (- e))) in *. set (u := 2 ^ e) in *.
  set (q := inject_Z (Qfloor x)) in *.
  assert (Hq0' : 0 <= q).
  { unfold q. change 0 with (inject_Z 0). rewrite <- Zle_Qle. exact Hq0. }
  assert (Hm0 : 0 <= m) by nra.
  assert (Hnonneg : 0 <= Double.nearest_positive x).
  { rewrite Hnp. nra. }
  rewrite truncate_floor by exact Hnonneg.
  apply Qfloor_unique.
  - rewrite Hnp. fold q. nra.
  - rewrite Hnp, inject_Z_plus. change (inject_Z 1) with 1. fold q.
    destruct (Z_le_gt_dec (-1074) (Double.ilog2 x - 52)) as [Hnormal | Hsub].
    + (* normal range: half a unit in the last place is below 1/b *)
      assert (Hsplit : 2 ^ Double.ilog2 x == u * 4503599627370496).
      { change 4503599627370496 with (2 ^ 52). unfold u, e.
        rewrite <- pow2_add.
        replace (Z.max (-1074) (Double.ilog2 x - 52) + 52)%Z
          with (Double.ilog2 x) by lia.
        reflexivity. }
      rewrite Hsplit in Hllow.
      apply Qnot_le_lt. intros Hcontra.
      assert (Hm : (q + 1) * S <= m) by nra.
      rewrite Hy in Hnear.
      assert (Hhalf : (q + 1 - x) * S <= 1 # 2) by nra.
      assert (Hhalf' : (q + 1 - x) <= u * (1 # 2)) by nra.
      set (B := inject_Z b) in *. set (A := inject_Z a) in *.
      nra.
    + (* below the normal range the result is below 1 *)
      assert (Hem : e = (-1074)%Z) by (unfold e; lia).
      assert (Hxs : x < 2 ^ (-1022)).
      { apply Qlt_le_trans with (1 := Hlup). apply pow2_le. lia. }
      destruct (nearest_positive_small x Hx Hxs) as (_ & Hsmall).
      rewrite Hnp in Hsmall.
      assert (Hone : 2 ^ (-1022) < 1).
      { change 1 with (2 ^ 0). apply pow2_lt. lia. }
      nra.
Qed.


(** The two regimes of rounding a value that is not negative. *)
Lemma nearest_bounds x :
  0 <= x ->
  (2 ^ (-1022) <= x
   /\ x * (1 - (1 # 2 ^ 53)) <= Double.nearest x <= x * (1 + (1 # 2 ^ 53)))
  \/ (x < 2 ^ (-1022) /\ 0 <= Double.nearest x <= 2 ^ (-1022)).
Proof.
  intros Hx. pose proof (pow2_pos (-1022)) as Htiny.
  destruct (Qlt_le_dec x (2 ^ (-1022))) as [Hsmall | Hnormal].
  - right. split; [exact Hsmall | ].
    destruct (Qeq_dec x 0) as [Hz | Hnz].
    + rewrite (nearest_of_zero x Hz). lra.
    + assert (Hpos : 0 < x) by (destruct (Qle_lt_or_eq _ _ Hx) as [H | H];
                                 [exact H | symmetry in H; contradiction]).
      rewrite nearest_of_positive by exact Hpos.
      apply nearest_positive_small; assumption.
  - left. split; [exact Hnormal | ].
    rewrite nearest_of_positive by lra.
    destruct (nearest_positive_error x Hnormal) as (Hup & Hdown).
    split; lra.
Qed.

(** Integers below 2^53 are doubles. *)
Lemma nearest_integer a :
  (0 <= a < 2 ^ 53)%Z -> Double.nearest (inject_Z a) == inject_Z a.
Proof.
  intros Ha.
  destruct (Z.eq_dec a 0) as [Hz | Hnz].
  { subst a. reflexivity. }
  assert (Hx : 0 < inject_Z a).
  { change 0 with (inject_Z 0). rewrite <- Zlt_Qlt. lia. }
  assert (Hx53 : inject_Z a < 2 ^ 53).
  { change (2 ^ 53) with (inject_Z (2 ^ 53)). rewrite <- Zlt_Qlt. lia. }
  rewrite nearest_of_positive by exact Hx.
  pose proof (ilog2_upper _ 53 Hx Hx53) as Hl53.
  rewrite nearest_positive_parts.
  set (e := Z.max (-1074) (Double.ilog2 (inject_Z a) - 52)).
  assert (He : (e <= 0)%Z) by (unfold e; lia).
  pose proof (pow2_pos e) as Hu.
  assert (Hs : 2 ^ e * inject_Z (2 ^ (- e)) == 1).
  { rewrite pow2_inject by lia. rewrite <- pow2_add.
    replace (e + - e)%Z with 0%Z by lia. reflexivity. }
  assert (Hy : inject_Z a / 2 ^ e == inject_Z (a * 2 ^ (- e))).
  { rewrite inject_Z_mult. field_simplify_eq; [ | lra].
    rewrite <- (Qmult_1_r (inject_Z a)) at 1. rewrite <- Hs. ring. }
  assert (Hm : Double.round_half_even (inject_Z a / 2 ^ e)
               = (a * 2 ^ (- e))%Z).
  { apply Z.le_antisymm.
    - apply round_half_even_le. rewrite Hy. lra.
    - apply round_half_even_ge. rewrite Hy. lra. }
  rewrite Hm, inject_Z_mult.
  set (S := inject_Z (2 ^ (- e))) in *. set (u := 2 ^ e) in *.
  set (A := inject_Z a) in *.
  transitivity (A * (u * S)); [ring | rewrite Hs; ring].
Qed.

(** Python's [int(a * (x / 360))] for an integer [a] below 2^53 and a
    double [x] that is not negative: the exact product, less at most one
    and a relative error of 2^-52. *)
Lemma scaled_fraction_bounds a x :
  (0 <= a < 2 ^ 53)%Z -> 0 <= x ->
  inject_Z a * x / 360 * (1 - (1 # 2 ^ 52)) - 1
  < inject_Z (Double.truncate
                (Double.nearest
                   (Double.nearest (inject_Z a) * Double.nearest (x / 360))))
  /\ inject_Z (Double.truncate
                 (Double.nearest
                    (Double.nearest (inject_Z a) * Double.nearest (x / 360))))
     <= inject_Z a * x / 360 * (1 + (1 # 2 ^ 51)).
Proof.
  intros Ha Hx.
  pose proof (nearest_integer a Ha) as HA.
  assert (Ha0 : 0 <= inject_Z a).
  { change 0 with (inject_Z 0). rewrite <- Zle_Qle. lia. }
  assert (Ha53 : inject_Z a < 9007199254740992).
  { change 9007199254740992 with (inject_Z (2 ^ 53)).
    rewrite <- Zlt_Qlt. lia. }
  assert (Hx1 : 0 <= x / 360).
  { apply Qle_shift_div_l; [reflexivity | lra]. }
  assert (HE : inject_Z a * x / 360 == inject_Z a * (x / 360)) by (field).
  rewrite HE.
  set (x1 := x / 360) in *.
  set (t := Double.nearest x1).
  set (X := Double.nearest (inject_Z a) * t).
  assert (HX : X == inject_Z a * t) by (unfold X; rewrite HA; reflexivity).
  pose proof (pow2_pos (-1022)) as Htiny.
  assert (Htiny' : 2 ^ (-1022) * 36028797018963968 < 1).
  { change 36028797018963968 with (2 ^ 55). rewrite <- pow2_add.
    change 1 with (2 ^ 0). apply pow2_lt. lia. }
  set (tiny := 2 ^ (-1022)) in *.
  set (A := inject_Z a) in *.
  change (1 # 2 ^ 52) with (1 # 4503599627370496).
  change (1 # 2 ^ 51) with (1 # 2251799813685248).
  assert (Ht : (tiny <= x1
                /\ x1 * (1 - (1 # 2 ^ 53)) <= t <= x1 * (1 + (1 # 2 ^ 53)))
               \/ (x1 < tiny /\ 0 <= t <= tiny))
    by (apply nearest_bounds; exact Hx1).
  change (1 # 2 ^ 53) with (1 # 9007199254740992) in Ht.
  assert (Ht0 : 0 <= t) by (destruct Ht as [(? & ? & ?) | (? & ? & ?)]; nra).
  assert (HX0 : 0 <= X) by (rewrite HX; nra).
  assert (Hp : (tiny <= X
                /\ X * (1 - (1 # 2 ^ 53)) <= Double.nearest X
                   <= X * (1 + (1 # 2 ^ 53)))
               \/ (X < tiny /\ 0 <= Double.nearest X <= tiny))
    by (apply nearest_bounds; exact HX0).
  change (1 # 2 ^ 53) with (1 # 9007199254740992) in Hp.
  set (p := Double.nearest X) in *.
  assert (Hp0 : 0 <= p) by (destruct Hp as [(? & ? & ?) | (? & ? & ?)]; nra).
  rewrite truncate_floor by exact Hp0.
  pose proof (Qfloor_le p) as Hfl. pose proof (Qlt_floor p) as Hfu.
  rewrite inject_Z_plus in Hfu. change (inject_Z 1) with 1 in Hfu.
  assert (Hf0 : 0 <= inject_Z (Qfloor p)).
  { change 0 with (inject_Z 0). rewrite <- Zle_Qle.
    change 0%Z with (Qfloor 0). apply Qfloor_resp_le. exact Hp0. }
  assert (Hint : p < 1 -> inject_Z (Qfloor p) <= 0).
  { intros Hp1. change 0 with (inject_Z 0). rewrite <- Zle_Qle.
    assert (H : (Qfloor p < 1)%Z) by (rewrite Zlt_Qlt; change (inject_Z 1) with 1; lra).
    lia. }
  set (U := inject_Z (Qfloor p)) in *.
  rewrite HX in Hp.
  set (Y := A * t) in *. set (E := A * x1).
  assert (HE0 : 0 <= E) by (unfold E; nra).
  destruct Ht as [(Hn1 & Htl & Htu) | (Hs1 & _ & Htu)];
    destruct Hp as [(Hn2 & Hpl & Hpu) | (Hs2 & _ & Hpu)].
  - assert (HYl : E * (1 - (1 # 9007199254740992)) <= Y)
      by (unfold E, Y; nra).
    assert (HYu : Y <= E * (1 + (1 # 9007199254740992)))
      by (unfold E, Y; nra).
    split; lra.
  - (* the product falls below the normal range: everything is below 1 *)
    assert (HYl : E * (1 - (1 # 9007199254740992)) <= Y)
      by (unfold E, Y; nra).
    assert (HE1 : E < 1) by lra.
    assert (HU : U <= 0) by (apply Hint; lra).
    split; lra.
  - assert (HE1 : E < 1) by (unfold E; nra).
    assert (HY1 : Y * 4 < 1) by (unfold Y; nra).
    assert (HU : U <= 0) by (apply Hint; lra).
    split; lra.
  - assert (HE1 : E < 1) by (unfold E; nra).
    assert (HU : U <= 0) by (apply Hint; lra).
    split; lra.
Qed.

End DoubleFacts.

(** ** What a module that has been built was built with *)

Lemma bind_built {A B : Type} (c : Stepgen.construction A)
  (f : A -> Stepgen.construction B) (b : B) :
  Stepgen.bind c f = Stepgen.Built b ->
  exists a, c = Stepgen.Built a /\ f a = Stepgen.Built b.
Proof.
  destruct c as [a | | | | | ]; cbn [Stepgen.bind]; intros H;
    try discriminate H.
  exists a. split; [reflexivity | exact H].
Qed.

Lemma lshift_built a n z :
  Toolerator.lshift a n = Stepgen.Built z -> 0 <= n /\ z = a * 2 ^ n.
Proof.
  unfold Toolerator.lshift.
  destruct (Z.ltb_spec n 0) as [Hneg | Hpos]; intros H; [discriminate H | ].
  injection H as <-. split; [exact Hpos | apply Z.shiftl_mul_pow2, Hpos].
Qed.

Lemma int_of_quotient_built a b z :
  Toolerator.int_of_quotient a b = Stepgen.Built z ->
  b <> 0
  /\ z = Double.truncate (Double.nearest (inject_Z a / inject_Z b)).
Proof.
  unfold Toolerator.int_of_quotient; cbv zeta.
  destruct (Z.eqb_spec b 0) as [Hz | Hnz]; intros H; [discriminate H | ].
  destruct (Double.overflows _); [discriminate H | ].
  injection H as <-. split; [exact Hnz | reflexivity].
Qed.

Lemma int_of_fraction_built a x z :
  Toolerator.int_of_fraction a x = Stepgen.Built z ->
  z = Double.truncate
        (Double.nearest
           (Double.nearest (inject_Z a) * Double.nearest (x / 360))).
Proof.
  unfold Toolerator.int_of_fraction; cbv zeta.
  destruct (Double.overflows (Double.nearest (inject_Z a)));
    intros H; [discriminate H | ].
  destruct (Double.overflows _); [discriminate H | ].
  injection H as <-. reflexivity.
Qed.

(** No configuration with homing is built; the module that is built has
    the pick-offs of its generator, a position pick-off that is not
    negative, and the two constants of its main block. *)
Lemma init_built cfg pick_off pk :
  Toolerator.init cfg pick_off = Stepgen.Built pk ->
  Toolerator.homing cfg = None
  /\ Stepgen.init pick_off = Stepgen.Built pk
  /\ 0 <= Stepgen.pick_off_pos pk
  /\ Toolerator.tool_count cfg <> 0
  /\ Toolerator.tool_pitch pk cfg
     = Double.truncate
         (Double.nearest
            (inject_Z (Toolerator.ppr cfg * 2 ^ Stepgen.pick_off_pos pk)
             / inject_Z (Toolerator.tool_count cfg)))
  /\ Toolerator.over_travel_units pk cfg
     = Double.truncate
         (Double.nearest
            (Double.nearest
               (inject_Z (Toolerator.ppr cfg * 2 ^ Stepgen.pick_off_pos pk))
             * Double.nearest (Toolerator.over_travel cfg / 360))).
Proof.
  intros H. unfold Toolerator.init in H.
  apply bind_built in H. destruct H as (pk' & Hgen & H).
  apply bind_built in H. destruct H as (units & Hunits & H).
  apply bind_built in H. destruct H as (pitch & Hpitch & H).
  destruct (Toolerator.homing cfg) as [h | ] eqn:Hhoming.
  { apply bind_built in H. destruct H as (back & _ & H).
    apply bind_built in H. destruct H as (latch & Hlatch & _).
    discriminate Hlatch. }
  injection H as ->.
  unfold Toolerator.tool_pitch, Toolerator.over_travel_units.
  rewrite Hpitch, Hunits. cbn [Stepgen.value].
  unfold Toolerator.tool_pitch_expr in Hpitch.
  unfold Toolerator.over_travel_expr in Hunits.
  apply bind_built in Hpitch. destruct Hpitch as (a & Ha & Hpitch).
  apply bind_built in Hunits. destruct Hunits as (a' & Ha' & Hunits).
  apply lshift_built in Ha. destruct Ha as (Hpos & ->).
  apply lshift_built in Ha'. destruct Ha' as (_ & ->).
  apply int_of_quotient_built in Hpitch. destruct Hpitch as (Htools & ->).
  apply int_of_fraction_built in Hunits. subst units.
  auto 7.
Qed.

(** ** The sequencer, one tick *)

Section SequencerSteps.

Variable pk : Stepgen.pick_offs.
Variable cfg : Toolerator.config.

Lemma sequencer_writes_idle i o :
  Toolerator.state o = Toolerator.READY
  \/ Toolerator.state o = Toolerator.START
  \/ Toolerator.state o = Toolerator.MOVING_FORWARD
  \/ Toolerator.state o = Toolerator.MOVING_BACKWARD
  \/ Toolerator.state o = Toolerator.ERROR ->
  Toolerator.sequencer_writes pk cfg i o = Toolerator.fsm pk cfg i o o.
Proof. intros _. reflexivity. Qed.

(** What a tick does in READY when another tool is commanded. *)
Lemma ready_starts_move i o :
  Toolerator.state o = Toolerator.READY ->
  Toolerator.current_tool o <> Toolerator.commanded_tool i ->
  Toolerator.homed o = true ->
  Toolerator.state (Toolerator.tick pk cfg i o) = Toolerator.MOVING_FORWARD
  /\ Toolerator.moving_to_tool (Toolerator.tick pk cfg i o)
     = Toolerator.commanded_tool i
  /\ (Toolerator.current_tool o < Toolerator.commanded_tool i ->
      Stepgen.position_target
        (Toolerator.step_generator (Toolerator.tick pk cfg i o))
      = Stepgen.assign_position pk
          (Stepgen.position_target (Toolerator.step_generator o)
           + Toolerator.tool_pitch pk cfg
             * (Toolerator.commanded_tool i - Toolerator.current_tool o)
           + Toolerator.over_travel_units pk cfg))
  /\ (Toolerator.commanded_tool i < Toolerator.current_tool o ->
      Stepgen.position_target
        (Toolerator.step_generator (Toolerator.tick pk cfg i o))
      = Stepgen.assign_position pk
          (Stepgen.position_target (Toolerator.step_generator o)
           + Toolerator.tool_pitch pk cfg
             * (Toolerator.tool_count cfg + Toolerator.commanded_tool i
                - Toolerator.current_tool o)
           + Toolerator.over_travel_units pk cfg)).
Proof.
  intros Hstate Hne Hhomed.
  unfold Toolerator.tick.
  rewrite sequencer_writes_idle by auto.
  unfold Toolerator.fsm. rewrite Hstate, Hhomed.
  destruct (Z.eqb_spec (Toolerator.current_tool o) (Toolerator.commanded_tool i))
    as [Heq | _]; [contradiction | ].
  unfold If; cbn [negb andb].
  split; [reflexivity | split; [reflexivity | split]].
  - intros Hlt.
    destruct (Z.ltb_spec (Toolerator.current_tool o) (Toolerator.commanded_tool i));
      [ | lia].
    cbn [Toolerator.step_generator Toolerator.on_generator
           Toolerator.set_state Toolerator.set_moving_to_tool].
    rewrite sync_position_target. reflexivity.
  - intros Hgt.
    destruct (Z.ltb_spec (Toolerator.current_tool o) (Toolerator.commanded_tool i));
      [lia | ].
    cbn [Toolerator.step_generator Toolerator.on_generator
           Toolerator.set_state Toolerator.set_moving_to_tool].
    rewrite sync_position_target. reflexivity.
Qed.

End SequencerSteps.

(** C1, as the code has it: in READY, a commanded tool that differs from
    the current one (with [homed] set) adds to the generator's position
    target the tool pitch times the forward count of tools, wrapping
    around the turret when the commanded tool has the lower number, plus
    the over-travel; [moving_to_tool] becomes the commanded tool and the
    next state is MOVING_FORWARD.  The two constants are computed in double
    precision when the module is built.  With [ppr << pick_off_pos] below
    2^53 the tool pitch is [ppr * 2^pick_off_pos / tool_count] cut to an
    integer, which is [(ppr / tool_count) * 2^pick_off_pos] when the tool
    count divides [ppr]; the over-travel is
    [ppr * 2^pick_off_pos * over_travel / 360] up to a relative error of
    2^-52 and the cut to an integer, so it can be one position unit
    short. *)
Theorem ready_commands_forward_move pk cfg pick_off i o :
  Toolerator.init cfg pick_off = Stepgen.Built pk ->
  Toolerator.state o = Toolerator.READY ->
  Toolerator.current_tool o <> Toolerator.commanded_tool i ->
  Toolerator.homed o = true ->
  Toolerator.state (Toolerator.tick pk cfg i o) = Toolerator.MOVING_FORWARD
  /\ Toolerator.moving_to_tool (Toolerator.tick pk cfg i o)
     = Toolerator.commanded_tool i
  /\ (Toolerator.current_tool o < Toolerator.commanded_tool i ->
      Stepgen.position_target
        (Toolerator.step_generator (Toolerator.tick pk cfg i o))
      = Stepgen.assign_position pk
          (Stepgen.position_target (Toolerator.step_generator o)
           + Toolerator.tool_pitch pk cfg
             * (Toolerator.commanded_tool i - Toolerator.current_tool o)
           + Toolerator.over_travel_units pk cfg))
  /\ (Toolerator.commanded_tool i < Toolerator.current_tool o ->
      Stepgen.position_target
        (Toolerator.step_generator (Toolerator.tick pk cfg i o))
      = Stepgen.assign_position pk
          (Stepgen.position_target (Toolerator.step_generator o)
           + Toolerator.tool_pitch pk cfg
             * (Toolerator.tool_count cfg + Toolerator.commanded_tool i
                - Toolerator.current_tool o)
           + Toolerator.over_travel_units pk cfg))
  /\ (0 < Toolerator.tool_count cfg ->
      0 <= Toolerator.ppr cfg ->
      Toolerator.ppr cfg * 2 ^ Stepgen.pick_off_pos pk < 2 ^ 53 ->
      Toolerator.tool_pitch pk cfg
      = Toolerator.ppr cfg * 2 ^ Stepgen.pick_off_pos pk
        / Toolerator.tool_count cfg
      /\ (forall q, Toolerator.ppr cfg = q * Toolerator.tool_count cfg ->
            Toolerator.tool_pitch pk cfg = q * 2 ^ Stepgen.pick_off_pos pk))
  /\ (0 <= Toolerator.ppr cfg ->
      Toolerator.ppr cfg * 2 ^ Stepgen.pick_off_pos pk < 2 ^ 53 ->
      (0 <= Toolerator.over_travel cfg)%Q ->
      (inject_Z (Toolerator.ppr cfg * 2 ^ Stepgen.pick_off_pos pk)
       * Toolerator.over_travel cfg / 360 * (1 - (1 # 2 ^ 52)) - 1
       < inject_Z (Toolerator.over_travel_units pk cfg))%Q
      /\ (inject_Z (Toolerator.over_travel_units pk cfg)
          <= inject_Z (Toolerator.ppr cfg * 2 ^ Stepgen.pick_off_pos pk)
             * Toolerator.over_travel cfg / 360 * (1 + (1 # 2 ^ 51)))%Q).
Proof.
  intros Hbuilt Hstate Hne Hhomed.
  destruct (init_built cfg pick_off pk Hbuilt)
    as (_ & _ & Hpos & _ & Hpitch & Hunits).
  assert (Hpow : 0 < 2 ^ Stepgen.pick_off_pos pk)
    by (apply Z.pow_pos_nonneg; lia).
  destruct (ready_starts_move pk cfg i o Hstate Hne Hhomed)
    as (Hst & Hmv & Hup & Hwrap).
  split; [exact Hst | split; [exact Hmv | ]].
  split; [exact Hup | split; [exact Hwrap | ]].
  split.
  - intros Htools Hppr Hsmall.
    assert (Hrange : 0 <= Toolerator.ppr cfg * 2 ^ Stepgen.pick_off_pos pk
                     < 2 ^ 53) by nia.
    assert (Hfloor : Toolerator.tool_pitch pk cfg
                     = Toolerator.ppr cfg * 2 ^ Stepgen.pick_off_pos pk
                       / Toolerator.tool_count cfg).
    { rewrite Hpitch. apply true_divide_truncates; assumption. }
    split; [exact Hfloor | ].
    intros q Hq. rewrite Hfloor, Hq.
    replace (q * Toolerator.tool_count cfg * 2 ^ Stepgen.pick_off_pos pk)
      with (q * 2 ^ Stepgen.pick_off_pos pk * Toolerator.tool_count cfg)
      by ring.
    apply Z.div_mul. lia.
  - intros Hppr Hsmall Hangle.
    assert (Hrange : 0 <= Toolerator.ppr cfg * 2 ^ Stepgen.pick_off_pos pk
                     < 2 ^ 53) by nia.
    destruct (scaled_fraction_bounds
                (Toolerator.ppr cfg * 2 ^ Stepgen.pick_off_pos pk)
                (Toolerator.over_travel cfg) Hrange Hangle) as (Hlow & Hhigh).
    rewrite <- Hunits in Hlow, Hhigh.
    split; [exact Hlow | exact Hhigh].
Qed.

(** The spec's example: six tools, 1800 pulses per revolution, 20 degrees
    of over-travel, tool 5 to tool 2: 1800/6 * (6 + 2 - 5) = 900 steps
    forward plus 100 steps of over-travel. *)
Lemma ready_commands_forward_move_witness :
  Toolerator.state
    (Toolerator.tick bench_pick_offs turret_config (command 2)
       (turret_ready_at 5)) = Toolerator.MOVING_FORWARD
  /\ Toolerator.moving_to_tool
       (Toolerator.tick bench_pick_offs turret_config (command 2)
          (turret_ready_at 5)) = 2
  /\ Toolerator.tool_pitch bench_pick_offs turret_config = 300 * 2 ^ 32
  /\ Stepgen.position_target
       (Toolerator.step_generator
          (Toolerator.tick bench_pick_offs turret_config (command 2)
             (turret_ready_at 5)))
     = 900 * 2 ^ 32 + 100 * 2 ^ 32.
Proof.
  destruct (ready_commands_forward_move bench_pick_offs turret_config
              bench_pick_off (command 2) (turret_ready_at 5))
    as (Hst & Hmv & _ & Hwrap & Hpitch & _).
  - vm_compute. reflexivity.
  - reflexivity.
  - discriminate.
  - reflexivity.
  - destruct Hpitch as (_ & Hexact);
      [reflexivity | discriminate | reflexivity | ].
    split; [exact Hst | split; [exact Hmv | split]].
    + apply (Hexact 300). reflexivity.
    + etransitivity; [apply Hwrap; reflexivity | ].
      rewrite (Hexact 300) by reflexivity. vm_compute. reflexivity.
Defined.

(** The claim as written fails on the over-travel: with 360 pulses per
    revolution and 13 degrees the exact over-travel is 13 steps, and the
    move from tool 0 to tool 1 would add (60 + 13) * 2^32; the module adds
    one unit less. *)
Lemma ready_commands_forward_move_counterexample :
  Toolerator.init skewed_config bench_pick_off = Stepgen.Built bench_pick_offs
  /\ Toolerator.state (ready_at_first_tool skewed_config) = Toolerator.READY
  /\ Toolerator.homed (ready_at_first_tool skewed_config) = true
  /\ Stepgen.position_target
       (Toolerator.step_generator (ready_at_first_tool skewed_config)) = 0
  /\ Stepgen.position_target
       (Toolerator.step_generator
          (Toolerator.tick bench_pick_offs skewed_config (command 1)
             (ready_at_first_tool skewed_config)))
     = (360 / 6 * (1 - 0) + 13) * 2 ^ 32 - 1
  /\ Stepgen.position_target
       (Toolerator.step_generator
          (Toolerator.tick bench_pick_offs skewed_config (command 1)
             (ready_at_first_tool skewed_config)))
     <> (360 / 6 * (1 - 0) + 13) * 2 ^ 32.
Proof.
  split; [vm_compute; reflexivity | ].
  split; [reflexivity | split; [reflexivity | split; [reflexivity | ]]].
  split; [vm_compute; reflexivity | vm_compute; discriminate].
Qed.

(** ** The sequencer, whole runs *)

Section SequencerRuns.

Variable pk : Stepgen.pick_offs.
Variable cfg : Toolerator.config.




(** A home request in START starts the search: velocity mode, the
    position remembered, the generator sent off at [max_speed]. *)
Lemma home_request_starts_search i o :
  Toolerator.state o = Toolerator.START ->
  Toolerator.home i = true ->
  Toolerator.enable i = true ->
  Stepgen.position_mode (Toolerator.step_generator o) = false ->
  Toolerator.state (Toolerator.tick pk cfg i o) = Toolerator.HOME_SEARCHING
  /\ Toolerator.home_position (Toolerator.tick pk cfg i o)
     = Stepgen.position (Toolerator.step_generator o)
  /\ Stepgen.position_mode
       (Toolerator.step_generator (Toolerator.tick pk cfg i o)) = false
  /\ Stepgen.speed_target
       (Toolerator.step_generator (Toolerator.tick pk cfg i o))
     = Stepgen.max_speed (Toolerator.step_generator o).
Proof.
  intros Hst Hhome Hen Hmode.
  unfold Toolerator.tick. rewrite sequencer_writes_idle by auto.
  unfold Toolerator.fsm. rewrite Hst, Hhome.
  cbn [orb Bool.eqb]. unfold If.
  destruct (Bool.eqb (Toolerator.homed o) true);
    cbn [Toolerator.state Toolerator.home_position Toolerator.step_generator
           Toolerator.on_generator Toolerator.set_state
           Toolerator.set_home_position];
    rewrite sync_position_mode,
      sync_speed_target_velocity_mode by (auto; reflexivity);
    repeat split.
Qed.


End SequencerRuns.

(** ** Homing *)

(** C2, what the code does: no configuration with a home sensor gets as
    far as a sequencer.  The constructor raises for every such
    configuration, whatever the pick-off; when the generator, the
    over-travel, the tool pitch and the back-off distance are computed
    without an error, what it raises is the TypeError of the shift of the
    float [home_latch_vel]. *)
Theorem homing_configuration_cannot_be_built cfg h pick_off :
  Toolerator.homing cfg = Some h ->
  Stepgen.raises (Toolerator.init cfg pick_off) = true
  /\ (forall pk units pitch back,
        Stepgen.init pick_off = Stepgen.Built pk ->
        Toolerator.over_travel_expr pk cfg = Stepgen.Built units ->
        Toolerator.tool_pitch_expr pk cfg = Stepgen.Built pitch ->
        Toolerator.back_off_expr pk cfg h = Stepgen.Built back ->
        Toolerator.init cfg pick_off
        = Stepgen.TypeError
            "unsupported operand type(s) for <<: 'float' and 'int'").
Proof.
  intros Hhoming. split.
  - destruct (Toolerator.init cfg pick_off) as [pk | | | | | ] eqn:Hinit;
      try reflexivity.
    apply init_built in Hinit. destruct Hinit as (Hnone & _).
    rewrite Hhoming in Hnone. discriminate Hnone.
  - intros pk units pitch back Hgen Hunits Hpitch Hback.
    unfold Toolerator.init.
    rewrite Hgen. cbn [Stepgen.bind].
    rewrite Hunits. cbn [Stepgen.bind].
    rewrite Hpitch. cbn [Stepgen.bind].
    rewrite Hhoming, Hback. reflexivity.
Qed.

(** The test bench with a home sensor added. *)
Lemma homing_configuration_cannot_be_built_witness :
  Stepgen.raises (Toolerator.init bench_config bench_pick_off) = true
  /\ Toolerator.init bench_config bench_pick_off
     = Stepgen.TypeError
         "unsupported operand type(s) for <<: 'float' and 'int'".
Proof.
  destruct (homing_configuration_cannot_be_built bench_config bench_homing
              bench_pick_off eq_refl) as (Hraises & Herror).
  split; [exact Hraises | ].
  apply (Herror bench_pick_offs 4294967296 12884901888 4294967296);
    vm_compute; reflexivity.
Defined.





(** * Further properties of the generator *)

Ltac skip_to_owner :=
  skip update_position_frame; skip reset_algorithm_frame;
  skip position_algorithm_frame; skip velocity_ramp_frame;
  skip owner_frame.

Section GeneratorRegisters.

Variable pk : Stepgen.pick_offs.
Variable soft_stop : bool.

(** The position after a tick. *)
Lemma tick_position iw o :
  Stepgen.position (Stepgen.tick pk soft_stop iw o)
  = if Stepgen.reset (fst iw) then 0
    else if (if soft_stop then negb (Stepgen.wait o)
             else Stepgen.enable (fst iw) && negb (Stepgen.wait o))
    then Stepgen.assign_position pk
           (Stepgen.position o
            + Z.shiftr (Stepgen.speed o) (Stepgen.acc_shift pk))
    else Stepgen.position o.
Proof.
  unfold Stepgen.tick, Stepgen.sync; cbv zeta. skip_routine.
  unfold Stepgen.update_position, Stepgen.reset_algorithm, If; cbv zeta.
  destruct soft_stop, (Stepgen.reset (fst iw)), (Stepgen.enable (fst iw)),
    (Stepgen.wait o); cbn [negb andb]; try reflexivity;
    (skip position_algorithm_frame; skip velocity_ramp_frame;
     skip owner_frame; reflexivity).
Qed.

Lemma tick_speed_on_reset iw o :
  Stepgen.reset (fst iw) = true ->
  Stepgen.speed (Stepgen.tick pk soft_stop iw o) = 0
  /\ Stepgen.speed_target (Stepgen.tick pk soft_stop iw o) = 0
  /\ Stepgen.max_acceleration (Stepgen.tick pk soft_stop iw o) = 0.
Proof.
  intros Hreset.
  unfold Stepgen.tick, Stepgen.sync; cbv zeta.
  repeat split; skip_routine; skip update_position_frame;
    unfold Stepgen.reset_algorithm, If; rewrite Hreset; reflexivity.
Qed.

Lemma ramp_skipped i o n :
  Stepgen.reset i = true \/ Stepgen.wait o = true ->
  Stepgen.velocity_ramp pk i o n = n.
Proof.
  intros H. unfold Stepgen.velocity_ramp, If.
  destruct H as [H | H]; rewrite H; [reflexivity | ].
  rewrite andb_false_r. reflexivity.
Qed.

Lemma tick_wait iw o :
  Stepgen.wait (Stepgen.tick pk soft_stop iw o)
  = if Bool.eqb (Stepgen.step_bit pk o) (Stepgen.step_prev o)
    then Stepgen.wait o
    else Stepgen.hold_dds o.
Proof.
  unfold Stepgen.tick, Stepgen.sync; cbv zeta.
  skip counters_frame. skip routine_dir_frame.
  skip routine_step_output_frame. skip routine_release_frame.
  unfold Stepgen.routine_step, If; cbv zeta.
  destruct (Bool.eqb (Stepgen.step_bit pk o) (Stepgen.step_prev o)),
    (Stepgen.hold_dds o); cbn [negb]; try reflexivity;
    (skip_to_owner; reflexivity).
Qed.

Lemma tick_step_prev iw o :
  Stepgen.step_prev (Stepgen.tick pk soft_stop iw o)
  = if Stepgen.makes_step pk o then Stepgen.step_bit pk o
    else Stepgen.step_prev o.
Proof.
  unfold Stepgen.tick, Stepgen.sync; cbv zeta.
  skip counters_frame. skip routine_dir_frame.
  skip routine_step_output_frame. skip routine_release_frame.
  unfold Stepgen.routine_step, Stepgen.makes_step, If; cbv zeta.
  destruct (Bool.eqb (Stepgen.step_bit pk o) (Stepgen.step_prev o)),
    (Stepgen.hold_dds o); cbn [negb andb]; try reflexivity;
    (skip_to_owner; reflexivity).
Qed.

End GeneratorRegisters.

(** ** Reset and disable *)

(** X1: a tick with reset asserted zeroes speed, speed target, position
    and the acceleration limit whatever they were, leaves the acceleration
    distance as it is, and ends with the stopped flag off. *)
Theorem reset_stops_abruptly pk soft_stop iw o :
  Stepgen.reset (fst iw) = true ->
  Stepgen.speed (Stepgen.tick pk soft_stop iw o) = 0
  /\ Stepgen.speed_target (Stepgen.tick pk soft_stop iw o) = 0
  /\ Stepgen.position (Stepgen.tick pk soft_stop iw o) = 0
  /\ Stepgen.max_acceleration (Stepgen.tick pk soft_stop iw o) = 0
  /\ Stepgen.acc_distance (Stepgen.tick pk soft_stop iw o)
     = Stepgen.acc_distance o
  /\ Stepgen.stopped pk (Stepgen.tick pk soft_stop iw o) = false.
Proof.
  intros Hreset.
  destruct (tick_speed_on_reset pk soft_stop iw o Hreset)
    as (Hspeed & Htarget & Hacc).
  split; [exact Hspeed | split; [exact Htarget | ]].
  split; [rewrite tick_position, Hreset; reflexivity | ].
  split; [exact Hacc | split].
  - unfold Stepgen.tick. rewrite sync_acc_distance.
    rewrite ramp_skipped by (left; exact Hreset).
    apply owner_acc_distance.
  - unfold Stepgen.stopped. rewrite Hacc.
    change (5 * 0) with 0. change (-5 * 0) with 0. rewrite Z.shiftr_0_l.
    destruct (Z.ltb_spec
                (Stepgen.dtg pk (Stepgen.tick pk soft_stop iw o)) 0);
      destruct (Z.gtb_spec
                  (Stepgen.dtg pk (Stepgen.tick pk soft_stop iw o)) 0);
      try reflexivity.
    lia.
Qed.

Lemma reset_stops_abruptly_witness :
  Stepgen.speed (generator_at_rest false 219900000 219902325 35184)
  = 219900000
  /\ Stepgen.speed
       (Stepgen.tick bench_pick_offs true resetting
          (generator_at_rest false 219900000 219902325 35184)) = 0
  /\ Stepgen.max_acceleration
       (Stepgen.tick bench_pick_offs true resetting
          (generator_at_rest false 219900000 219902325 35184)) = 0.
Proof.
  destruct (reset_stops_abruptly bench_pick_offs true resetting
              (generator_at_rest false 219900000 219902325 35184) eq_refl)
    as (Hspeed & _ & _ & Hacc & _).
  split; [reflexivity | split; assumption].
Defined.

(** X2: without reset, a generator built without soft stop does not move
    its position while it is disabled; one built with soft stop adds the
    speed to the position on every tick on which it is not waiting for a
    direction set-up, enabled or not; and while waiting the position
    stands still in either case. *)
Theorem position_moves_when_allowed pk iw o :
  Stepgen.reset (fst iw) = false ->
  (Stepgen.enable (fst iw) = false ->
   Stepgen.position (Stepgen.tick pk false iw o) = Stepgen.position o)
  /\ (Stepgen.wait o = false ->
      Stepgen.position (Stepgen.tick pk true iw o)
      = Stepgen.assign_position pk
          (Stepgen.position o
           + Z.shiftr (Stepgen.speed o) (Stepgen.acc_shift pk)))
  /\ (Stepgen.wait o = true ->
      forall soft_stop,
        Stepgen.position (Stepgen.tick pk soft_stop iw o)
        = Stepgen.position o).
Proof.
  intros Hreset. split; [ | split].
  - intros Hen. rewrite tick_position, Hreset, Hen. reflexivity.
  - intros Hwait. rewrite tick_position, Hreset, Hwait. reflexivity.
  - intros Hwait soft_stop. rewrite tick_position, Hreset, Hwait.
    rewrite andb_false_r. destruct soft_stop; reflexivity.
Qed.

Lemma position_moves_when_allowed_witness :
  Stepgen.position
    (Stepgen.tick bench_pick_offs false disabled
       (generator_at_rest false 219900000 219902325 35184)) = 0
  /\ Stepgen.position
       (Stepgen.tick bench_pick_offs true disabled
          (generator_at_rest false 219900000 219902325 35184))
     = Z.shiftr 219900000 8.
Proof.
  destruct (position_moves_when_allowed bench_pick_offs disabled
              (generator_at_rest false 219900000 219902325 35184) eq_refl)
    as (Hfrozen & Hmoves & _).
  split; [exact (Hfrozen eq_refl) | ].
  etransitivity; [exact (Hmoves eq_refl) | vm_compute; reflexivity].
Defined.

Section RampDown.

Variable pk : Stepgen.pick_offs.
Variable soft_stop : bool.

Lemma ramp_speed_target_zero i o n :
  Stepgen.speed_target n = 0 ->
  Stepgen.speed_target (Stepgen.velocity_ramp pk i o n) = 0.
Proof.
  intros Hn. unfold Stepgen.velocity_ramp, If; cbv zeta.
  split_ifs; cbn; try exact Hn; reflexivity.
Qed.

Lemma ramp_speed_target_disabled i o n :
  Stepgen.reset i = false ->
  Stepgen.wait o = false ->
  Stepgen.enable i = false ->
  Stepgen.speed_target (Stepgen.velocity_ramp pk i o n) = 0.
Proof.
  intros Hreset Hwait Hen. unfold Stepgen.velocity_ramp, If; cbv zeta.
  rewrite Hreset, Hwait, Hen. cbn [negb andb].
  split_ifs; reflexivity.
Qed.

Lemma tick_speed_target_velocity_mode iw o :
  Stepgen.reset (fst iw) = false ->
  Stepgen.position_mode o = false ->
  Stepgen.speed_target (Stepgen.tick pk soft_stop iw o)
  = Stepgen.speed_target
      (Stepgen.velocity_ramp pk (fst iw) o (Stepgen.owner pk (snd iw) o)).
Proof.
  intros Hreset Hmode.
  unfold Stepgen.tick, Stepgen.sync; cbv zeta. skip_routine.
  skip update_position_frame. rewrite reset_algorithm_off by exact Hreset.
  rewrite position_algorithm_off by exact Hmode. reflexivity.
Qed.

(** A tick in velocity mode with a zero target, without reset or owner
    writes, enabled or not. *)
Lemma ramp_down_tick iw o :
  Stepgen.reset (fst iw) = false ->
  snd iw = Stepgen.no_writes ->
  Stepgen.position_mode o = false ->
  Stepgen.speed_target o = 0 ->
  Stepgen.position_mode (Stepgen.tick pk soft_stop iw o) = false
  /\ Stepgen.speed_target (Stepgen.tick pk soft_stop iw o) = 0
  /\ Stepgen.max_acceleration (Stepgen.tick pk soft_stop iw o)
     = Stepgen.max_acceleration o
  /\ Stepgen.speed (Stepgen.tick pk soft_stop iw o)
     = if Stepgen.wait o then Stepgen.speed o
       else if Stepgen.max_acceleration o =? 0 then 0
       else if 0 >=? Stepgen.speed o + Stepgen.max_acceleration o then
         Stepgen.assign_speed pk
           (Stepgen.speed o + Stepgen.max_acceleration o)
       else if 0 <=? Stepgen.speed o - Stepgen.max_acceleration o then
         Stepgen.assign_speed pk
           (Stepgen.speed o - Stepgen.max_acceleration o)
       else 0.
Proof.
  intros Hreset Hw Hmode Htarget.
  split; [ | split; [ | split]].
  - unfold Stepgen.tick. rewrite sync_position_mode, Hw. exact Hmode.
  - rewrite tick_speed_target_velocity_mode by assumption.
    apply ramp_speed_target_zero. rewrite Hw. exact Htarget.
  - unfold Stepgen.tick. rewrite sync_max_acceleration by exact Hreset.
    rewrite Hw. reflexivity.
  - unfold Stepgen.tick. rewrite sync_speed by exact Hreset.
    rewrite ramp_speed, Hreset, Hmode, Htarget, Hw.
    cbn [negb andb orb Bool.eqb].
    destruct (Stepgen.wait o); reflexivity.
Qed.

Lemma ramp_down_run ins k s :
  in_signed (Stepgen.speed_width pk) (Stepgen.speed s) ->
  0 < Stepgen.max_acceleration s ->
  Stepgen.position_mode s = false ->
  Stepgen.speed_target s = 0 ->
  (forall j, (j < k)%nat ->
     Stepgen.reset (fst (ins j)) = false /\ snd (ins j) = Stepgen.no_writes) ->
  Stepgen.position_mode (Stepgen.run pk soft_stop ins k s) = false
  /\ Stepgen.speed_target (Stepgen.run pk soft_stop ins k s) = 0
  /\ Stepgen.max_acceleration (Stepgen.run pk soft_stop ins k s)
     = Stepgen.max_acceleration s
  /\ Z.abs (Stepgen.speed (Stepgen.run pk soft_stop ins k s))
     <= Z.max 0
          (Z.abs (Stepgen.speed s)
           - Stepgen.max_acceleration s
             * Z.of_nat (Stepgen.ramp_ticks pk soft_stop ins k s)).
Proof.
  intros Hv Hacc Hmode Htarget Hins.
  induction k as [ | k IH].
  - cbn [Stepgen.run Stepgen.ramp_ticks]. repeat split; try assumption; lia.
  - destruct IH as (IHmode & IHtarget & IHacc & IHgap).
    { intros j Hj. apply Hins. lia. }
    cbn [Stepgen.run Stepgen.ramp_ticks].
    destruct (Hins k) as (Hreset & Hw); [lia | ].
    destruct (ramp_down_tick (ins k) (Stepgen.run pk soft_stop ins k s)
                Hreset Hw IHmode IHtarget) as (Hm & Htg & Ha & Hs).
    rewrite Hm, Htg, Ha, Hs, IHacc.
    split; [reflexivity | split; [reflexivity | split; [reflexivity | ]]].
    unfold in_signed in Hv. unfold Stepgen.assign_speed.
    rewrite Nat2Z.inj_add, Z.mul_add_distr_l.
    set (v := Stepgen.speed (Stepgen.run pk soft_stop ins k s)) in *.
    set (c := Stepgen.max_acceleration s
              * Z.of_nat (Stepgen.ramp_ticks pk soft_stop ins k s)) in *.
    destruct (Stepgen.wait (Stepgen.run pk soft_stop ins k s)).
    { cbn [Z.of_nat]. rewrite Z.mul_0_r, Z.add_0_r. exact IHgap. }
    change (Z.of_nat 1) with 1. rewrite Z.mul_1_r.
    destruct (Z.eqb_spec (Stepgen.max_acceleration s) 0); [lia | ].
    destruct (Z.geb_spec 0 (v + Stepgen.max_acceleration s)).
    { rewrite wrap_signed_fits by (unfold in_signed; lia). lia. }
    destruct (Z.leb_spec 0 (v - Stepgen.max_acceleration s)).
    { rewrite wrap_signed_fits by (unfold in_signed; lia). lia. }
    lia.
Qed.

End RampDown.

(** X3: in velocity mode a tick on which the ramp runs while the
    generator is disabled leaves the speed target at 0, whatever the owner
    wrote; and from a zero target the speed comes down by at most one
    [max_acceleration] per tick and is 0 once the ramp has run on enough
    ticks to cover it, whether the generator is enabled or not. *)
Theorem disabling_ramps_down pk soft_stop :
  (forall iw o,
     Stepgen.reset (fst iw) = false ->
     Stepgen.enable (fst iw) = false ->
     Stepgen.wait o = false ->
     Stepgen.position_mode o = false ->
     Stepgen.speed_target (Stepgen.tick pk soft_stop iw o) = 0)
  /\ (forall ins k s,
        in_signed (Stepgen.speed_width pk) (Stepgen.speed s) ->
        0 < Stepgen.max_acceleration s ->
        Stepgen.position_mode s = false ->
        Stepgen.speed_target s = 0 ->
        (forall j, (j < k)%nat ->
           Stepgen.reset (fst (ins j)) = false
           /\ snd (ins j) = Stepgen.no_writes) ->
        Z.abs (Stepgen.speed s)
        <= Stepgen.max_acceleration s
           * Z.of_nat (Stepgen.ramp_ticks pk soft_stop ins k s) ->
        Stepgen.speed (Stepgen.run pk soft_stop ins k s) = 0).
Proof.
  split.
  - intros iw o Hreset Hen Hwait Hmode.
    rewrite tick_speed_target_velocity_mode by assumption.
    apply ramp_speed_target_disabled; assumption.
  - intros ins k s Hv Hacc Hmode Htarget Hins Hticks.
    destruct (ramp_down_run pk soft_stop ins k s Hv Hacc Hmode Htarget Hins)
      as (_ & _ & _ & Hgap).
    lia.
Qed.

(** Disabled at three acceleration steps of speed: the target is 0 after
    one tick and the speed after four. *)
Lemma disabling_ramps_down_witness :
  Stepgen.speed_target
    (Stepgen.tick bench_pick_offs true disabled
       (generator_at_rest false 105552 219902325 35184)) = 0
  /\ Stepgen.speed
       (Stepgen.run bench_pick_offs true (fun _ => disabled) 3
          (generator_at_rest false 105552 0 35184)) = 0.
Proof.
  destruct (disabling_ramps_down bench_pick_offs true) as (Hoff & Hdown).
  split.
  - apply Hoff; reflexivity.
  - apply Hdown.
    + unfold in_signed. cbn. lia.
    + cbn. lia.
    + reflexivity.
    + reflexivity.
    + intros j _. split; reflexivity.
    + vm_compute. discriminate.
Defined.

(** ** Pulse timing *)

Section PulseTiming.

Variable pk : Stepgen.pick_offs.
Variable soft_stop : bool.

Lemma tick_steplen iw o :
  Stepgen.steplen (Stepgen.tick pk soft_stop iw o) = Stepgen.steplen o.
Proof.
  unfold Stepgen.tick, Stepgen.sync; cbv zeta.
  skip_routine. skip_to_owner. reflexivity.
Qed.

Lemma tick_dir_hold_time iw o :
  Stepgen.dir_hold_time (Stepgen.tick pk soft_stop iw o)
  = Stepgen.dir_hold_time o.
Proof.
  unfold Stepgen.tick, Stepgen.sync; cbv zeta.
  skip_routine. skip_to_owner. reflexivity.
Qed.

Lemma tick_dir_hold_counter iw o :
  Stepgen.dir_hold_counter (Stepgen.tick pk soft_stop iw o)
  = if Stepgen.dir_hold_counter o >? 0
    then wrap_unsigned 11 (Stepgen.dir_hold_counter o - 1)
    else if Stepgen.makes_step pk o
         then wrap_unsigned 11 (Stepgen.steplen o + Stepgen.dir_hold_time o)
         else Stepgen.dir_hold_counter o.
Proof.
  unfold Stepgen.tick, Stepgen.sync; cbv zeta.
  unfold Stepgen.counters, If at 1 2 3; cbv zeta.
  destruct (Stepgen.dir_hold_counter o >? 0),
    (Stepgen.dir_setup_counter o >? 0), (Stepgen.steplen_counter o >? 0);
    try reflexivity;
    (skip routine_dir_frame; skip routine_step_output_frame;
     skip routine_release_frame;
     unfold Stepgen.routine_step, Stepgen.makes_step, If; cbv zeta;
     destruct (Bool.eqb (Stepgen.step_bit pk o) (Stepgen.step_prev o)),
       (Stepgen.hold_dds o); cbn [negb andb]; try reflexivity;
     (skip_to_owner; reflexivity)).
Qed.

(** From a step made with the pulse counter at rest, the counter runs
    down from [steplen] whatever happens. *)
Lemma pulse_counter_runs ins s j :
  in_unsigned 10 (Stepgen.steplen s) ->
  Stepgen.makes_step pk s = true ->
  Stepgen.steplen_counter s = 0 ->
  (1 <= j)%nat ->
  Z.of_nat j <= Stepgen.steplen s + 1 ->
  Stepgen.steplen_counter (Stepgen.run pk soft_stop ins j s)
  = Stepgen.steplen s - (Z.of_nat j - 1).
Proof.
  intros Hfit Hstep Hrest Hj1 Hj. unfold in_unsigned in Hfit.
  induction j as [ | j IH]; [lia | ].
  rewrite run_step, tick_steplen_counter.
  destruct j as [ | j].
  - cbn [Stepgen.run]. rewrite Hrest, Hstep. cbn [Z.gtb Z.compare].
    rewrite wrap_unsigned_fits by exact Hfit. lia.
  - rewrite IH by lia.
    destruct (Z.gtb_spec (Stepgen.steplen s - (Z.of_nat (S j) - 1)) 0);
      [ | lia].
    rewrite wrap_unsigned_fits by (unfold in_unsigned; lia). lia.
Qed.

Lemma hold_counter_runs ins s j :
  in_unsigned 10 (Stepgen.steplen s) ->
  in_unsigned 10 (Stepgen.dir_hold_time s) ->
  Stepgen.makes_step pk s = true ->
  Stepgen.dir_hold_counter s = 0 ->
  (1 <= j)%nat ->
  Z.of_nat j <= Stepgen.steplen s + Stepgen.dir_hold_time s + 1 ->
  Stepgen.dir_hold_counter (Stepgen.run pk soft_stop ins j s)
  = Stepgen.steplen s + Stepgen.dir_hold_time s - (Z.of_nat j - 1).
Proof.
  intros Hlen Hhold Hstep Hrest Hj1 Hj. unfold in_unsigned in Hlen, Hhold.
  assert (H11 : 2 ^ 10 + 2 ^ 10 = 2 ^ 11) by reflexivity.
  induction j as [ | j IH]; [lia | ].
  rewrite run_step, tick_dir_hold_counter.
  destruct j as [ | j].
  - cbn [Stepgen.run]. rewrite Hrest, Hstep. cbn [Z.gtb Z.compare].
    rewrite wrap_unsigned_fits by (unfold in_unsigned; lia). lia.
  - rewrite IH by lia.
    destruct (Z.gtb_spec
                (Stepgen.steplen s + Stepgen.dir_hold_time s
                 - (Z.of_nat (S j) - 1)) 0); [ | lia].
    rewrite wrap_unsigned_fits by (unfold in_unsigned; lia). lia.
Qed.

End PulseTiming.

(** X4: a step made while the pulse counter is at rest gives a step pulse
    of exactly [steplen] ticks, whatever the inputs and whatever else
    happens: the output is low after the tick of the step, high after each
    of the next [steplen] ticks, and low again after the tick that
    follows. *)
Theorem step_pulse_has_length_steplen pk soft_stop ins s :
  in_unsigned 10 (Stepgen.steplen s) ->
  Stepgen.makes_step pk s = true ->
  Stepgen.steplen_counter s = 0 ->
  Stepgen.step (Stepgen.run pk soft_stop ins 1 s) = false
  /\ (forall j, (2 <= j)%nat -> Z.of_nat j <= Stepgen.steplen s + 1 ->
        Stepgen.step (Stepgen.run pk soft_stop ins j s) = true)
  /\ Stepgen.step
       (Stepgen.run pk soft_stop ins (S (S (Z.to_nat (Stepgen.steplen s)))) s)
     = false.
Proof.
  intros Hfit Hstep Hrest. pose proof Hfit as Hrange.
  unfold in_unsigned in Hrange.
  split; [ | split].
  - rewrite run_step, tick_step. cbn [Stepgen.run]. rewrite Hrest. reflexivity.
  - intros j Hj2 Hj. destruct j as [ | j]; [lia | ].
    rewrite run_step, tick_step.
    rewrite (pulse_counter_runs pk soft_stop ins s j Hfit Hstep Hrest)
      by lia.
    destruct (Z.gtb_spec (Stepgen.steplen s - (Z.of_nat j - 1)) 0);
      [reflexivity | lia].
  - rewrite run_step, tick_step.
    rewrite (pulse_counter_runs pk soft_stop ins s
               (S (Z.to_nat (Stepgen.steplen s))) Hfit Hstep Hrest) by lia.
    destruct (Z.gtb_spec
                (Stepgen.steplen s
                 - (Z.of_nat (S (Z.to_nat (Stepgen.steplen s))) - 1)) 0);
      [lia | reflexivity].
Qed.

(** With [steplen] = 16: low after tick 1, high after ticks 2 to 17, low
    after tick 18, while the owner asks for the other direction. *)
Lemma step_pulse_has_length_steplen_witness :
  Stepgen.step
    (Stepgen.run bench_pick_offs true (fun _ => retarget (-1000000)) 1
       step_pending) = false
  /\ Stepgen.step
       (Stepgen.run bench_pick_offs true (fun _ => retarget (-1000000)) 2
          step_pending) = true
  /\ Stepgen.step
       (Stepgen.run bench_pick_offs true (fun _ => retarget (-1000000)) 17
          step_pending) = true
  /\ Stepgen.step
       (Stepgen.run bench_pick_offs true (fun _ => retarget (-1000000)) 18
          step_pending) = false.
Proof.
  destruct (step_pulse_has_length_steplen bench_pick_offs true
              (fun _ => retarget (-1000000)) step_pending)
    as (Hlow & Hhigh & Hend).
  - cbn. unfold in_unsigned. lia.
  - vm_compute. reflexivity.
  - reflexivity.
  - split; [exact Hlow | ].
    split; [apply Hhigh; [lia | cbn; lia] | ].
    split; [apply Hhigh; [lia | cbn; lia] | exact Hend].
Defined.

(** X5: after a step made while the hold counter is at rest, the
    direction output does not change during the next
    [steplen + dir_hold_time] ticks, whatever the speed does. *)
Theorem direction_held_after_step pk soft_stop ins s j :
  in_unsigned 10 (Stepgen.steplen s) ->
  in_unsigned 10 (Stepgen.dir_hold_time s) ->
  Stepgen.makes_step pk s = true ->
  Stepgen.dir_hold_counter s = 0 ->
  (1 <= j)%nat ->
  Z.of_nat j <= Stepgen.steplen s + Stepgen.dir_hold_time s + 1 ->
  Stepgen.dir (Stepgen.run pk soft_stop ins j s)
  = Stepgen.dir (Stepgen.run pk soft_stop ins 1 s).
Proof.
  intros Hlen Hhold Hstep Hrest Hj1 Hj.
  induction j as [ | j IH]; [lia | ].
  destruct j as [ | j]; [reflexivity | ].
  rewrite run_step, tick_dir.
  rewrite (hold_counter_runs pk soft_stop ins s (S j)
             Hlen Hhold Hstep Hrest) by lia.
  destruct (Z.eqb_spec
              (Stepgen.steplen s + Stepgen.dir_hold_time s
               - (Z.of_nat (S j) - 1)) 0); [lia | ].
  rewrite andb_false_r. apply IH; lia.
Qed.

(** With [steplen] = [dir_hold_time] = 16 and the speed negative from the
    second tick on: the direction is unchanged after 33 ticks and has
    turned after 34. *)
Lemma direction_held_after_step_witness :
  Stepgen.dir
    (Stepgen.run bench_pick_offs true (fun _ => retarget (-1000000)) 33
       step_pending)
  = Stepgen.dir
      (Stepgen.run bench_pick_offs true (fun _ => retarget (-1000000)) 1
         step_pending)
  /\ Stepgen.dir
       (Stepgen.run bench_pick_offs true (fun _ => retarget (-1000000)) 1
          step_pending) = false
  /\ Stepgen.dir
       (Stepgen.run bench_pick_offs true (fun _ => retarget (-1000000)) 34
          step_pending) = true.
Proof.
  split; [ | split; vm_compute; reflexivity].
  apply (direction_held_after_step bench_pick_offs true).
  - cbn. unfold in_unsigned. lia.
  - cbn. unfold in_unsigned. lia.
  - vm_compute. reflexivity.
  - reflexivity.
  - lia.
  - cbn. lia.
Defined.

(** ** Waiting, resting, and the speed limit *)

Section Standstill.

Variable pk : Stepgen.pick_offs.
Variable soft_stop : bool.

Lemma locked_tick iw o :
  Stepgen.reset (fst iw) = false ->
  Stepgen.wait o = true ->
  Stepgen.step_bit pk o = Stepgen.step_prev o ->
  Stepgen.wait (Stepgen.tick pk soft_stop iw o) = true
  /\ Stepgen.position (Stepgen.tick pk soft_stop iw o) = Stepgen.position o
  /\ Stepgen.speed (Stepgen.tick pk soft_stop iw o) = Stepgen.speed o
  /\ Stepgen.step_prev (Stepgen.tick pk soft_stop iw o) = Stepgen.step_prev o.
Proof.
  intros Hreset Hwait Hbit.
  assert (Hsame : Bool.eqb (Stepgen.step_bit pk o) (Stepgen.step_prev o)
                  = true) by (rewrite Hbit; apply eqb_reflx).
  split; [ | split; [ | split]].
  - rewrite tick_wait, Hsame. exact Hwait.
  - rewrite tick_position, Hreset, Hwait, andb_false_r.
    destruct soft_stop; reflexivity.
  - unfold Stepgen.tick. rewrite sync_speed by exact Hreset.
    rewrite ramp_skipped by (right; exact Hwait). apply owner_speed.
  - rewrite tick_step_prev. unfold Stepgen.makes_step. rewrite Hsame.
    reflexivity.
Qed.

Lemma stopped_parts s :
  Stepgen.stopped pk s = true ->
  Stepgen.dtg pk s
  < Z.shiftr (5 * Stepgen.max_acceleration s) (Stepgen.acc_shift pk)
  /\ Z.shiftr (-5 * Stepgen.max_acceleration s) (Stepgen.acc_shift pk)
     < Stepgen.dtg pk s
  /\ Stepgen.speed s = 0.
Proof.
  unfold Stepgen.stopped. intros H.
  apply andb_true_iff in H. destruct H as (H & Hspeed).
  apply andb_true_iff in H. destruct H as (Hlt & Hgt).
  apply Z.ltb_lt in Hlt. apply Z.gtb_lt in Hgt. apply Z.eqb_eq in Hspeed.
  auto.
Qed.

Lemma position_algorithm_idle o n :
  Stepgen.position_mode o = true ->
  Stepgen.acc_distance o = 0 ->
  Stepgen.stopped pk o = true ->
  Stepgen.position_algorithm pk o n = n.
Proof.
  intros Hmode Hdist Hstopped.
  destruct (stopped_parts o Hstopped) as (Hlt & Hgt & _).
  unfold Stepgen.position_algorithm. rewrite Hmode, Hdist.
  cbn [Z.eqb andb].
  destruct (Z.gtb_spec (Stepgen.dtg pk o)
              (Z.shiftr (5 * Stepgen.max_acceleration o)
                 (Stepgen.acc_shift pk))); [lia | ].
  destruct (Z.ltb_spec (Stepgen.dtg pk o)
              (Z.shiftr (-5 * Stepgen.max_acceleration o)
                 (Stepgen.acc_shift pk))); [lia | ].
  reflexivity.
Qed.

(** A tick of a generator that rests on its target in position mode. *)
Lemma resting_tick iw o :
  in_signed (Stepgen.position_width pk) (Stepgen.position o) ->
  Stepgen.reset (fst iw) = false ->
  snd iw = Stepgen.no_writes ->
  Stepgen.position_mode o = true ->
  Stepgen.acc_distance o = 0 ->
  Stepgen.speed_target o = 0 ->
  Stepgen.stopped pk o = true ->
  Stepgen.position_mode (Stepgen.tick pk soft_stop iw o) = true
  /\ Stepgen.acc_distance (Stepgen.tick pk soft_stop iw o) = 0
  /\ Stepgen.speed_target (Stepgen.tick pk soft_stop iw o) = 0
  /\ Stepgen.speed (Stepgen.tick pk soft_stop iw o) = 0
  /\ Stepgen.position (Stepgen.tick pk soft_stop iw o) = Stepgen.position o
  /\ Stepgen.position_target (Stepgen.tick pk soft_stop iw o)
     = Stepgen.position_target o
  /\ Stepgen.max_acceleration (Stepgen.tick pk soft_stop iw o)
     = Stepgen.max_acceleration o.
Proof.
  intros Hpos Hreset Hw Hmode Hdist Htarget Hstopped.
  destruct (stopped_parts o Hstopped) as (Hlt & Hgt & Hspeed).
  assert (Hacc : 0 < Stepgen.max_acceleration o).
  { destruct (Z.lt_trichotomy (Stepgen.max_acceleration o) 0)
      as [Hneg | [Hz | Hp]]; [ | | exact Hp].
    - assert (Z.shiftr (5 * Stepgen.max_acceleration o)
                (Stepgen.acc_shift pk) < 0)
        by (apply Z.shiftr_neg; lia).
      assert (0 <= Z.shiftr (-5 * Stepgen.max_acceleration o)
                     (Stepgen.acc_shift pk))
        by (apply Z.shiftr_nonneg; lia).
      lia.
    - rewrite Hz in Hlt, Hgt.
      change (5 * 0) with 0 in Hlt. change (-5 * 0) with 0 in Hgt.
      rewrite Z.shiftr_0_l in Hlt, Hgt. lia. }
  split; [ | split; [ | split; [ | split; [ | split; [ | split]]]]].
  - unfold Stepgen.tick. rewrite sync_position_mode, Hw. exact Hmode.
  - unfold Stepgen.tick. rewrite sync_acc_distance, Hw.
    change (Stepgen.owner pk Stepgen.no_writes o) with o.
    destruct (Stepgen.wait o) eqn:Hwait.
    + rewrite ramp_skipped by (right; exact Hwait). exact Hdist.
    + rewrite small_gap_branch by (try assumption; lia).
      rewrite Htarget. reflexivity.
  - unfold Stepgen.tick, Stepgen.sync; cbv zeta. skip_routine.
    skip update_position_frame. rewrite reset_algorithm_off by exact Hreset.
    rewrite position_algorithm_idle by assumption.
    apply ramp_speed_target_zero. rewrite Hw. exact Htarget.
  - unfold Stepgen.tick. rewrite sync_speed by exact Hreset.
    rewrite ramp_speed, Hreset, Hmode, Htarget, Hspeed, Hw.
    cbn [negb andb orb Bool.eqb Z.eqb].
    destruct (Stepgen.wait o); cbn [negb]; [exact Hspeed | ].
    destruct (Z.eqb_spec (Stepgen.max_acceleration o) 0); [reflexivity | ].
    destruct (Z.geb_spec 0 (0 + Stepgen.max_acceleration o)); [lia | ].
    destruct (Z.leb_spec 0 (0 - Stepgen.max_acceleration o)); [lia | ].
    reflexivity.
  - rewrite tick_position, Hreset, Hspeed, Z.shiftr_0_l, Z.add_0_r.
    unfold Stepgen.assign_position.
    rewrite wrap_signed_fits by exact Hpos.
    destruct (if soft_stop then negb (Stepgen.wait o)
              else Stepgen.enable (fst iw) && negb (Stepgen.wait o));
      reflexivity.
  - unfold Stepgen.tick. rewrite sync_position_target, Hw. reflexivity.
  - unfold Stepgen.tick. rewrite sync_max_acceleration by exact Hreset.
    rewrite Hw. reflexivity.
Qed.

End Standstill.

(** X6: a generator that waits for a direction set-up while the watched
    bit of its position agrees with [step_prev] stays as it is for good:
    without a reset no later tick ends the wait, moves the position or
    changes the speed, whatever is commanded. *)
Theorem wait_without_pending_step_is_permanent pk soft_stop ins s k :
  Stepgen.wait s = true ->
  Stepgen.step_bit pk s = Stepgen.step_prev s ->
  (forall j, Stepgen.reset (fst (ins j)) = false) ->
  Stepgen.wait (Stepgen.run pk soft_stop ins k s) = true
  /\ Stepgen.position (Stepgen.run pk soft_stop ins k s) = Stepgen.position s
  /\ Stepgen.speed (Stepgen.run pk soft_stop ins k s) = Stepgen.speed s.
Proof.
  intros Hwait Hbit Hreset.
  assert (Hinv : Stepgen.wait (Stepgen.run pk soft_stop ins k s) = true
                 /\ Stepgen.position (Stepgen.run pk soft_stop ins k s)
                    = Stepgen.position s
                 /\ Stepgen.speed (Stepgen.run pk soft_stop ins k s)
                    = Stepgen.speed s
                 /\ Stepgen.step_prev (Stepgen.run pk soft_stop ins k s)
                    = Stepgen.step_prev s).
  { induction k as [ | k IH]; [auto | ].
    destruct IH as (IHwait & IHpos & IHspeed & IHprev).
    rewrite run_step.
    destruct (locked_tick pk soft_stop (ins k)
                (Stepgen.run pk soft_stop ins k s) (Hreset k) IHwait)
      as (Hw & Hp & Hv & Hs).
    { unfold Stepgen.step_bit. rewrite IHpos, IHprev. exact Hbit. }
    rewrite Hw, Hp, Hv, Hs. auto. }
  destruct Hinv as (Hw & Hp & Hv & _). auto.
Qed.

(** Without an acceleration limit, a tick backwards followed by a faster
    tick forwards right after power-up leaves the generator waiting with
    no step pending; a hundred ticks later it still waits at position 1,
    with a speed of 1024 and a commanded speed of 5000. *)
Lemma wait_without_pending_step_is_permanent_witness :
  Stepgen.wait
    (Stepgen.run bench_pick_offs true (fun _ => retarget 5000) 100
       (Stepgen.run bench_pick_offs true jolt 4 (generator_powered_up 0)))
  = true
  /\ Stepgen.position
       (Stepgen.run bench_pick_offs true (fun _ => retarget 5000) 100
          (Stepgen.run bench_pick_offs true jolt 4 (generator_powered_up 0)))
     = 1
  /\ Stepgen.speed
       (Stepgen.run bench_pick_offs true (fun _ => retarget 5000) 100
          (Stepgen.run bench_pick_offs true jolt 4 (generator_powered_up 0)))
     = 1024.
Proof.
  destruct (wait_without_pending_step_is_permanent bench_pick_offs true
              (fun _ => retarget 5000)
              (Stepgen.run bench_pick_offs true jolt 4
                 (generator_powered_up 0)) 100)
    as (Hwait & Hpos & Hspeed).
  - vm_compute. reflexivity.
  - vm_compute. reflexivity.
  - intros j. reflexivity.
  - split; [exact Hwait | split].
    + etransitivity; [exact Hpos | vm_compute; reflexivity].
    + etransitivity; [exact Hspeed | vm_compute; reflexivity].
Defined.

(** X7: a generator in position mode that reports stopped, with a zero
    speed target and a zero acceleration distance, stays where it is and
    keeps reporting stopped for as long as its owner writes nothing and no
    reset comes, enabled or not. *)
Theorem stopped_generator_stays_stopped pk soft_stop ins s k :
  in_signed (Stepgen.position_width pk) (Stepgen.position s) ->
  Stepgen.position_mode s = true ->
  Stepgen.acc_distance s = 0 ->
  Stepgen.speed_target s = 0 ->
  Stepgen.stopped pk s = true ->
  (forall j, Stepgen.reset (fst (ins j)) = false
             /\ snd (ins j) = Stepgen.no_writes) ->
  Stepgen.position (Stepgen.run pk soft_stop ins k s) = Stepgen.position s
  /\ Stepgen.speed (Stepgen.run pk soft_stop ins k s) = 0
  /\ Stepgen.stopped pk (Stepgen.run pk soft_stop ins k s) = true.
Proof.
  intros Hpos Hmode Hdist Htarget Hstopped Hins.
  assert (Hinv : Stepgen.position_mode (Stepgen.run pk soft_stop ins k s)
                 = true
                 /\ Stepgen.acc_distance (Stepgen.run pk soft_stop ins k s)
                    = 0
                 /\ Stepgen.speed_target (Stepgen.run pk soft_stop ins k s)
                    = 0
                 /\ Stepgen.stopped pk (Stepgen.run pk soft_stop ins k s)
                    = true
                 /\ Stepgen.position (Stepgen.run pk soft_stop ins k s)
                    = Stepgen.position s
                 /\ Stepgen.position_target
                      (Stepgen.run pk soft_stop ins k s)
                    = Stepgen.position_target s
                 /\ Stepgen.max_acceleration
                      (Stepgen.run pk soft_stop ins k s)
                    = Stepgen.max_acceleration s).
  { induction k as [ | k IH]; [auto 8 | ].
    destruct IH as (IHmode & IHdist & IHtarget & IHstopped & IHpos
                    & IHpt & IHacc).
    rewrite run_step. destruct (Hins k) as (Hreset & Hw).
    destruct (resting_tick pk soft_stop (ins k)
                (Stepgen.run pk soft_stop ins k s))
      as (Hm & Hd & Ht & Hv & Hp & Hpt & Ha); try assumption.
    { rewrite IHpos. exact Hpos. }
    split; [exact Hm | ]. split; [exact Hd | ]. split; [exact Ht | ].
    split; [ | split; [congruence | split; congruence]].
    destruct (stopped_parts pk _ IHstopped) as (_ & _ & Hzero).
    unfold Stepgen.stopped, Stepgen.dtg in IHstopped |- *.
    rewrite Hv, Hp, Hpt, Ha. rewrite Hzero in IHstopped. exact IHstopped. }
  destruct Hinv as (_ & _ & _ & Hst & Hp & _).
  destruct (stopped_parts pk _ Hst) as (_ & _ & Hv). auto.
Qed.

(** The generator of the turret at rest on its target, left alone while
    disabled for 500 ticks. *)
Lemma stopped_generator_stays_stopped_witness :
  Stepgen.position
    (Stepgen.run bench_pick_offs false (fun _ => disabled) 500
       (generator_at_rest true 0 0 35184)) = 0
  /\ Stepgen.speed
       (Stepgen.run bench_pick_offs false (fun _ => disabled) 500
          (generator_at_rest true 0 0 35184)) = 0
  /\ Stepgen.stopped bench_pick_offs
       (Stepgen.run bench_pick_offs false (fun _ => disabled) 500
          (generator_at_rest true 0 0 35184)) = true.
Proof.
  apply (stopped_generator_stays_stopped bench_pick_offs false
           (fun _ => disabled) (generator_at_rest true 0 0 35184) 500).
  - vm_compute. split; [intros H; discriminate H | reflexivity].
  - reflexivity.
  - reflexivity.
  - reflexivity.
  - vm_compute. reflexivity.
  - intros j. split; reflexivity.
Defined.

Section SpeedLimit.

Variable pk : Stepgen.pick_offs.
Variable soft_stop : bool.

Lemma owner_speed_target w o :
  Stepgen.speed_target (Stepgen.owner pk w o)
  = match Stepgen.write_speed_target w with
    | Some v => Stepgen.assign_speed pk v
    | None => Stepgen.speed_target o
    end.
Proof.
  unfold Stepgen.owner; cbv zeta.
  destruct (Stepgen.write_position_mode w), (Stepgen.write_speed_target w),
    (Stepgen.write_position_target w); reflexivity.
Qed.

Lemma owner_max_speed w o :
  Stepgen.max_speed (Stepgen.owner pk w o) = Stepgen.max_speed o.
Proof.
  unfold Stepgen.owner; cbv zeta.
  destruct (Stepgen.write_position_mode w), (Stepgen.write_speed_target w),
    (Stepgen.write_position_target w); reflexivity.
Qed.

Lemma owner_max_acceleration w o :
  Stepgen.max_acceleration (Stepgen.owner pk w o)
  = Stepgen.max_acceleration o.
Proof.
  unfold Stepgen.owner; cbv zeta.
  destruct (Stepgen.write_position_mode w), (Stepgen.write_speed_target w),
    (Stepgen.write_position_target w); reflexivity.
Qed.

Lemma tick_max_speed iw o :
  Stepgen.max_speed (Stepgen.tick pk soft_stop iw o) = Stepgen.max_speed o.
Proof.
  unfold Stepgen.tick, Stepgen.sync; cbv zeta. skip_routine.
  skip update_position_frame. skip reset_algorithm_frame.
  skip position_algorithm_frame. skip velocity_ramp_frame.
  apply owner_max_speed.
Qed.

Lemma tick_max_acceleration iw o :
  Stepgen.max_acceleration (Stepgen.tick pk soft_stop iw o)
  = if Stepgen.reset (fst iw) then 0 else Stepgen.max_acceleration o.
Proof.
  unfold Stepgen.tick, Stepgen.sync; cbv zeta. skip_routine.
  skip update_position_frame.
  unfold Stepgen.reset_algorithm, If.
  destruct (Stepgen.reset (fst iw)); [reflexivity | ].
  skip position_algorithm_frame. skip velocity_ramp_frame.
  apply owner_max_acceleration.
Qed.

Lemma tick_speed_target iw o :
  Stepgen.speed_target (Stepgen.tick pk soft_stop iw o)
  = if Stepgen.reset (fst iw) then 0
    else Stepgen.speed_target
           (Stepgen.position_algorithm pk o
              (Stepgen.velocity_ramp pk (fst iw) o
                 (Stepgen.owner pk (snd iw) o))).
Proof.
  unfold Stepgen.tick, Stepgen.sync; cbv zeta. skip_routine.
  skip update_position_frame.
  unfold Stepgen.reset_algorithm, If.
  destruct (Stepgen.reset (fst iw)); reflexivity.
Qed.

(** The speed target stays within the speed limit. *)
Lemma tick_speed_target_limited iw o :
  0 <= Stepgen.max_speed o < 2 ^ (Stepgen.speed_width pk - 1) ->
  - Stepgen.max_speed o <= Stepgen.speed_target o <= Stepgen.max_speed o ->
  Stepgen.writes_within (Stepgen.max_speed o) (snd iw) ->
  - Stepgen.max_speed o
  <= Stepgen.speed_target (Stepgen.tick pk soft_stop iw o)
  <= Stepgen.max_speed o.
Proof.
  intros Hmax Htarget Hw.
  assert (Hwrap : forall v, - Stepgen.max_speed o <= v <= Stepgen.max_speed o ->
                            Stepgen.assign_speed pk v = v).
  { intros v Hv. unfold Stepgen.assign_speed.
    apply wrap_signed_fits. unfold in_signed. lia. }
  assert (Howner : - Stepgen.max_speed o
                   <= Stepgen.speed_target (Stepgen.owner pk (snd iw) o)
                   <= Stepgen.max_speed o).
  { rewrite owner_speed_target. unfold Stepgen.writes_within in Hw.
    destruct (Stepgen.write_speed_target (snd iw)) as [v | ];
      [rewrite Hwrap by exact Hw; exact Hw | exact Htarget]. }
  assert (Hramp : - Stepgen.max_speed o
                  <= Stepgen.speed_target
                       (Stepgen.velocity_ramp pk (fst iw) o
                          (Stepgen.owner pk (snd iw) o))
                  <= Stepgen.max_speed o).
  { unfold Stepgen.velocity_ramp, If; cbv zeta.
    split_ifs; cbn; try exact Howner; lia. }
  rewrite tick_speed_target.
  destruct (Stepgen.reset (fst iw)); [lia | ].
  unfold Stepgen.position_algorithm.
  split_ifs; cbn [Stepgen.speed_target Stepgen.set_speed_target];
    rewrite ?Hwrap by lia; try exact Hramp; lia.
Qed.

(** The speed follows the target without passing it. *)
Lemma tick_speed_limited iw o :
  0 <= Stepgen.max_speed o < 2 ^ (Stepgen.speed_width pk - 1) ->
  0 <= Stepgen.max_acceleration o ->
  - Stepgen.max_speed o <= Stepgen.speed o <= Stepgen.max_speed o ->
  - Stepgen.max_speed o <= Stepgen.speed_target o <= Stepgen.max_speed o ->
  - Stepgen.max_speed o
  <= Stepgen.speed (Stepgen.tick pk soft_stop iw o)
  <= Stepgen.max_speed o.
Proof.
  intros Hmax Hacc Hspeed Htarget.
  destruct (Stepgen.reset (fst iw)) eqn:Hreset.
  { destruct (tick_speed_on_reset pk soft_stop iw o Hreset) as (Hzero & _).
    rewrite Hzero. lia. }
  unfold Stepgen.tick. rewrite sync_speed by exact Hreset.
  rewrite ramp_speed, Hreset, owner_speed.
  cbn [negb andb]. unfold Stepgen.assign_speed.
  destruct (Stepgen.wait o); cbn [negb]; [exact Hspeed | ].
  destruct (Z.eqb_spec (Stepgen.max_acceleration o) 0); [exact Htarget | ].
  destruct (Z.geb_spec (Stepgen.speed_target o)
              (Stepgen.speed o + Stepgen.max_acceleration o)).
  { rewrite wrap_signed_fits by (unfold in_signed; lia). lia. }
  destruct (Z.leb_spec (Stepgen.speed_target o)
              (Stepgen.speed o - Stepgen.max_acceleration o)).
  { rewrite wrap_signed_fits by (unfold in_signed; lia). lia. }
  destruct (negb (Bool.eqb (Stepgen.position_mode o) true)
            || (Stepgen.speed_target o =? 0)); [exact Htarget | exact Hspeed].
Qed.

End SpeedLimit.

(** X8: the speed never passes the speed limit.  With a limit that is not
    negative and fits the speed register, a speed and a speed target that
    start within the limit, and an owner that writes no speed target beyond
    it, the speed is within [- max_speed, max_speed] after every tick, in
    position mode and in velocity mode, with and without resets. *)
Theorem speed_stays_within_max_speed pk soft_stop ins s k :
  0 <= Stepgen.max_speed s < 2 ^ (Stepgen.speed_width pk - 1) ->
  0 <= Stepgen.max_acceleration s ->
  - Stepgen.max_speed s <= Stepgen.speed s <= Stepgen.max_speed s ->
  - Stepgen.max_speed s <= Stepgen.speed_target s <= Stepgen.max_speed s ->
  (forall j, Stepgen.writes_within (Stepgen.max_speed s) (snd (ins j))) ->
  - Stepgen.max_speed s
  <= Stepgen.speed (Stepgen.run pk soft_stop ins k s)
  <= Stepgen.max_speed s.
Proof.
  intros Hmax Hacc Hspeed Htarget Hw.
  assert (Hinv : Stepgen.max_speed (Stepgen.run pk soft_stop ins k s)
                 = Stepgen.max_speed s
                 /\ 0 <= Stepgen.max_acceleration
                           (Stepgen.run pk soft_stop ins k s)
                 /\ - Stepgen.max_speed s
                    <= Stepgen.speed (Stepgen.run pk soft_stop ins k s)
                    <= Stepgen.max_speed s
                 /\ - Stepgen.max_speed s
                    <= Stepgen.speed_target
                         (Stepgen.run pk soft_stop ins k s)
                    <= Stepgen.max_speed s).
  { induction k as [ | k IH]; [auto | ].
    destruct IH as (IHmax & IHacc & IHspeed & IHtarget).
    rewrite run_step.
    split; [rewrite tick_max_speed; exact IHmax | ].
    split.
    { rewrite tick_max_acceleration.
      destruct (Stepgen.reset (fst (ins k))); [lia | exact IHacc]. }
    rewrite <- IHmax in *.
    split.
    - apply tick_speed_limited; assumption.
    - apply tick_speed_target_limited; [assumption | assumption | ].
      apply Hw. }
  destruct Hinv as (_ & _ & Hv & _). exact Hv.
Qed.

(** A move of the test bench's generator in position mode towards a far
    target: 2000 ticks later the speed is still within the limit. *)
Lemma speed_stays_within_max_speed_witness :
  - 219902325
  <= Stepgen.speed
       (Stepgen.run bench_pick_offs true (fun _ => running) 2000
          (Stepgen.set_position_target (2 ^ 40)
             (generator_at_rest true 0 0 35184)))
  <= 219902325.
Proof.
  apply (speed_stays_within_max_speed bench_pick_offs true
           (fun _ => running) 
           (Stepgen.set_position_target (2 ^ 40)
              (generator_at_rest true 0 0 35184)) 2000).
  - vm_compute. split; [intros H; discriminate H | reflexivity].
  - vm_compute. intros H; discriminate H.
  - vm_compute. split; intros H; discriminate H.
  - vm_compute. split; intros H; discriminate H.
  - intros j. exact I.
Defined.

(** * Further properties of the sequencer *)




Lemma stopped_needs_acceleration pk s :
  Stepgen.stopped pk s = true -> 0 < Stepgen.max_acceleration s.
Proof.
  intros Hstopped.
  destruct (stopped_parts pk s Hstopped) as (Hlt & Hgt & _).
  destruct (Z.lt_trichotomy (Stepgen.max_acceleration s) 0)
    as [Hneg | [Hz | Hp]]; [ | | exact Hp].
  - assert (Z.shiftr (5 * Stepgen.max_acceleration s)
              (Stepgen.acc_shift pk) < 0)
      by (apply Z.shiftr_neg; lia).
    assert (0 <= Z.shiftr (-5 * Stepgen.max_acceleration s)
                   (Stepgen.acc_shift pk))
      by (apply Z.shiftr_nonneg; lia).
    lia.
  - rewrite Hz in Hlt, Hgt.
    change (5 * 0) with 0 in Hlt. change (-5 * 0) with 0 in Hgt.
    rewrite Z.shiftr_0_l in Hlt, Hgt. lia.
Qed.

Section SequencerAtWork.

Variable pk : Stepgen.pick_offs.
Variable cfg : Toolerator.config.

Lemma sequencer_run_step ins k r :
  Toolerator.run pk cfg ins (S k) r
  = Toolerator.tick pk cfg (ins k) (Toolerator.run pk cfg ins k r).
Proof. reflexivity. Qed.

(** A tick on which the sequencer writes nothing is a tick of the
    generator alone. *)
Lemma left_alone_tick i o :
  Toolerator.sequencer_writes pk cfg i o = o ->
  Toolerator.tick pk cfg i o
  = Toolerator.on_generator
      (Stepgen.tick pk true
         (Toolerator.generator_inputs i, Stepgen.no_writes)) o.
Proof.
  intros Hquiet. unfold Toolerator.tick. rewrite Hquiet.
  destruct o; reflexivity.
Qed.

(** The states in which the sequencer has nothing to do. *)
Lemma sequencer_writes_nothing i o :
  Toolerator.state o = Toolerator.ERROR
  \/ (Toolerator.homing cfg = None
      /\ (Toolerator.state o = Toolerator.HOME_SEARCHING
          \/ Toolerator.state o = Toolerator.HOME_BACK_OFF
          \/ Toolerator.state o = Toolerator.HOME_LATCHING
          \/ Toolerator.state o = Toolerator.HOME_MOVE_TO_ZERO))
  \/ ((Toolerator.state o = Toolerator.MOVING_FORWARD
       \/ Toolerator.state o = Toolerator.MOVING_BACKWARD)
      /\ Stepgen.stopped pk (Toolerator.step_generator o) = false) ->
  Toolerator.sequencer_writes pk cfg i o = o.
Proof.
  intros [Herr | [(Hcfg & Hst) | (Hst & Hmoving)]].
  - rewrite sequencer_writes_idle by auto 6.
    unfold Toolerator.fsm. rewrite Herr. reflexivity.
  - unfold Toolerator.sequencer_writes, Toolerator.fsm.
    destruct Hst as [H | [H | [H | H]]]; rewrite H; reflexivity.
  - rewrite sequencer_writes_idle by (destruct Hst; auto 6).
    unfold Toolerator.fsm.
    destruct Hst as [H | H]; rewrite H, Hmoving; reflexivity.
Qed.

(** While the sequencer has nothing to do, its registers keep their
    values and its generator runs on its own. *)
Lemma left_alone_run (quiet : Toolerator.registers -> Prop) ins k r :
  (forall i o, quiet o -> Toolerator.sequencer_writes pk cfg i o = o) ->
  (forall i o, quiet o ->
               quiet (Toolerator.on_generator
                        (Stepgen.tick pk true
                           (Toolerator.generator_inputs i,
                            Stepgen.no_writes)) o)) ->
  quiet r ->
  quiet (Toolerator.run pk cfg ins k r)
  /\ Toolerator.run pk cfg ins k r
     = Toolerator.on_generator
         (fun _ => Stepgen.run pk true (left_alone ins) k
                     (Toolerator.step_generator r)) r.
Proof.
  intros Hwrites Hkeeps Hr.
  induction k as [ | k (IHquiet & IHrun)].
  - split; [exact Hr | destruct r; reflexivity].
  - rewrite sequencer_run_step.
    rewrite left_alone_tick by (apply Hwrites, IHquiet).
    split; [apply Hkeeps, IHquiet | ].
    rewrite IHrun. reflexivity.
Qed.


End SequencerAtWork.

(** ** A turret at rest *)

Lemma wrap_signed_zero w : wrap_signed w 0 = 0.
Proof.
  unfold wrap_signed. rewrite Z.add_0_l.
  destruct (Z_lt_le_dec w 1) as [Hsmall | Hbig].
  - rewrite (Z.pow_neg_r 2 (w - 1)) by lia. rewrite Zmod_0_l. reflexivity.
  - assert (Hhalf : 0 < 2 ^ (w - 1)) by (apply Z.pow_pos_nonneg; lia).
    assert (Hfull : 2 ^ w = 2 * 2 ^ (w - 1)).
    { rewrite <- Z.pow_succ_r by lia. f_equal. lia. }
    rewrite Z.mod_small by lia. lia.
Qed.

Section Calm.

Variable pk : Stepgen.pick_offs.
Variable soft_stop : bool.

(** A generator at rest exactly on its target stays there, in either
    mode, as long as no target is written. *)
Lemma calm_tick iw o :
  Stepgen.reset (fst iw) = false ->
  Stepgen.write_speed_target (snd iw) = None ->
  Stepgen.write_position_target (snd iw) = None ->
  0 <= Stepgen.max_acceleration o ->
  Stepgen.position o = 0 ->
  Stepgen.position_target o = 0 ->
  Stepgen.speed o = 0 ->
  Stepgen.speed_target o = 0 ->
  Stepgen.acc_distance o = 0 ->
  Stepgen.max_acceleration (Stepgen.tick pk soft_stop iw o)
  = Stepgen.max_acceleration o
  /\ Stepgen.position (Stepgen.tick pk soft_stop iw o) = 0
  /\ Stepgen.position_target (Stepgen.tick pk soft_stop iw o) = 0
  /\ Stepgen.speed (Stepgen.tick pk soft_stop iw o) = 0
  /\ Stepgen.speed_target (Stepgen.tick pk soft_stop iw o) = 0
  /\ Stepgen.acc_distance (Stepgen.tick pk soft_stop iw o) = 0.
Proof.
  intros Hreset Hwt Hwp Hacc Hpos Hpt Hspeed Htarget Hdist.
  assert (Howner : Stepgen.speed_target (Stepgen.owner pk (snd iw) o) = 0).
  { rewrite owner_speed_target, Hwt. exact Htarget. }
  split; [ | split; [ | split; [ | split; [ | split]]]].
  - rewrite tick_max_acceleration, Hreset. reflexivity.
  - rewrite tick_position, Hreset, Hpos, Hspeed, Z.shiftr_0_l.
    unfold Stepgen.assign_position. rewrite wrap_signed_zero.
    destruct (if soft_stop then negb (Stepgen.wait o)
              else Stepgen.enable (fst iw) && negb (Stepgen.wait o));
      reflexivity.
  - unfold Stepgen.tick. rewrite sync_position_target.
    unfold Stepgen.owner; cbv zeta. rewrite Hwt, Hwp.
    destruct (Stepgen.write_position_mode (snd iw)); exact Hpt.
  - unfold Stepgen.tick. rewrite sync_speed by exact Hreset.
    rewrite ramp_speed, Hreset, Htarget, Hspeed, owner_speed, Hspeed.
    cbn [negb andb Z.eqb orb].
    destruct (Stepgen.wait o); cbn [negb]; [reflexivity | ].
    rewrite orb_true_r.
    destruct (Z.eqb_spec (Stepgen.max_acceleration o) 0); [reflexivity | ].
    destruct (Z.geb_spec 0 (0 + Stepgen.max_acceleration o)); [lia | ].
    destruct (Z.leb_spec 0 (0 - Stepgen.max_acceleration o)); [lia | ].
    reflexivity.
  - rewrite tick_speed_target, Hreset.
    assert (Hzero : Stepgen.dtg pk o = 0).
    { unfold Stepgen.dtg, Stepgen.assign_position.
      rewrite Hpos, Hpt. apply wrap_signed_zero. }
    assert (Hup : 0 <= Z.shiftr (5 * Stepgen.max_acceleration o)
                         (Stepgen.acc_shift pk))
      by (apply Z.shiftr_nonneg; lia).
    assert (Hdown : Z.shiftr (-5 * Stepgen.max_acceleration o)
                      (Stepgen.acc_shift pk) <= 0).
    { destruct (Z.eq_dec (Stepgen.max_acceleration o) 0) as [Hz | Hnz].
      - rewrite Hz. change (-5 * 0) with 0. rewrite Z.shiftr_0_l. lia.
      - assert (Z.shiftr (-5 * Stepgen.max_acceleration o)
                  (Stepgen.acc_shift pk) < 0)
          by (apply Z.shiftr_neg; lia).
        lia. }
    unfold Stepgen.position_algorithm. rewrite Hdist, Hzero.
    cbn [Z.eqb Z.gtb Z.ltb Z.compare andb].
    destruct (Stepgen.position_mode o).
    + destruct (Z.gtb_spec 0 (Z.shiftr (5 * Stepgen.max_acceleration o)
                                (Stepgen.acc_shift pk))); [lia | ].
      destruct (Z.ltb_spec 0 (Z.shiftr (-5 * Stepgen.max_acceleration o)
                                (Stepgen.acc_shift pk))); [lia | ].
      apply ramp_speed_target_zero, Howner.
    + apply ramp_speed_target_zero, Howner.
  - unfold Stepgen.tick. rewrite sync_acc_distance.
    destruct (Stepgen.wait o) eqn:Hwait.
    { rewrite ramp_skipped by (right; exact Hwait).
      rewrite owner_acc_distance. exact Hdist. }
    destruct (Z.eq_dec (Stepgen.max_acceleration o) 0) as [Hz | Hnz].
    + unfold Stepgen.velocity_ramp, If; cbv zeta.
      rewrite Hreset, Hwait, Hz. cbn [negb andb Z.eqb].
      destruct (negb (Stepgen.enable (fst iw)));
        cbn [Stepgen.acc_distance Stepgen.set_speed Stepgen.set_speed_target];
        rewrite owner_acc_distance; exact Hdist.
    + rewrite small_gap_branch by (try assumption; lia).
      rewrite Htarget. reflexivity.
Qed.

End Calm.

Section SequencerAtRest.

Variable pk : Stepgen.pick_offs.
Variable cfg : Toolerator.config.

Lemma waiting_tick i o :
  Toolerator.waiting_at_first_tool o ->
  (Toolerator.state o = Toolerator.START /\ Toolerator.home i = false)
  \/ Toolerator.state o = Toolerator.READY ->
  Toolerator.commanded_tool i = 0 ->
  Toolerator.waiting_at_first_tool (Toolerator.tick pk cfg i o)
  /\ Toolerator.state (Toolerator.tick pk cfg i o) = Toolerator.READY.
Proof.
  intros (Htool & Hhomed & Hacc & Hpos & Hpt & Hspeed & Htarget & Hdist)
    Hst Hcmd.
  assert (Htick : exists w,
             Stepgen.write_speed_target w = None
             /\ Stepgen.write_position_target w = None
             /\ Toolerator.tick pk cfg i o
                = Toolerator.set_state Toolerator.READY
                    (Toolerator.on_generator
                       (fun _ => Stepgen.tick pk true
                                   (Toolerator.generator_inputs i, w)
                                   (Toolerator.step_generator o)) o)).
  { unfold Toolerator.tick.
    rewrite sequencer_writes_idle by (destruct Hst as [(H & _) | H]; auto).
    unfold Toolerator.fsm, If.
    destruct Hst as [(Hst & Hhome) | Hst]; rewrite Hst.
    - rewrite Hhomed, Hhome. cbn [Bool.eqb orb].
      exists {| Stepgen.write_position_mode := Some true;
                Stepgen.write_speed_target := None;
                Stepgen.write_position_target := None |}.
      split; [reflexivity | split; [reflexivity | ]].
      destruct o; reflexivity.
    - rewrite Htool, Hcmd. cbn [Z.eqb negb andb].
      exists Stepgen.no_writes.
      split; [reflexivity | split; [reflexivity | ]].
      destruct o; cbn in Hst |- *; rewrite Hst; reflexivity. }
  destruct Htick as (w & Hwt & Hwp & Htick). rewrite Htick.
  destruct (calm_tick pk true (Toolerator.generator_inputs i, w)
              (Toolerator.step_generator o))
    as (Ha & Hp & Hq & Hv & Ht & Hd); try assumption; try reflexivity.
  unfold Toolerator.waiting_at_first_tool.
  cbn [Toolerator.state Toolerator.current_tool Toolerator.homed
         Toolerator.step_generator Toolerator.set_state
         Toolerator.on_generator].
  rewrite Ha, Hp, Hq, Hv, Ht, Hd. auto 10.
Qed.

End SequencerAtRest.

(** X9: a turret without home sensor that is switched on without a home
    request is READY at tool 0 after the first tick, and for as long as
    tool 0 stays commanded it remains READY with its generator at rest at
    position 0, enabled or not. *)
Theorem idle_turret_stays_put pk cfg ins k :
  Toolerator.homing cfg = None ->
  0 <= Toolerator.stepgen_max_acceleration cfg ->
  Toolerator.home (ins 0%nat) = false ->
  (forall j, Toolerator.commanded_tool (ins j) = 0) ->
  (1 <= k)%nat ->
  Toolerator.state (Toolerator.run pk cfg ins k (Toolerator.power_up cfg))
  = Toolerator.READY
  /\ Toolerator.current_tool
       (Toolerator.run pk cfg ins k (Toolerator.power_up cfg)) = 0
  /\ Stepgen.position
       (Toolerator.step_generator
          (Toolerator.run pk cfg ins k (Toolerator.power_up cfg))) = 0
  /\ Stepgen.speed
       (Toolerator.step_generator
          (Toolerator.run pk cfg ins k (Toolerator.power_up cfg))) = 0.
Proof.
  intros Hcfg Hacc Hhome Hcmd Hk.
  assert (Hinv : Toolerator.waiting_at_first_tool
                   (Toolerator.run pk cfg ins k (Toolerator.power_up cfg))
                 /\ Toolerator.state
                      (Toolerator.run pk cfg ins k (Toolerator.power_up cfg))
                    = Toolerator.READY).
  { destruct k as [ | k]; [lia | clear Hk].
    induction k as [ | k IH].
    - rewrite sequencer_run_step. apply waiting_tick.
      + unfold Toolerator.waiting_at_first_tool, Toolerator.power_up.
        rewrite Hcfg. cbn. auto 10.
      + left. split; [reflexivity | exact Hhome].
      + apply Hcmd.
    - destruct IH as (IHrest & IHst).
      rewrite sequencer_run_step. apply waiting_tick.
      + exact IHrest.
      + right. exact IHst.
      + apply Hcmd. }
  destruct Hinv as ((Htool & _ & _ & Hpos & _ & Hspeed & _) & Hst).
  auto.
Qed.

(** The test bench left with tool 0 commanded for 300 ticks. *)
Lemma idle_turret_stays_put_witness :
  Toolerator.state
    (Toolerator.run bench_pick_offs test_bench_config (fun _ => command 0)
       300 (Toolerator.power_up test_bench_config)) = Toolerator.READY
  /\ Toolerator.current_tool
       (Toolerator.run bench_pick_offs test_bench_config (fun _ => command 0)
          300 (Toolerator.power_up test_bench_config)) = 0
  /\ Stepgen.position
       (Toolerator.step_generator
          (Toolerator.run bench_pick_offs test_bench_config
             (fun _ => command 0) 300
             (Toolerator.power_up test_bench_config))) = 0
  /\ Stepgen.speed
       (Toolerator.step_generator
          (Toolerator.run bench_pick_offs test_bench_config
             (fun _ => command 0) 300
             (Toolerator.power_up test_bench_config))) = 0.
Proof.
  apply (idle_turret_stays_put bench_pick_offs test_bench_config
           (fun _ => command 0) 300).
  - reflexivity.
  - vm_compute. intros H; discriminate H.
  - reflexivity.
  - intros j. reflexivity.
  - apply Nat.leb_le. vm_compute. reflexivity.
Defined.

(** ** Tool changes *)



(** X11: with [max_acceleration] at 0 the generator never reports
    [stopped], so a move that has begun never ends: the machine stays in
    MOVING_FORWARD (or MOVING_BACKWARD) and the tool number is never
    updated. *)
Theorem tool_change_hangs_without_acceleration pk cfg ins r k :
  Toolerator.state r = Toolerator.MOVING_FORWARD
  \/ Toolerator.state r = Toolerator.MOVING_BACKWARD ->
  Stepgen.max_acceleration (Toolerator.step_generator r) = 0 ->
  Toolerator.state (Toolerator.run pk cfg ins k r) = Toolerator.state r
  /\ Toolerator.current_tool (Toolerator.run pk cfg ins k r)
     = Toolerator.current_tool r.
Proof.
  intros Hst Hacc.
  destruct (left_alone_run pk cfg
              (fun o => Toolerator.state o = Toolerator.state r
                        /\ Stepgen.max_acceleration
                             (Toolerator.step_generator o) = 0)
              ins k r) as (_ & Hrun).
  - intros i o (Ho & Hzero). apply sequencer_writes_nothing.
    right. right. split; [rewrite Ho; exact Hst | ].
    destruct (Stepgen.stopped pk (Toolerator.step_generator o)) eqn:Hstopped;
      [ | reflexivity].
    apply stopped_needs_acceleration in Hstopped. lia.
  - intros i o (Ho & Hzero).
    cbn [Toolerator.state Toolerator.step_generator Toolerator.on_generator].
    split; [exact Ho | ].
    rewrite tick_max_acceleration.
    destruct (Stepgen.reset
                (fst (Toolerator.generator_inputs i, Stepgen.no_writes)));
      [reflexivity | exact Hzero].
  - split; [reflexivity | exact Hacc].
  - rewrite Hrun. split; reflexivity.
Qed.

(** The test bench with [max_acc] at 5, which is 0 in the register: the
    move to tool 1 begins on the second tick and is still under way after
    500 ticks. *)
Lemma tool_change_hangs_without_acceleration_witness :
  Toolerator.state
    (Toolerator.run bench_pick_offs unaccelerated_config
       (fun _ => command 1) 500
       (Toolerator.run bench_pick_offs unaccelerated_config
          (fun _ => command 1) 2 (Toolerator.power_up unaccelerated_config)))
  = Toolerator.MOVING_FORWARD
  /\ Toolerator.current_tool
       (Toolerator.run bench_pick_offs unaccelerated_config
          (fun _ => command 1) 500
          (Toolerator.run bench_pick_offs unaccelerated_config
             (fun _ => command 1) 2
             (Toolerator.power_up unaccelerated_config)))
     = 0.
Proof.
  destruct (tool_change_hangs_without_acceleration bench_pick_offs
              unaccelerated_config (fun _ => command 1)
              (Toolerator.run bench_pick_offs unaccelerated_config
                 (fun _ => command 1) 2
                 (Toolerator.power_up unaccelerated_config)) 500)
    as (Hst & Htool).
  - left. vm_compute. reflexivity.
  - vm_compute. reflexivity.
  - split.
    + etransitivity; [exact Hst | vm_compute; reflexivity].
    + etransitivity; [exact Htool | vm_compute; reflexivity].
Defined.

(** ** States without a way out *)

(** X13: a turret without home sensor that gets a home request on its
    first tick starts the search all the same, and never ends it: nothing
    handles HOME_SEARCHING when no homing is configured.  While enabled
    the generator stays in velocity mode with [max_speed] as its speed
    target, and no tool command is served. *)
Theorem home_request_without_sensor_never_ends pk cfg ins k :
  Toolerator.homing cfg = None ->
  Toolerator.home (ins 0%nat) = true ->
  (forall j, Toolerator.enable (ins j) = true) ->
  (1 <= k)%nat ->
  Toolerator.state (Toolerator.run pk cfg ins k (Toolerator.power_up cfg))
  = Toolerator.HOME_SEARCHING
  /\ Stepgen.position_mode
       (Toolerator.step_generator
          (Toolerator.run pk cfg ins k (Toolerator.power_up cfg))) = false
  /\ Stepgen.speed_target
       (Toolerator.step_generator
          (Toolerator.run pk cfg ins k (Toolerator.power_up cfg)))
     = Toolerator.stepgen_max_speed cfg.
Proof.
  intros Hcfg Hhome Hen Hk.
  destruct k as [ | k]; [lia | clear Hk].
  induction k as [ | k (IHst & IHmode & IHtarget)].
  - rewrite sequencer_run_step. cbn [Toolerator.run].
    destruct (home_request_starts_search pk cfg (ins 0%nat)
                (Toolerator.power_up cfg))
      as (Hst & _ & Hmode & Htarget); auto.
  - rewrite sequencer_run_step.
    rewrite left_alone_tick
      by (apply sequencer_writes_nothing; right; left; auto).
    cbn [Toolerator.state Toolerator.step_generator Toolerator.on_generator].
    destruct (velocity_mode_tick pk true
                (Toolerator.generator_inputs (ins (S k)), Stepgen.no_writes)
                (Toolerator.step_generator
                   (Toolerator.run pk cfg ins (S k)
                      (Toolerator.power_up cfg))))
      as (Hmode & Htarget & _).
    + split; [apply Hen | split; reflexivity].
    + exact IHmode.
    + rewrite Hmode, Htarget. auto.
Qed.

(** The test bench, which has no home sensor, with a home request on the
    first tick. *)
Lemma home_request_without_sensor_never_ends_witness :
  Toolerator.state
    (Toolerator.run bench_pick_offs test_bench_config request_home_once 400
       (Toolerator.power_up test_bench_config))
  = Toolerator.HOME_SEARCHING
  /\ Stepgen.position_mode
       (Toolerator.step_generator
          (Toolerator.run bench_pick_offs test_bench_config
             request_home_once 400
             (Toolerator.power_up test_bench_config))) = false
  /\ Stepgen.speed_target
       (Toolerator.step_generator
          (Toolerator.run bench_pick_offs test_bench_config
             request_home_once 400
             (Toolerator.power_up test_bench_config)))
     = 219902325.
Proof.
  apply (home_request_without_sensor_never_ends bench_pick_offs
           test_bench_config request_home_once 400).
  - reflexivity.
  - reflexivity.
  - intros j. reflexivity.
  - apply Nat.leb_le. vm_compute. reflexivity.
Defined.

(** ** The pick-offs chosen by [create_from_config] *)



